(** * trading_algo: a shallow embedding of the broker, backtest and LLM-tool
    layers, and the properties of their specification.

    Conventions of the embedding.
    - A Python [float] is a rational number ([Qc]): comparisons and the
      arithmetic of fills are exact; NaN, infinities and rounding are outside
      the model.
    - A Python [str] is a [string] of 8-bit characters; [upper] and [strip]
      act on the ASCII letters and the ASCII white space.
    - A raised exception is a value of [result]; a method of a mutable object
      is a function from the object to an outcome and the object after the
      call, so that a mutation made before a [raise] stays visible.
    - [uuid.uuid4()] and [time.time()] are inputs of the operation that calls
      them. *)

From Stdlib Require Import QArith Qcanon Ascii.
From stdpp Require Import base option list strings gmap numbers pretty sorting.

#[local] Set Warnings "-clear-no-such-hyp".

Local Open Scope string_scope.
Local Open Scope list_scope.
Local Open Scope nat_scope.

(** ** Exceptions and fallible computations *)

(** The exception classes raised by the modelled code.  The specification
    calls [RuntimeError "Broker is not connected"] NotConnected, [KeyError]
    NotFound and [ValueError] InvalidInput; [ToolError] is the dispatcher's
    own subclass of [RuntimeError]. *)
Inductive exn : Set :=
  | RuntimeError
  | KeyError
  | ValueError
  | TypeError
  | IndexError
  | ToolError.

Abbreviation NotConnected := RuntimeError (only parsing).
Abbreviation NotFound := KeyError (only parsing).
Abbreviation InvalidInput := ValueError (only parsing).

Inductive result (A : Type) : Type :=
  | Ok (a : A)
  | Raise (e : exn).
Arguments Ok {A} a.
Arguments Raise {A} e.

Global Instance exn_eq_dec : EqDecision exn.
Proof. solve_decision. Defined.

Global Instance result_ret : MRet result := fun A a => Ok a.
Global Instance result_bind : MBind result := fun A B f m =>
  match m with
  | Ok a => f a
  | Raise e => Raise e
  end.

Definition is_ok {A} (r : result A) : bool :=
  match r with Ok _ => true | Raise _ => false end.

(** [if cond: raise e] *)
Definition raise_if (cond : bool) (e : exn) : result unit :=
  if cond then Raise e else Ok tt.

(** ** Python values used by the code *)

(** A float is modelled by its value when that value is finite, and its
    arithmetic is exact.  Infinities and NaN are in [PyFloat], below, on
    which the checks of [validate_order_request] are embedded again. *)
Definition float := Qc.

Definition fle (a b : float) : bool := bool_decide (a ≤ b)%Qc.
Definition flt (a b : float) : bool := bool_decide (a < b)%Qc.
Definition fge (a b : float) : bool := fle b a.
Definition fgt (a b : float) : bool := flt b a.
Definition feq (a b : float) : bool := bool_decide (a = b).

Definition float_of_Z (z : Z) : float := Q2Qc (inject_Z z).
(** [int(x)]: truncation towards zero. *)
Definition int_of_float (x : float) : Z := Z.quot (Qnum x) (Zpos (Qden x)).
Definition fzero : float := 0%Qc.
Definition fabs (x : float) : float := if flt x fzero then (- x)%Qc else x.

Module Py.

Definition is_upper_target (c : ascii) : bool :=
  let n := nat_of_ascii c in (97 <=? n)%nat && (n <=? 122)%nat.

Definition upper_char (c : ascii) : ascii :=
  if is_upper_target c then ascii_of_nat (nat_of_ascii c - 32) else c.

(** [s.upper()] *)
Fixpoint upper (s : string) : string :=
  match s with
  | EmptyString => EmptyString
  | String c s' => String (upper_char c) (upper s')
  end.

(** [c.isspace()] on ASCII: tab, line feed, vertical tab, form feed,
    carriage return, the four separators 0x1c-0x1f and the space. *)
Definition isspace (c : ascii) : bool :=
  let n := nat_of_ascii c in
  ((9 <=? n)%nat && (n <=? 13)%nat) || ((28 <=? n)%nat && (n <=? 32)%nat).

Fixpoint lstrip (s : string) : string :=
  match s with
  | EmptyString => EmptyString
  | String c s' => if isspace c then lstrip s' else s
  end.

Definition rstrip (s : string) : string := String.rev (lstrip (String.rev s)).

(** [s.strip()] *)
Definition strip (s : string) : string := rstrip (lstrip s).

(** Truth value of a string: [bool(s)]. *)
Definition truthy (s : string) : bool :=
  match s with EmptyString => false | _ => true end.

(** [x.strip() if x else None] for an optional string. *)
Definition strip_or_none (x : option string) : option string :=
  match x with
  | Some s => if truthy s then Some (strip s) else None
  | None => None
  end.

(** Truth value of an optional string. *)
Definition truthy_opt (x : option string) : bool :=
  match x with Some s => truthy s | None => false end.

End Py.

(** ** trading_algo/instruments.py *)

Module Instruments.

(** Modelled from the spec: the module [trading_algo.instruments], which
    declares [InstrumentSpec], is missing from the sources.  The fields are
    those the callers pass to the constructor. *)
Record InstrumentSpec : Set := mkInstrument {
  kind : string;
  symbol : string;
  exchange : option string;
  currency : option string;
  expiry : option string
}.

Global Instance InstrumentSpec_eq_dec : EqDecision InstrumentSpec.
Proof. solve_decision. Defined.

Global Instance InstrumentSpec_countable : Countable InstrumentSpec.
Proof.
  refine (inj_countable'
    (fun i => (kind i, symbol i, exchange i, currency i, expiry i))
    (fun t => match t with (k, s, e, c, x) => mkInstrument k s e c x end) _).
  by intros [].
Defined.

(** The code under verification calls [validate_instrument] and does not
    define it: it is an interface of the development.  Every definition and
    theorem below holds for any implementation. *)
Class Validator := validate_instrument : InstrumentSpec -> result InstrumentSpec.

(** Modelled from the spec: [validate_instrument] fails with InvalidInput when
    the kind is not one of STK/FUT/FX, when the symbol is empty and when a FUT
    has no expiry; it normalizes the casing of kind, symbol and currency and
    supplies the defaults SMART/USD for STK, USD for FUT and IDEALPRO for
    FX.  Used to run the code on concrete inputs. *)
Definition validate_instrument_spec (spec : InstrumentSpec) : result InstrumentSpec :=
  let k := Py.upper (kind spec) in
  let s := Py.upper (symbol spec) in
  let c := Py.upper <$> currency spec in
  if negb (Py.truthy s) then Raise InvalidInput
  else if bool_decide (k = "STK") then
    Ok (mkInstrument k s
          (Some (default "SMART" (exchange spec)))
          (Some (default "USD" c))
          (expiry spec))
  else if bool_decide (k = "FUT") then
    match expiry spec with
    | None => Raise InvalidInput
    | Some x =>
        if Py.truthy x
        then Ok (mkInstrument k s (exchange spec) (Some (default "USD" c)) (Some x))
        else Raise InvalidInput
    end
  else if bool_decide (k = "FX") then
    Ok (mkInstrument k s (Some (default "IDEALPRO" (exchange spec))) c (expiry spec))
  else Raise InvalidInput.

Definition spec_validator : Validator := validate_instrument_spec.

End Instruments.
Export Instruments.

(** ** trading_algo/broker/base.py *)

Module Base.

Record OrderRequest : Type := mkOrderRequest {
  instrument : InstrumentSpec;
  side : string;
  quantity : float;
  order_type : string;
  limit_price : option float;
  stop_price : option float;
  tif : string;
  outside_rth : bool;
  good_till_date : option string;
  account : option string;
  order_ref : option string;
  oca_group : option string;
  transmit : bool
}.

Global Instance OrderRequest_eq_dec : EqDecision OrderRequest.
Proof. solve_decision. Defined.

(** The record [OrderRequest.normalized] builds once the instrument has been
    validated. *)
Definition normalized_with (inst : InstrumentSpec) (self : OrderRequest) : OrderRequest :=
  {| instrument := inst;
     side := Py.upper (Py.strip (side self));
     quantity := quantity self;
     order_type := Py.upper (Py.strip (order_type self));
     limit_price := limit_price self;
     stop_price := stop_price self;
     tif := Py.upper (Py.strip (tif self));
     outside_rth := outside_rth self;
     good_till_date := Py.strip_or_none (good_till_date self);
     account := Py.strip_or_none (account self);
     order_ref := Py.strip_or_none (order_ref self);
     oca_group := Py.strip_or_none (oca_group self);
     transmit := transmit self |}.

Section WithValidator.
Context {validator : Validator}.

(** [OrderRequest.normalized] *)
Definition normalized (self : OrderRequest) : result OrderRequest :=
  inst ← validate_instrument (instrument self);
  mret (normalized_with inst self).

(** [price is None or price <= 0] *)
Definition missing_or_nonpositive (p : option float) : bool :=
  match p with
  | None => true
  | Some x => fle x fzero
  end.

Definition validate_order_request (req : OrderRequest) : result OrderRequest :=
  req ← normalized req;
  _ ← raise_if (negb (bool_decide (side req ∈ ["BUY"; "SELL"]))) ValueError;
  _ ← raise_if (fle (quantity req) fzero) ValueError;
  _ ← raise_if (negb (bool_decide (order_type req ∈ ["MKT"; "LMT"]))
                && negb (bool_decide (order_type req ∈ ["STP"; "STPLMT"]))) ValueError;
  _ ← (if bool_decide (order_type req = "LMT") then
         match limit_price req with
         | None => Raise ValueError
         | Some lp => raise_if (fle lp fzero) ValueError
         end
       else Ok tt);
  _ ← (if bool_decide (order_type req = "STP") then
         raise_if (missing_or_nonpositive (stop_price req)) ValueError
       else Ok tt);
  _ ← (if bool_decide (order_type req = "STPLMT") then
         _ ← raise_if (missing_or_nonpositive (stop_price req)) ValueError;
         raise_if (missing_or_nonpositive (limit_price req)) ValueError
       else Ok tt);
  _ ← raise_if (negb (Py.truthy (tif req))) ValueError;
  _ ← raise_if (bool_decide (tif req = "GTD") && negb (Py.truthy_opt (good_till_date req))) ValueError;
  mret req.

End WithValidator.

Record OrderResult : Type := mkOrderResult {
  res_order_id : string;
  res_status : string
}.

Record MarketDataSnapshot : Type := mkSnapshot {
  md_instrument : InstrumentSpec;
  bid : option float;
  ask : option float;
  last : option float;
  md_close : option float;
  md_volume : option float;
  md_timestamp_epoch_s : float
}.

Record Position : Type := mkPosition {
  pos_account : string;
  pos_instrument : InstrumentSpec;
  pos_quantity : float;
  avg_cost : option float;
  pos_timestamp_epoch_s : float
}.

Record AccountSnapshot : Type := mkAccountSnapshot {
  acct_account : string;
  values : gmap string float;
  acct_timestamp_epoch_s : float
}.

Record OrderStatus : Type := mkOrderStatus {
  order_id : string;
  status : string;
  filled : option float;
  remaining : option float;
  avg_fill_price : option float
}.

Record BracketOrderRequest : Type := mkBracketOrderRequest {
  br_instrument : InstrumentSpec;
  br_side : string;
  br_quantity : float;
  entry_limit_price : float;
  take_profit_limit_price : float;
  stop_loss_stop_price : float;
  br_tif : string
}.

Record BracketOrderResult : Type := mkBracketOrderResult {
  parent_order_id : string;
  take_profit_order_id : string;
  stop_loss_order_id : string
}.

Record Bar : Type := mkBar {
  timestamp_epoch_s : float;
  open : float;
  high : float;
  low : float;
  close : float;
  volume : option float
}.

Global Instance OrderResult_eq_dec : EqDecision OrderResult.
Proof. solve_decision. Defined.
Global Instance OrderStatus_eq_dec : EqDecision OrderStatus.
Proof. solve_decision. Defined.
Global Instance Bar_eq_dec : EqDecision Bar.
Proof. solve_decision. Defined.
Global Instance MarketDataSnapshot_eq_dec : EqDecision MarketDataSnapshot.
Proof. solve_decision. Defined.
Global Instance Position_eq_dec : EqDecision Position.
Proof. solve_decision. Defined.

(** [status in {"Filled", "Cancelled"}] *)
Definition is_terminal (st : string) : bool :=
  bool_decide (st ∈ ["Filled"; "Cancelled"]).

End Base.
Export Base.

(** ** trading_algo/broker/sim.py *)

Module SimBroker.

Record t : Type := mk {
  connected : bool;
  orders : list OrderRequest;
  market_data : gmap InstrumentSpec MarketDataSnapshot;
  historical_bars : gmap InstrumentSpec (list Bar);
  account : string;
  _positions : list Position;
  _account_values : gmap string float;
  _statuses : gmap string OrderStatus
}.

(** [SimBroker()] *)
Definition new : t :=
  {| connected := false;
     orders := [];
     market_data := ∅;
     historical_bars := ∅;
     account := "SIM";
     _positions := [];
     _account_values :=
       <["NetLiquidation" := float_of_Z 100000]>
         (<["GrossPositionValue" := fzero]>
            (<["AvailableFunds" := float_of_Z 100000]> ∅));
     _statuses := ∅ |}.

Definition set_connected (v : bool) (self : t) : t :=
  mk v (orders self) (market_data self) (historical_bars self) (account self)
     (_positions self) (_account_values self) (_statuses self).

Definition set_orders (v : list OrderRequest) (self : t) : t :=
  mk (connected self) v (market_data self) (historical_bars self) (account self)
     (_positions self) (_account_values self) (_statuses self).

Definition set_market_data_map (v : gmap InstrumentSpec MarketDataSnapshot) (self : t) : t :=
  mk (connected self) (orders self) v (historical_bars self) (account self)
     (_positions self) (_account_values self) (_statuses self).

Definition set_historical_bars_map (v : gmap InstrumentSpec (list Bar)) (self : t) : t :=
  mk (connected self) (orders self) (market_data self) v (account self)
     (_positions self) (_account_values self) (_statuses self).

Definition set_statuses (v : gmap string OrderStatus) (self : t) : t :=
  mk (connected self) (orders self) (market_data self) (historical_bars self) (account self)
     (_positions self) (_account_values self) v.

Definition connect (self : t) : result unit * t :=
  (Ok tt, set_connected true self).

Definition disconnect (self : t) : result unit * t :=
  (Ok tt, set_connected false self).

(** Test helper of the source, not part of the Broker protocol. *)
Definition _inject_order_status (st : OrderStatus) (self : t) : result unit * t :=
  (Ok tt, set_statuses (<[order_id st := st]> (_statuses self)) self).

(** [get_positions] returns [list(self._positions)]. *)
Definition get_positions (self : t) : result (list Position) * t :=
  if negb (connected self) then (Raise NotConnected, self)
  else (Ok (_positions self), self).

(** [now] is the value of [time.time()]. *)
Definition get_account_snapshot (now : float) (self : t) : result AccountSnapshot * t :=
  if negb (connected self) then (Raise NotConnected, self)
  else (Ok (mkAccountSnapshot (account self) (_account_values self) now), self).

(** [list_open_order_statuses]: the statuses that are not terminal, in the
    enumeration order of the map. *)
Definition list_open_order_statuses (self : t) : result (list OrderStatus) * t :=
  if negb (connected self) then (Raise NotConnected, self)
  else (Ok (filter (fun st => negb (is_terminal (status st)))
              (snd <$> map_to_list (_statuses self))), self).

Definition get_order_status (oid : string) (self : t) : result OrderStatus * t :=
  if negb (connected self) then (Raise NotConnected, self)
  else match _statuses self !! oid with
       | None => (Raise NotFound, self)
       | Some st => (Ok st, self)
       end.

Definition cancel_order (oid : string) (self : t) : result unit * t :=
  if negb (connected self) then (Raise NotConnected, self)
  else match _statuses self !! oid with
       | None => (Raise NotFound, self)
       | Some st =>
           if is_terminal (status st) then (Ok tt, self)
           else (Ok tt,
                 set_statuses
                   (<[oid := mkOrderStatus oid "Cancelled" (filled st) (remaining st)
                                (avg_fill_price st)]> (_statuses self)) self)
       end.

(** [uuid1], [uuid2], [uuid3] are the three values of [uuid.uuid4()]. *)
Definition place_bracket_order (uuid1 uuid2 uuid3 : string) (req : BracketOrderRequest)
    (self : t) : result BracketOrderResult * t :=
  if negb (connected self) then (Raise NotConnected, self)
  else
    let parent_id := "sim-" +:+ uuid1 in
    let tp_id := "sim-" +:+ uuid2 in
    let sl_id := "sim-" +:+ uuid3 in
    let s1 := <[parent_id := mkOrderStatus parent_id "Submitted" None None None]> (_statuses self) in
    let s2 := <[tp_id := mkOrderStatus tp_id "Submitted" None None None]> s1 in
    let s3 := <[sl_id := mkOrderStatus sl_id "Submitted" None None None]> s2 in
    (Ok (mkBracketOrderResult parent_id tp_id sl_id), set_statuses s3 self).

Section WithValidator.
Context {validator : Validator}.

Definition set_historical_bars (inst : InstrumentSpec) (bars : list Bar) (self : t)
    : result unit * t :=
  match validate_instrument inst with
  | Raise e => (Raise e, self)
  | Ok inst => (Ok tt, set_historical_bars_map (<[inst := bars]> (historical_bars self)) self)
  end.

(** [ts] is the [timestamp_epoch_s] argument, [now] the value of
    [time.time()]. *)
Definition set_market_data (inst : InstrumentSpec) (b a l c v : option float)
    (ts : option float) (now : float) (self : t) : result unit * t :=
  match validate_instrument inst with
  | Raise e => (Raise e, self)
  | Ok inst =>
      (Ok tt,
       set_market_data_map
         (<[inst := mkSnapshot inst b a l c v (default now ts)]> (market_data self)) self)
  end.

Definition get_market_data_snapshot (inst : InstrumentSpec) (self : t)
    : result MarketDataSnapshot * t :=
  if negb (connected self) then (Raise NotConnected, self)
  else match validate_instrument inst with
       | Raise e => (Raise e, self)
       | Ok inst =>
           match market_data self !! inst with
           | None => (Raise NotFound, self)
           | Some snap => (Ok snap, self)
           end
       end.

(** [uuid] is the value of [uuid.uuid4()]. *)
Definition place_order (uuid : string) (req : OrderRequest) (self : t)
    : result OrderResult * t :=
  if negb (connected self) then (Raise NotConnected, self)
  else match validate_order_request req with
       | Raise e => (Raise e, self)
       | Ok req =>
           let self := set_orders (orders self ++ [req]) self in
           let oid := "sim-" +:+ uuid in
           let st := mkOrderStatus oid "Filled" (Some (quantity req)) (Some fzero) None in
           (Ok (mkOrderResult oid (status st)),
            set_statuses (<[oid := st]> (_statuses self)) self)
       end.

Definition modify_order (oid : string) (new_req : OrderRequest) (self : t)
    : result OrderResult * t :=
  if negb (connected self) then (Raise NotConnected, self)
  else match _statuses self !! oid with
       | None => (Raise NotFound, self)
       | Some _ =>
           match validate_order_request new_req with
           | Raise e => (Raise e, self)
           | Ok new_req =>
               let self := set_orders (orders self ++ [new_req]) self in
               match _statuses self !! oid with
               | None => (Raise KeyError, self)
               | Some cur =>
                   if is_terminal (status cur)
                   then (Ok (mkOrderResult oid (status cur)), self)
                   else (Ok (mkOrderResult oid "Submitted"),
                         set_statuses
                           (<[oid := mkOrderStatus oid "Submitted" (filled cur) (remaining cur)
                                        (avg_fill_price cur)]> (_statuses self)) self)
               end
           end
       end.

(** The keyword arguments [end_datetime], [duration], [bar_size],
    [what_to_show] and [use_rth] are accepted and ignored. *)
Definition get_historical_bars (inst : InstrumentSpec) (end_datetime : option string)
    (duration bar_size what_to_show : string) (use_rth : bool) (self : t)
    : result (list Bar) * t :=
  if negb (connected self) then (Raise NotConnected, self)
  else match validate_instrument inst with
       | Raise e => (Raise e, self)
       | Ok inst => (Ok (default [] (historical_bars self !! inst)), self)
       end.

End WithValidator.

End SimBroker.

(** ** trading_algo/backtest/broker.py *)

Module FillModel.

Record t : Type := mk {
  commission_per_order : float;
  slippage_bps : float
}.

Definition default : t := mk fzero fzero.

Definition apply_slippage (self : t) (price : float) (side : string) : float :=
  let bps := slippage_bps self in
  if fle bps fzero then price
  else
    let sign : float := if bool_decide (Py.upper side = "BUY") then 1%Qc else (- 1)%Qc in
    (price * (1 + sign * (bps / float_of_Z 10000)))%Qc.

End FillModel.

Module BacktestBroker.

Record t : Type := mk {
  instrument : InstrumentSpec;
  bars : list Bar;
  initial_cash : float;
  fill_model : FillModel.t;
  spread : float;
  connected : bool;
  _i : nat;
  _cash : float;
  _qty : float;
  _avg_cost : option float;
  _orders : gmap string OrderRequest;
  _statuses : gmap string OrderStatus;
  _open : gset string
}.

(** [BacktestBroker(instrument, bars, initial_cash, fill_model, spread)] *)
Definition new (inst : InstrumentSpec) (bs : list Bar) (cash : float)
    (fm : FillModel.t) (spr : float) : t :=
  mk inst bs cash fm spr false 0 fzero fzero None ∅ ∅ ∅.

Definition set_connected (v : bool) (self : t) : t :=
  mk (instrument self) (bars self) (initial_cash self) (fill_model self) (spread self)
     v (_i self) (_cash self) (_qty self) (_avg_cost self)
     (_orders self) (_statuses self) (_open self).

Definition set_instrument (v : InstrumentSpec) (self : t) : t :=
  mk v (bars self) (initial_cash self) (fill_model self) (spread self)
     (connected self) (_i self) (_cash self) (_qty self) (_avg_cost self)
     (_orders self) (_statuses self) (_open self).

Definition set_i (v : nat) (self : t) : t :=
  mk (instrument self) (bars self) (initial_cash self) (fill_model self) (spread self)
     (connected self) v (_cash self) (_qty self) (_avg_cost self)
     (_orders self) (_statuses self) (_open self).

Definition set_position (cash qty : float) (avg : option float) (self : t) : t :=
  mk (instrument self) (bars self) (initial_cash self) (fill_model self) (spread self)
     (connected self) (_i self) cash qty avg
     (_orders self) (_statuses self) (_open self).

Definition set_orders (v : gmap string OrderRequest) (self : t) : t :=
  mk (instrument self) (bars self) (initial_cash self) (fill_model self) (spread self)
     (connected self) (_i self) (_cash self) (_qty self) (_avg_cost self)
     v (_statuses self) (_open self).

Definition set_statuses (v : gmap string OrderStatus) (self : t) : t :=
  mk (instrument self) (bars self) (initial_cash self) (fill_model self) (spread self)
     (connected self) (_i self) (_cash self) (_qty self) (_avg_cost self)
     (_orders self) v (_open self).

Definition set_open (v : gset string) (self : t) : t :=
  mk (instrument self) (bars self) (initial_cash self) (fill_model self) (spread self)
     (connected self) (_i self) (_cash self) (_qty self) (_avg_cost self)
     (_orders self) (_statuses self) v.

Definition disconnect (self : t) : result unit * t :=
  (Ok tt, set_connected false self).

(** [float(x)] of an optional number: [None] is a [TypeError]. *)
Definition float_of_opt (x : option float) : result float :=
  match x with
  | Some v => Ok v
  | None => Raise TypeError
  end.

Definition _try_fill (req : OrderRequest) (bar : Bar) : result (option float) :=
  let side := Py.upper (Base.side req) in
  if bool_decide (order_type req = "MKT") then Ok (Some (open bar))
  else if bool_decide (order_type req = "LMT") then
    lp ← float_of_opt (limit_price req);
    if bool_decide (side = "BUY") && fle (low bar) lp then Ok (Some lp)
    else if bool_decide (side = "SELL") && fge (high bar) lp then Ok (Some lp)
    else Ok None
  else if bool_decide (order_type req = "STP") then
    sp ← float_of_opt (stop_price req);
    if bool_decide (side = "BUY") && fge (high bar) sp then Ok (Some sp)
    else if bool_decide (side = "SELL") && fle (low bar) sp then Ok (Some sp)
    else Ok None
  else if bool_decide (order_type req = "STPLMT") then
    sp ← float_of_opt (stop_price req);
    lp ← float_of_opt (limit_price req);
    let triggered :=
      if bool_decide (side = "BUY") then fge (high bar) sp else fle (low bar) sp in
    if negb triggered then Ok None
    else if bool_decide (side = "BUY") && fle (low bar) lp then Ok (Some lp)
    else if bool_decide (side = "SELL") && fge (high bar) lp then Ok (Some lp)
    else Ok None
  else Ok None.

Definition _apply_fill (side : string) (qty price commission : float) (self : t) : t :=
  let sign : float := if bool_decide (Py.upper side = "BUY") then 1%Qc else (- 1)%Qc in
  let delta_qty := (sign * qty)%Qc in
  let cost := (price * qty * sign)%Qc in
  let cash := (_cash self - cost - commission)%Qc in
  let new_qty := (_qty self + delta_qty)%Qc in
  let avg :=
    if feq (_qty self) fzero then
      (if negb (feq new_qty fzero) then Some price else None)
    else if (fgt (_qty self) fzero && fgt delta_qty fzero)
            || (flt (_qty self) fzero && flt delta_qty fzero) then
      let prev_abs := fabs (_qty self) in
      let new_abs := fabs new_qty in
      if fgt new_abs fzero
      then Some ((default fzero (_avg_cost self) * prev_abs + price * fabs delta_qty) / new_abs)%Qc
      else _avg_cost self
    else
      (if feq new_qty fzero then None else _avg_cost self) in
  set_position cash new_qty avg self.

(** The body of the loop of [_fill_open_orders] for one order id. *)
Definition fill_order (bar : Bar) (oid : string) (self : t) : result unit * t :=
  match _orders self !! oid with
  | None => (Raise KeyError, self)
  | Some req =>
      match _try_fill req bar with
      | Raise e => (Raise e, self)
      | Ok None => (Ok tt, self)
      | Ok (Some fill) =>
          let fill_price := FillModel.apply_slippage (fill_model self) fill (side req) in
          let commission := FillModel.commission_per_order (fill_model self) in
          let self := _apply_fill (side req) (quantity req) fill_price commission self in
          let self := set_open (_open self ∖ {[oid]}) self in
          (Ok tt,
           set_statuses
             (<[oid := mkOrderStatus oid "Filled" (Some (quantity req)) (Some fzero)
                          (Some fill_price)]> (_statuses self)) self)
      end
  end.

Fixpoint fill_orders (bar : Bar) (oids : list string) (self : t) : result unit * t :=
  match oids with
  | [] => (Ok tt, self)
  | oid :: rest =>
      match fill_order bar oid self with
      | (Ok _, self) => fill_orders bar rest self
      | (Raise e, self) => (Raise e, self)
      end
  end.

(** [for oid in list(self._open)]: the ids are taken from the open set as it
    is when the loop starts. *)
Definition _fill_open_orders (bar : Bar) (self : t) : result unit * t :=
  fill_orders bar (elements (_open self)) self.

Definition step (self : t) : result bool * t :=
  if negb (connected self) then (Raise NotConnected, self)
  else if bool_decide (length (bars self) ≤ _i self)%nat then (Ok false, self)
  else match bars self !! _i self with
       | None => (Raise IndexError, self)
       | Some bar =>
           match _fill_open_orders bar self with
           | (Raise e, self) => (Raise e, self)
           | (Ok _, self) =>
               let self := set_i (S (_i self)) self in
               (Ok (bool_decide (_i self < length (bars self))%nat), self)
           end
       end.

Definition current_bar (self : t) : result Bar :=
  let idx := if bool_decide (_i self = 0%nat) then 0%nat
             else Nat.min (_i self - 1) (length (bars self) - 1)%nat in
  match bars self !! idx with
  | Some b => Ok b
  | None => Raise IndexError
  end.

Definition get_positions (self : t) : result (list Position) * t :=
  if negb (connected self) then (Raise NotConnected, self)
  else match current_bar self with
       | Raise e => (Raise e, self)
       | Ok bar =>
           (Ok [mkPosition "BACKTEST" (instrument self) (_qty self) (_avg_cost self)
                  (timestamp_epoch_s bar)], self)
       end.

Definition get_account_snapshot (self : t) : result AccountSnapshot * t :=
  if negb (connected self) then (Raise NotConnected, self)
  else match current_bar self with
       | Raise e => (Raise e, self)
       | Ok bar =>
           let last := close bar in
           let gpv := (fabs (_qty self) * last)%Qc in
           let net_liq := (_cash self + _qty self * last)%Qc in
           (Ok (mkAccountSnapshot "BACKTEST"
                  (<["NetLiquidation" := net_liq]>
                     (<["GrossPositionValue" := gpv]>
                        (<["AvailableFunds" := net_liq]>
                           (<["MaintMarginReq" := fzero]> ∅))))
                  (timestamp_epoch_s bar)), self)
       end.

Definition cancel_order (oid : string) (self : t) : result unit * t :=
  if negb (connected self) then (Raise NotConnected, self)
  else match _orders self !! oid with
       | None => (Raise NotFound, self)
       | Some _ =>
           let self := set_open (_open self ∖ {[oid]}) self in
           let st := _statuses self !! oid in
           (Ok tt,
            set_statuses
              (<[oid := mkOrderStatus oid "Cancelled"
                          (match st with Some s => filled s | None => Some fzero end)
                          (match st with Some s => remaining s | None => Some fzero end)
                          (match st with Some s => avg_fill_price s | None => None end)]>
                 (_statuses self)) self)
       end.

Definition get_order_status (oid : string) (self : t) : result OrderStatus * t :=
  if negb (connected self) then (Raise NotConnected, self)
  else match _statuses self !! oid with
       | None => (Raise NotFound, self)
       | Some st => (Ok st, self)
       end.

Fixpoint statuses_of (m : gmap string OrderStatus) (oids : list string)
    : result (list OrderStatus) :=
  match oids with
  | [] => Ok []
  | oid :: rest =>
      match m !! oid with
      | None => Raise KeyError
      | Some st => sts ← statuses_of m rest; mret (st :: sts)
      end
  end.

Definition list_open_order_statuses (self : t) : result (list OrderStatus) * t :=
  if negb (connected self) then (Raise NotConnected, self)
  else (statuses_of (_statuses self) (elements (_open self)), self).

Section WithValidator.
Context {validator : Validator}.

Definition connect (self : t) : result unit * t :=
  let self := set_connected true self in
  match validate_instrument (instrument self) with
  | Raise e => (Raise e, self)
  | Ok inst =>
      let self := set_instrument inst self in
      let self := set_position (initial_cash self) fzero None self in
      (Ok tt, set_i 0 self)
  end.

Definition get_market_data_snapshot (inst : InstrumentSpec) (self : t)
    : result MarketDataSnapshot * t :=
  if negb (connected self) then (Raise NotConnected, self)
  else match validate_instrument inst with
       | Raise e => (Raise e, self)
       | Ok inst =>
           if negb (bool_decide (inst = instrument self)) then (Raise KeyError, self)
           else match current_bar self with
                | Raise e => (Raise e, self)
                | Ok bar =>
                    let mid := close bar in
                    let has_spread := negb (feq (spread self) fzero) in
                    let bid := if has_spread then Some (mid - spread self / float_of_Z 2)%Qc else None in
                    let ask := if has_spread then Some (mid + spread self / float_of_Z 2)%Qc else None in
                    (Ok (mkSnapshot inst bid ask (Some (close bar)) (Some (close bar))
                           (volume bar) (timestamp_epoch_s bar)), self)
                end
       end.

(** The keyword arguments are accepted and ignored. *)
Definition get_historical_bars (inst : InstrumentSpec) (end_datetime : option string)
    (duration bar_size what_to_show : string) (use_rth : bool) (self : t)
    : result (list Bar) * t :=
  match validate_instrument inst with
  | Raise e => (Raise e, self)
  | Ok inst =>
      if negb (bool_decide (inst = instrument self)) then (Raise KeyError, self)
      else (Ok (take (_i self) (bars self)), self)
  end.

(** [uuid] is the value of [uuid.uuid4()]. *)
Definition place_order (uuid : string) (req : OrderRequest) (self : t)
    : result OrderResult * t :=
  if negb (connected self) then (Raise NotConnected, self)
  else match validate_order_request req with
       | Raise e => (Raise e, self)
       | Ok req =>
           match validate_instrument (Base.instrument req) with
           | Raise e => (Raise e, self)
           | Ok inst =>
               if negb (bool_decide (inst = instrument self)) then (Raise ValueError, self)
               else
                 let oid := "bt-" +:+ uuid in
                 let self := set_orders (<[oid := req]> (_orders self)) self in
                 let self := set_open ({[oid]} ∪ _open self) self in
                 let st := mkOrderStatus oid "Submitted" (Some fzero) (Some (quantity req)) None in
                 (Ok (mkOrderResult oid (status st)),
                  set_statuses (<[oid := st]> (_statuses self)) self)
           end
       end.

Definition modify_order (oid : string) (new_req : OrderRequest) (self : t)
    : result OrderResult * t :=
  if negb (connected self) then (Raise NotConnected, self)
  else match _orders self !! oid with
       | None => (Raise NotFound, self)
       | Some _ =>
           match validate_order_request new_req with
           | Raise e => (Raise e, self)
           | Ok new_req =>
               let self := set_orders (<[oid := new_req]> (_orders self)) self in
               let self :=
                 if bool_decide (oid ∈ _open self)
                 then set_statuses
                        (<[oid := mkOrderStatus oid "Submitted" (Some fzero)
                                     (Some (quantity new_req)) None]> (_statuses self)) self
                 else self in
               match _statuses self !! oid with
               | None => (Raise KeyError, self)
               | Some st => (Ok (mkOrderResult oid (status st)), self)
               end
           end
       end.

(** The three orders [place_bracket_order] builds; the fields it does not
    pass take the defaults of [OrderRequest]. *)
Definition bracket_entry (req : BracketOrderRequest) : OrderRequest :=
  mkOrderRequest (br_instrument req) (br_side req) (br_quantity req) "LMT"
    (Some (entry_limit_price req)) None (br_tif req) false None None None None true.

Definition opposite_side (side : string) : string :=
  if bool_decide (Py.upper side = "BUY") then "SELL" else "BUY".

Definition bracket_take_profit (req : BracketOrderRequest) : OrderRequest :=
  mkOrderRequest (br_instrument req) (opposite_side (br_side req)) (br_quantity req) "LMT"
    (Some (take_profit_limit_price req)) None (br_tif req) false None None None None true.

Definition bracket_stop_loss (req : BracketOrderRequest) : OrderRequest :=
  mkOrderRequest (br_instrument req) (opposite_side (br_side req)) (br_quantity req) "STP"
    None (Some (stop_loss_stop_price req)) (br_tif req) false None None None None true.

Definition place_bracket_order (uuid1 uuid2 uuid3 : string) (req : BracketOrderRequest)
    (self : t) : result BracketOrderResult * t :=
  match place_order uuid1 (bracket_entry req) self with
  | (Raise e, self) => (Raise e, self)
  | (Ok parent, self) =>
      match place_order uuid2 (bracket_take_profit req) self with
      | (Raise e, self) => (Raise e, self)
      | (Ok tp, self) =>
          match place_order uuid3 (bracket_stop_loss req) self with
          | (Raise e, self) => (Raise e, self)
          | (Ok sl, self) =>
              (Ok (mkBracketOrderResult (res_order_id parent) (res_order_id tp)
                     (res_order_id sl)), self)
          end
      end
  end.

End WithValidator.

End BacktestBroker.

(** ** trading_algo/backtest/validate.py *)

Module Validate.

(** [validate_bars] tests the timestamp and the prices of a bar against
    [None]: the bars it receives are read with every such field optional. *)
Record bar_fields : Type := mkFields {
  f_timestamp : option float;
  f_open : option float;
  f_high : option float;
  f_low : option float;
  f_close : option float;
  f_volume : option float
}.

(** A [Bar] built with all its fields, as [validate_bars] reads it. *)
Definition of_bar (b : Bar) : bar_fields :=
  mkFields (Some (timestamp_epoch_s b)) (Some (open b)) (Some (high b))
    (Some (low b)) (Some (close b)) (volume b).

Inductive level : Set := error | warn.

(** The message of an issue, kept as the data its f-string is formatted
    from: the index of the bar, the name of the field, the offending value. *)
Inductive message : Type :=
  | no_bars
  | missing_timestamp (i : nat)
  | timestamps_not_sorted (i : nat)
  | missing (i : nat) (name : string)
  | non_positive (i : nat) (name : string) (v : float)
  | low_above_high (i : nat)
  | open_outside (i : nat)
  | close_outside (i : nat)
  | duplicate_timestamp (i : nat).

Record ValidationIssue : Type := mkIssue {
  issue_level : level;
  issue_message : message
}.

Global Instance level_eq_dec : EqDecision level.
Proof. solve_decision. Defined.
Global Instance message_eq_dec : EqDecision message.
Proof. solve_decision. Defined.
Global Instance ValidationIssue_eq_dec : EqDecision ValidationIssue.
Proof. solve_decision. Defined.

(** A comparison of two numbers either of which may be [None]: Python raises
    [TypeError] when one is. *)
Definition compare_with (op : float -> float -> bool) (x y : option float) : result bool :=
  match x, y with
  | Some a, Some b => Ok (op a b)
  | _, _ => Raise TypeError
  end.

(** [x <= y <= z]: the second comparison is evaluated only when the first
    holds. *)
Definition chained_le (x y z : option float) : result bool :=
  compare_with fle x y ≫= fun lower : bool =>
  if lower then compare_with fle y z else Ok false.

(** The inner loop over the four named prices of bar [i]. *)
Definition field_issues (i : nat) (name : string) (v : option float) : list ValidationIssue :=
  match v with
  | None => [mkIssue error (missing i name)]
  | Some x => if fle x fzero then [mkIssue error (non_positive i name x)] else []
  end.

Definition price_issues (i : nat) (b : bar_fields) : list ValidationIssue :=
  field_issues i "open" (f_open b) ++ field_issues i "high" (f_high b) ++
  field_issues i "low" (f_low b) ++ field_issues i "close" (f_close b).

(** The first loop, from bar [i] on, with the issues found so far and the
    last timestamp seen. *)
Fixpoint check_bars (i : nat) (bars : list bar_fields) (last_ts : option float)
    (issues : list ValidationIssue) : result (list ValidationIssue) :=
  match bars with
  | [] => Ok issues
  | b :: rest =>
      match f_timestamp b with
      | None => check_bars (S i) rest last_ts (issues ++ [mkIssue error (missing_timestamp i)])
      | Some ts =>
          let issues :=
            match last_ts with
            | Some l => if flt ts l then issues ++ [mkIssue error (timestamps_not_sorted i)]
                        else issues
            | None => issues
            end in
          let issues := issues ++ price_issues i b in
          compare_with fgt (f_low b) (f_high b) ≫= fun above : bool =>
          let issues := if above then issues ++ [mkIssue error (low_above_high i)] else issues in
          chained_le (f_low b) (f_open b) (f_high b) ≫= fun open_in : bool =>
          let issues := if negb open_in then issues ++ [mkIssue warn (open_outside i)] else issues in
          chained_le (f_low b) (f_close b) (f_high b) ≫= fun close_in : bool =>
          let issues := if negb close_in then issues ++ [mkIssue warn (close_outside i)] else issues in
          check_bars (S i) rest (Some ts) issues
      end
  end.

(** The second loop: duplicate timestamps, with the set of those seen. *)
Fixpoint check_duplicates (i : nat) (bars : list bar_fields) (seen : gset (option float))
    (issues : list ValidationIssue) : list ValidationIssue :=
  match bars with
  | [] => issues
  | b :: rest =>
      let issues :=
        if bool_decide (f_timestamp b ∈ seen)
        then issues ++ [mkIssue warn (duplicate_timestamp i)] else issues in
      check_duplicates (S i) rest ({[f_timestamp b]} ∪ seen) issues
  end.

Definition validate_bars (bars : list bar_fields) : result (list ValidationIssue) :=
  match bars with
  | [] => Ok [mkIssue error no_bars]
  | _ =>
      issues ← check_bars 0 bars None [];
      mret (check_duplicates 0 bars ∅ issues)
  end.

End Validate.

(** ** The Python runtime: text of numbers *)

(** [float(s)] on a string, [str(x)] on a float and
    [datetime.fromisoformat(s).timestamp()] belong to the interpreter and its
    library; they are an interface of the development. *)
Class NumberText := {
  float_of_str : string -> option float;
  str_of_float : float -> string;
  timestamp_of_iso : string -> option float
}.

(** ** The csv module *)

(** A CSV file is the list of its rows, a row the list of its cells;
    [csv.DictWriter] and [csv.DictReader] are modelled at that level, their
    quoting being inverse to each other. *)
Module Csv.

Definition row := list string.
Definition file := list row.

(** The text of a row as the writer emits it when no cell needs quoting. *)
Definition line (r : row) : string := String.concat "," r.

(** [DictReader]: a row read under the field names; a name without a cell
    is bound to [None], a later duplicate of a name wins. *)
Definition dict_of_row (names : list string) (cells : row) : gmap string (option string) :=
  fold_left (fun m nc => <[fst nc := snd nc]> m)
    (zip names ((Some <$> cells) ++ replicate (length names - length cells)%nat None)) ∅.

End Csv.

(** ** trading_algo/backtest/data.py *)

Module Data.

Record BarSeries : Type := mkBarSeries {
  series_instrument : InstrumentSpec;
  series_bars : list Bar
}.

(** [list.sort(key=...)] is a stable sort; so is insertion from the right. *)
Fixpoint insert_by_timestamp (b : Bar) (l : list Bar) : list Bar :=
  match l with
  | [] => [b]
  | y :: l' =>
      if fle (timestamp_epoch_s b) (timestamp_epoch_s y) then b :: y :: l'
      else y :: insert_by_timestamp b l'
  end.

Fixpoint sort_by_timestamp (l : list Bar) : list Bar :=
  match l with
  | [] => []
  | b :: l' => insert_by_timestamp b (sort_by_timestamp l')
  end.

(** [s.endswith("Z")] and [s[:-1] + "+00:00"] *)
Definition replace_trailing_Z (s : string) : string :=
  match String.rev s with
  | String "Z" r => String.rev r +:+ "+00:00"
  | _ => s
  end.

Section WithRuntime.
Context {validator : Validator} {numbers : NumberText}.

Definition _parse_timestamp (value : string) : result float :=
  let value := Py.strip value in
  if negb (Py.truthy value) then Raise ValueError
  else match float_of_str value with
       | Some x => Ok x
       | None =>
           match timestamp_of_iso (replace_trailing_Z value) with
           | Some x => Ok x
           | None => Raise ValueError
           end
       end.

(** [float(row[name])] *)
Definition float_cell (row : gmap string (option string)) (name : string) : result float :=
  match row !! name with
  | None => Raise KeyError
  | Some None => Raise TypeError
  | Some (Some s) =>
      match float_of_str s with
      | Some x => Ok x
      | None => Raise ValueError
      end
  end.

(** [str(row["timestamp"])] *)
Definition str_cell (row : gmap string (option string)) (name : string) : result string :=
  match row !! name with
  | None => Raise KeyError
  | Some None => Ok "None"
  | Some (Some s) => Ok s
  end.

Definition volume_cell (row : gmap string (option string)) : result (option float) :=
  match row !! "volume" with
  | None | Some None => Ok None
  | Some (Some s) =>
      if bool_decide (s ∈ [""; "null"; "None"]) then Ok None
      else match float_of_str s with
           | Some x => Ok (Some x)
           | None => Raise ValueError
           end
  end.

Definition bar_of_row (row : gmap string (option string)) : result Bar :=
  raw ← str_cell row "timestamp";
  ts ← _parse_timestamp raw;
  o ← float_cell row "open";
  h ← float_cell row "high";
  l ← float_cell row "low";
  c ← float_cell row "close";
  v ← volume_cell row;
  mret (mkBar ts o h l c v).

(** The loop over the rows of the reader; empty rows are skipped by
    [DictReader]. *)
Fixpoint read_rows (names : list string) (rows : Csv.file) : result (list Bar) :=
  match rows with
  | [] => Ok []
  | [] :: rest => read_rows names rest
  | cells :: rest =>
      b ← bar_of_row (Csv.dict_of_row names cells);
      bs ← read_rows names rest;
      mret (b :: bs)
  end.

Definition required : list string := ["timestamp"; "open"; "high"; "low"; "close"].

(** [content] is the file at [path]. *)
Definition load_bars_csv (content : Csv.file) (inst : InstrumentSpec) : result BarSeries :=
  inst ← validate_instrument inst;
  match content with
  | [] => Raise ValueError
  | names :: rows =>
      if negb (bool_decide (Forall (fun n => n ∈ names) required)) then Raise ValueError
      else
        bars ← read_rows names rows;
        mret (mkBarSeries inst (sort_by_timestamp bars))
  end.

End WithRuntime.

End Data.

(** ** trading_algo/backtest/export.py *)

Module Exporter.

Record ExportConfig : Type := mkExportConfig {
  duration_per_call : string;
  bar_size : string;
  what_to_show : string;
  use_rth : bool;
  pacing_sleep_seconds : float;
  max_calls : Z
}.

(** The one method of the [Broker] protocol the exporter calls, on a broker
    of state [B]. *)
Class HistoricalBars (B : Type) :=
  get_historical_bars :
    InstrumentSpec -> option string -> string -> string -> string -> bool ->
    B -> result (list Bar) * B.

Definition fieldnames : Csv.row := ["timestamp"; "open"; "high"; "low"; "close"; "volume"].

(** The inner loop: the bars of the chunk whose timestamp is new are
    appended. *)
Fixpoint merge_chunk (existing : gset float) (all_bars chunk : list Bar) : list Bar :=
  match chunk with
  | [] => all_bars
  | b :: rest =>
      if bool_decide (timestamp_epoch_s b ∈ existing) then merge_chunk existing all_bars rest
      else merge_chunk ({[timestamp_epoch_s b]} ∪ existing) (all_bars ++ [b]) rest
  end.

Definition timestamps (bars : list Bar) : gset float :=
  list_to_set (timestamp_epoch_s <$> bars).

Section WithRuntime.
Context {validator : Validator} {numbers : NumberText} {B : Type} {history : HistoricalBars B}.

(** The paging loop, [calls] iterations left.  [time.sleep] raises
    [ValueError] on a negative length and has no other effect on the
    state. *)
Fixpoint fetch_all (calls : nat) (cfg : ExportConfig) (inst : InstrumentSpec)
    (end_dt : option string) (all_bars : list Bar) (broker : B) : result (list Bar) * B :=
  match calls with
  | O => (Ok all_bars, broker)
  | S calls' =>
      match get_historical_bars inst end_dt (duration_per_call cfg) (bar_size cfg)
              (what_to_show cfg) (use_rth cfg) broker with
      | (Raise e, broker) => (Raise e, broker)
      | (Ok [], broker) => (Ok all_bars, broker)
      | (Ok chunk, broker) =>
          let all_bars := merge_chunk (timestamps all_bars) all_bars chunk in
          let all_bars := Data.sort_by_timestamp all_bars in
          match all_bars with
          | [] => (Raise IndexError, broker)
          | b0 :: _ =>
              let earliest := timestamp_epoch_s b0 in
              let end_dt := pretty (int_of_float earliest - 1)%Z in
              if flt (pacing_sleep_seconds cfg) fzero then (Raise ValueError, broker)
              else fetch_all calls' cfg inst (Some end_dt) all_bars broker
          end
      end
  end.

(** The chunks the broker hands to the paging loop, in call order: the
    loop asks for the first page up to [end_dt] and for each further page up
    to the second before the earliest bar it holds, and stops at the first
    empty page. *)
Fixpoint pages_fetched (calls : nat) (cfg : ExportConfig) (inst : InstrumentSpec)
    (end_dt : option string) (all_bars : list Bar) (broker : B) : list (list Bar) :=
  match calls with
  | O => []
  | S calls' =>
      match get_historical_bars inst end_dt (duration_per_call cfg) (bar_size cfg)
              (what_to_show cfg) (use_rth cfg) broker with
      | (Raise e, broker) => []
      | (Ok [], broker) => []
      | (Ok chunk, broker) =>
          let all_bars := merge_chunk (timestamps all_bars) all_bars chunk in
          let all_bars := Data.sort_by_timestamp all_bars in
          match all_bars with
          | [] => [chunk]
          | b0 :: _ =>
              let earliest := timestamp_epoch_s b0 in
              let end_dt := pretty (int_of_float earliest - 1)%Z in
              if flt (pacing_sleep_seconds cfg) fzero then [chunk]
              else chunk :: pages_fetched calls' cfg inst (Some end_dt) all_bars broker
          end
      end
  end.

(** The dictionary handed to [writerow], in the order of the field names. *)
Definition row_of_bar (b : Bar) : Csv.row :=
  [ pretty (int_of_float (timestamp_epoch_s b));
    str_of_float (open b);
    str_of_float (high b);
    str_of_float (low b);
    str_of_float (close b);
    match volume b with None => "" | Some v => str_of_float v end ].

(** The file the exporter writes. *)
Definition csv_of_bars (bars : list Bar) : Csv.file :=
  fieldnames :: (row_of_bar <$> bars).

(** The result is the returned bar list and the content written at
    [out_csv_path]; nothing is written when a call to the broker raises. *)
Definition export_historical_bars (broker : B) (inst : InstrumentSpec) (cfg : ExportConfig)
    (end_datetime : option string) : result (list Bar * Csv.file) * B :=
  match validate_instrument inst with
  | Raise e => (Raise e, broker)
  | Ok inst =>
      match fetch_all (Z.to_nat (max_calls cfg)) cfg inst end_datetime [] broker with
      | (Raise e, broker) => (Raise e, broker)
      | (Ok all_bars, broker) =>
          let all_bars := Data.sort_by_timestamp all_bars in
          (Ok (all_bars, csv_of_bars all_bars), broker)
      end
  end.

End WithRuntime.

End Exporter.

(** ** JSON values *)

(** The value [json.loads] returns: [None], a [bool], an [int], a [float], a
    [str], a [list] or a [dict].  A dictionary is the list of its bindings;
    the first binding of a key is its value. *)
#[local] Unset Elimination Schemes.
Inductive json : Type :=
  | JNull
  | JBool (b : bool)
  | JInt (z : Z)
  | JFloat (x : float)
  | JStr (s : string)
  | JArr (items : list json)
  | JObj (fields : list (string * json)).
#[local] Set Elimination Schemes.

Module Json.

Definition dict := list (string * json).

(** [d.get(key)], [None] being the absent value. *)
Fixpoint get (key : string) (d : dict) : option json :=
  match d with
  | [] => None
  | (k, v) :: rest => if bool_decide (k = key) then Some v else get key rest
  end.

(** [d.get(key, default)] *)
Definition get_or (key : string) (dflt : json) (d : dict) : json :=
  default dflt (get key d).

(** [d.get(key)] as a Python value: [None] when the key is absent. *)
Definition get_value (key : string) (d : dict) : json := get_or key JNull d.

(** [bool(v)] *)
Definition truthy (v : json) : bool :=
  match v with
  | JNull => false
  | JBool b => b
  | JInt z => negb (bool_decide (z = 0%Z))
  | JFloat x => negb (feq x fzero)
  | JStr s => Py.truthy s
  | JArr items => match items with [] => false | _ => true end
  | JObj fields => match fields with [] => false | _ => true end
  end.

(** [json.loads] and the [repr] of a list or dictionary belong to the
    interpreter; a failure of [json.loads] is an exception of some class. *)
Class Runtime := {
  loads : string -> result json;
  repr_container : json -> string
}.

Section WithRuntime.
Context {numbers : NumberText} {json_runtime : Runtime}.

(** [str(v)] *)
Definition str (v : json) : string :=
  match v with
  | JNull => "None"
  | JBool true => "True"
  | JBool false => "False"
  | JInt z => pretty z
  | JFloat x => str_of_float x
  | JStr s => s
  | JArr _ | JObj _ => repr_container v
  end.

(** [float(v)] *)
Definition to_float (v : json) : result float :=
  match v with
  | JInt z => Ok (float_of_Z z)
  | JFloat x => Ok x
  | JBool b => Ok (float_of_Z (if b then 1 else 0))
  | JStr s => match float_of_str s with Some x => Ok x | None => Raise ValueError end
  | JNull | JArr _ | JObj _ => Raise TypeError
  end.

End WithRuntime.

End Json.

(** ** trading_algo/llm/chat_protocol.py *)

Module ChatProtocol.








Section WithRuntime.
Context {numbers : NumberText} {json_runtime : Json.Runtime}.




End WithRuntime.

End ChatProtocol.

(** ** trading_algo/llm/tools.py *)

Module Tools.

(** What the dispatcher calls outside this module, over the state [W] of the
    broker and of the order manager: the market-data client, three methods of
    the broker, the methods of [OrderManager] (module [trading_algo.oms],
    missing from the sources) and the clock. *)
Class Services (W : Type) := {
  md_get_snapshot : InstrumentSpec -> W -> result MarketDataSnapshot * W;
  broker_get_positions : W -> result (list Position) * W;
  broker_get_account_snapshot : W -> result AccountSnapshot * W;
  broker_list_open_order_statuses : W -> result (list OrderStatus) * W;
  oms_submit : OrderRequest -> W -> result OrderResult * W;
  oms_modify : string -> OrderRequest -> W -> result OrderResult * W;
  oms_cancel : string -> W -> result unit * W;
  oms_reconcile : W -> result (list (string * string)) * W;
  oms_track_open_orders : float -> option float -> W -> result unit * W;
  time_time : W -> float
}.

(** The value a tool returns. *)
Inductive tool_value : Type :=
  | snapshot_value (snap : MarketDataSnapshot)
  | positions_value (positions : list Position)
  | account_value (acct : AccountSnapshot)
  | statuses_value (sts : list OrderStatus)
  | order_value (order_id status : string)
  | cancel_value (order_id status : string) (ts : float)
  | reconcile_value (statuses : list (string * string))
  | ok_value.

(** [{k.upper() for k in names}] *)
Definition upper_set (names : gset string) : gset string := set_map Py.upper names.

Definition _enforce_allowlist (inst : InstrumentSpec) (allowed_kinds allowed_symbols : gset string)
    : result unit :=
  if negb (bool_decide (Py.upper (kind inst) ∈ upper_set allowed_kinds)) then Raise ToolError
  else if negb (bool_decide (allowed_symbols = ∅))
          && negb (bool_decide (Py.upper (symbol inst) ∈ upper_set allowed_symbols))
  then Raise ToolError
  else Ok tt.

Section WithRuntime.
Context {validator : Validator} {numbers : NumberText} {json_runtime : Json.Runtime}.

(** [str(obj[key]).strip() if obj.get(key) else None] *)
Definition optional_text (key : string) (obj : Json.dict) : option string :=
  let v := Json.get_value key obj in
  if Json.truthy v then Some (Py.strip (Json.str v)) else None.

Definition _parse_instrument (obj : Json.dict) : result InstrumentSpec :=
  let kind := Py.upper (Py.strip (Json.str (Json.get_or "kind" (JStr "STK") obj))) in
  let symbol := Py.upper (Py.strip (Json.str (Json.get_or "symbol" (JStr "") obj))) in
  if negb (Py.truthy symbol) then Raise ToolError
  else
    validate_instrument
      (mkInstrument kind symbol
         (optional_text "exchange" obj)
         (Py.upper <$> optional_text "currency" obj)
         (optional_text "expiry" obj)).

(** [float(obj[key]) if obj.get(key) is not None else None] *)
Definition optional_float (key : string) (obj : Json.dict) : result (option float) :=
  match Json.get_value key obj with
  | JNull => Ok None
  | v => x ← Json.to_float v; mret (Some x)
  end.

Definition _parse_order_request (order_obj : json) : result OrderRequest :=
  match order_obj with
  | JObj order =>
      match Json.get_value "instrument" order with
      | JObj inst_obj =>
          inst ← _parse_instrument inst_obj;
          let side := Py.upper (Py.strip (Json.str (Json.get_or "side" (JStr "BUY") order))) in
          quantity ← Json.to_float (Json.get_or "qty" (JFloat fzero) order);
          let order_type := Py.upper (Py.strip (Json.str (Json.get_or "type" (JStr "MKT") order))) in
          limit_price ← optional_float "limit_price" order;
          stop_price ← optional_float "stop_price" order;
          let tif := Py.upper (Py.strip (Json.str (Json.get_or "tif" (JStr "DAY") order))) in
          let outside_rth := Json.truthy (Json.get_or "outside_rth" (JBool false) order) in
          let transmit := Json.truthy (Json.get_or "transmit" (JBool true) order) in
          normalized
            (mkOrderRequest inst side quantity order_type limit_price stop_price tif
               outside_rth
               (optional_text "good_till_date" order)
               (optional_text "account" order)
               (optional_text "order_ref" order)
               (optional_text "oca_group" order)
               transmit)
      | _ => Raise ToolError
      end
  | _ => Raise ToolError
  end.

Context {W : Type} {services : Services W}.

(** [str(args.get("order_id", "")).strip()] *)
Definition order_id_arg (args : Json.dict) : string :=
  Py.strip (Json.str (Json.get_or "order_id" (JStr "") args)).

(** [call_args] is a dictionary: [dict(call_args or {})] is [call_args]. *)
Definition dispatch_tool (call_name : string) (call_args : Json.dict)
    (allowed_kinds allowed_symbols : gset string) (w : W) : result tool_value * W :=
  let name := Py.strip call_name in
  let args := call_args in
  if bool_decide (name = "get_snapshot") then
    match _parse_instrument args with
    | Raise e => (Raise e, w)
    | Ok inst =>
        match _enforce_allowlist inst allowed_kinds allowed_symbols with
        | Raise e => (Raise e, w)
        | Ok _ =>
            match md_get_snapshot inst w with
            | (Raise e, w) => (Raise e, w)
            | (Ok snap, w) => (Ok (snapshot_value snap), w)
            end
        end
    end
  else if bool_decide (name = "get_positions") then
    match broker_get_positions w with
    | (Raise e, w) => (Raise e, w)
    | (Ok positions, w) => (Ok (positions_value positions), w)
    end
  else if bool_decide (name = "get_account") then
    match broker_get_account_snapshot w with
    | (Raise e, w) => (Raise e, w)
    | (Ok acct, w) => (Ok (account_value acct), w)
    end
  else if bool_decide (name = "list_open_orders") then
    match broker_list_open_order_statuses w with
    | (Raise e, w) => (Raise e, w)
    | (Ok st, w) => (Ok (statuses_value st), w)
    end
  else if bool_decide (name = "place_order") then
    match _parse_order_request (Json.get_value "order" args) with
    | Raise e => (Raise e, w)
    | Ok req =>
        match _enforce_allowlist (instrument req) allowed_kinds allowed_symbols with
        | Raise e => (Raise e, w)
        | Ok _ =>
            match oms_submit req w with
            | (Raise e, w) => (Raise e, w)
            | (Ok res, w) => (Ok (order_value (res_order_id res) (res_status res)), w)
            end
        end
    end
  else if bool_decide (name = "modify_order") then
    let order_id := order_id_arg args in
    if negb (Py.truthy order_id) then (Raise ToolError, w)
    else
      match _parse_order_request (Json.get_value "order" args) with
      | Raise e => (Raise e, w)
      | Ok req =>
          match _enforce_allowlist (instrument req) allowed_kinds allowed_symbols with
          | Raise e => (Raise e, w)
          | Ok _ =>
              match oms_modify order_id req w with
              | (Raise e, w) => (Raise e, w)
              | (Ok res, w) => (Ok (order_value (res_order_id res) (res_status res)), w)
              end
          end
      end
  else if bool_decide (name = "cancel_order") then
    let order_id := order_id_arg args in
    if negb (Py.truthy order_id) then (Raise ToolError, w)
    else
      match oms_cancel order_id w with
      | (Raise e, w) => (Raise e, w)
      | (Ok _, w) => (Ok (cancel_value order_id "CancelRequested" (time_time w)), w)
      end
  else if bool_decide (name = "oms_reconcile") then
    match oms_reconcile w with
    | (Raise e, w) => (Raise e, w)
    | (Ok sts, w) => (Ok (reconcile_value sts), w)
    end
  else if bool_decide (name = "oms_track") then
    match Json.to_float (Json.get_or "poll_seconds" (JFloat 1%Qc) args) with
    | Raise e => (Raise e, w)
    | Ok poll_seconds =>
        match optional_float "timeout_seconds" args with
        | Raise e => (Raise e, w)
        | Ok timeout_seconds =>
            match oms_track_open_orders poll_seconds timeout_seconds w with
            | (Raise e, w) => (Raise e, w)
            | (Ok _, w) => (Ok ok_value, w)
            end
        end
    end
  else (Raise ToolError, w).

End WithRuntime.

(** An order manager that only records the requests it is handed: its state
    is the list of the arguments of [submit], in call order. *)
Definition recording_services : Services (list OrderRequest) := {|
  md_get_snapshot := fun _ w => (Raise NotFound, w);
  broker_get_positions := fun w => (Ok [], w);
  broker_get_account_snapshot := fun w => (Raise NotConnected, w);
  broker_list_open_order_statuses := fun w => (Ok [], w);
  oms_submit := fun req w => (Ok (mkOrderResult "recorded" "Submitted"), w ++ [req]);
  oms_modify := fun _ _ w => (Raise NotFound, w);
  oms_cancel := fun _ w => (Ok tt, w);
  oms_reconcile := fun w => (Ok [], w);
  oms_track_open_orders := fun _ _ w => (Ok tt, w);
  time_time := fun _ => fzero
|}.

End Tools.

(** ** The specification's wording of the order checks *)

Module Spec.

Definition positive_price (p : option float) : Prop :=
  ∃ x, p = Some x ∧ (0 < x)%Qc.

(** The conditions the specification lists for an accepted request, read on
    the normalized request [r]: side, quantity, order type, the prices each
    type requires, time in force, and the date a GTD order carries. *)
Definition order_conditions (r : OrderRequest) : Prop :=
  (side r = "BUY" ∨ side r = "SELL") ∧
  (0 < quantity r)%Qc ∧
  (order_type r = "MKT" ∨ order_type r = "LMT" ∨ order_type r = "STP" ∨ order_type r = "STPLMT") ∧
  (order_type r = "LMT" → positive_price (limit_price r)) ∧
  (order_type r = "STP" → positive_price (stop_price r)) ∧
  (order_type r = "STPLMT" → positive_price (stop_price r) ∧ positive_price (limit_price r)) ∧
  tif r ≠ "" ∧
  (tif r = "GTD" → ∃ d, good_till_date r = Some d ∧ d ≠ "").

(** The checks of [validate_order_request] after normalization, as one
    boolean. *)
Definition passes_checks (r : OrderRequest) : bool :=
  bool_decide (side r ∈ ["BUY"; "SELL"])
  && negb (fle (quantity r) fzero)
  && (bool_decide (order_type r ∈ ["MKT"; "LMT"]) || bool_decide (order_type r ∈ ["STP"; "STPLMT"]))
  && (if bool_decide (order_type r = "LMT") then negb (missing_or_nonpositive (limit_price r)) else true)
  && (if bool_decide (order_type r = "STP") then negb (missing_or_nonpositive (stop_price r)) else true)
  && (if bool_decide (order_type r = "STPLMT")
      then negb (missing_or_nonpositive (stop_price r)) && negb (missing_or_nonpositive (limit_price r))
      else true)
  && Py.truthy (tif r)
  && negb (bool_decide (tif r = "GTD") && negb (Py.truthy_opt (good_till_date r))).


(** [x] is, case-insensitively, a member of [names]. *)
Definition member_ci (x : string) (names : gset string) : Prop :=
  ∃ y, y ∈ names ∧ Py.upper y = Py.upper x.

(** The allow-list in the specification's words: the kind is in
    [allowed_kinds] and, when [allowed_symbols] is not empty, the symbol is in
    it, both without regard to case. *)
Definition allowed (inst : InstrumentSpec) (allowed_kinds allowed_symbols : gset string) : Prop :=
  member_ci (kind inst) allowed_kinds
  ∧ (allowed_symbols ≠ ∅ → member_ci (symbol inst) allowed_symbols).

(** The bar has its timestamp and lacks one of its four prices. *)
Definition lacks_a_price (b : Validate.bar_fields) : Prop :=
  is_Some (Validate.f_timestamp b)
  ∧ (Validate.f_open b = None ∨ Validate.f_high b = None
     ∨ Validate.f_low b = None ∨ Validate.f_close b = None).

(** [low <= x <= high] *)
Definition within (b : Bar) (x : float) : bool := fle (low b) x && fle x (high b).



(** The fill rule in the specification's words: the order fills at price [p]
    against [bar].  MKT fills at the open; LMT at the limit when the bar
    trades through it; STP at the stop when the bar trades through it; STPLMT
    at the limit when the stop triggers and the limit condition holds on the
    same bar; no other type fills. *)
Definition fills_at (req : OrderRequest) (bar : Bar) (p : float) : Prop :=
  (order_type req = "MKT" ∧ p = open bar)
  ∨ (order_type req = "LMT" ∧ limit_price req = Some p
     ∧ ((side req = "BUY" ∧ (low bar ≤ p)%Qc) ∨ (side req = "SELL" ∧ (p ≤ high bar)%Qc)))
  ∨ (order_type req = "STP" ∧ stop_price req = Some p
     ∧ ((side req = "BUY" ∧ (p ≤ high bar)%Qc) ∨ (side req = "SELL" ∧ (low bar ≤ p)%Qc)))
  ∨ (order_type req = "STPLMT" ∧ limit_price req = Some p
     ∧ ∃ sp, stop_price req = Some sp
         ∧ ((side req = "BUY" ∧ (sp ≤ high bar)%Qc ∧ (low bar ≤ p)%Qc)
            ∨ (side req = "SELL" ∧ (low bar ≤ sp)%Qc ∧ (p ≤ high bar)%Qc))).


(** [b] is the first bar of [l] with its timestamp: of the bars of a
    timestamp, the one the deduplication keeps. *)
Definition first_at_its_time (l : list Bar) (b : Bar) : Prop :=
  ∃ l1 l2, l = l1 ++ b :: l2 ∧ timestamp_epoch_s b ∉ timestamp_epoch_s <$> l1.

(** [a] is strictly earlier than [b]: a list sorted by this relation is
    ascending in time and has no two bars with the same timestamp. *)
Definition earlier (a b : Bar) : Prop :=
  (timestamp_epoch_s a < timestamp_epoch_s b)%Qc.

Definition not_later (a b : Bar) : Prop :=
  (timestamp_epoch_s a ≤ timestamp_epoch_s b)%Qc.

(** The timestamp of the bar is a whole number of seconds. *)
Definition whole_seconds (b : Bar) : Prop :=
  float_of_Z (int_of_float (timestamp_epoch_s b)) = timestamp_epoch_s b.

Section NumberTexts.
Context {numbers : NumberText}.

(** What the round trip needs of the interpreter on the numbers of a bar:
    [float(str(x))] is [x] for its prices and its volume, the text of a
    volume is none of the texts the loader reads as absent, and the decimal
    text of the integer timestamp reads back as that integer. *)
Definition reads_back (x : float) : Prop :=
  float_of_str (str_of_float x) = Some x.

Definition integer_reads_back (z : Z) : Prop :=
  Py.strip (pretty z) ≠ EmptyString
  ∧ float_of_str (Py.strip (pretty z)) = Some (float_of_Z z).

Definition text_faithful (b : Bar) : Prop :=
  integer_reads_back (int_of_float (timestamp_epoch_s b))
  ∧ reads_back (open b) ∧ reads_back (high b) ∧ reads_back (low b) ∧ reads_back (close b)
  ∧ (∀ v, volume b = Some v →
          reads_back v ∧ str_of_float v ∉ [EmptyString; "null"; "None"]).

End NumberTexts.

Section ToolCalls.
Context {numbers : NumberText} {json_runtime : Json.Runtime}.




End ToolCalls.

End Spec.

(** ** Sequences of calls on a backtest broker *)

Module Session.

(** The calls a client makes on a connected broker: the order operations,
    [step], and [disconnect]. *)
Inductive call : Type :=
  | PlaceOrder (uuid : string) (req : OrderRequest)
  | ModifyOrder (oid : string) (req : OrderRequest)
  | CancelOrder (oid : string)
  | PlaceBracketOrder (uuid1 uuid2 uuid3 : string) (req : BracketOrderRequest)
  | Step
  | Disconnect.

(** What no call of a session changes. *)
Definition same_run (b b' : BacktestBroker.t) : Prop :=
  BacktestBroker.instrument b' = BacktestBroker.instrument b
  ∧ BacktestBroker.bars b' = BacktestBroker.bars b.

Section WithValidator.
Context {validator : Validator}.

(** The broker after a call, whatever the call returned or raised. *)
Definition after (c : call) (b : BacktestBroker.t) : BacktestBroker.t :=
  match c with
  | PlaceOrder uuid req => snd (BacktestBroker.place_order uuid req b)
  | ModifyOrder oid req => snd (BacktestBroker.modify_order oid req b)
  | CancelOrder oid => snd (BacktestBroker.cancel_order oid b)
  | PlaceBracketOrder u1 u2 u3 req => snd (BacktestBroker.place_bracket_order u1 u2 u3 req b)
  | Step => snd (BacktestBroker.step b)
  | Disconnect => snd (BacktestBroker.disconnect b)
  end.

(** The call moves the cursor: it is a [step] that returns, made while bars
    remain. *)
Definition advances (c : call) (b : BacktestBroker.t) : bool :=
  match c with
  | Step => is_ok (fst (BacktestBroker.step b))
            && bool_decide (BacktestBroker._i b < length (BacktestBroker.bars b))
  | _ => false
  end.

(** The broker after a sequence of calls, and how many of them moved the
    cursor. *)
Fixpoint run (cs : list call) (b : BacktestBroker.t) : BacktestBroker.t * nat :=
  match cs with
  | [] => (b, 0)
  | c :: cs' =>
      let (b', n) := run cs' (after c b) in
      (b', (if advances c b then 1 else 0) + n)
  end.

(** Every order the broker holds came out of [validate_order_request]. *)
Definition orders_validated (b : BacktestBroker.t) : Prop :=
  ∀ oid req, BacktestBroker._orders b !! oid = Some req →
             ∃ req0, validate_order_request req0 = Ok req.

End WithValidator.

End Session.

(** ** Concrete inputs *)

Module Examples.

Definition aapl : InstrumentSpec := mkInstrument "STK" "AAPL" None None None.

(** [aapl] as [validate_instrument_spec] normalizes it. *)
Definition aapl_normalized : InstrumentSpec :=
  mkInstrument "STK" "AAPL" (Some "SMART") (Some "USD") None.

(** [OrderRequest(instrument=inst, side=side, quantity=qty, order_type=ty,
    limit_price=lp, stop_price=sp)] *)
Definition order (inst : InstrumentSpec) (side : string) (qty : Z) (ty : string)
    (lp sp : option Z) : OrderRequest :=
  mkOrderRequest inst side (float_of_Z qty) ty (float_of_Z <$> lp) (float_of_Z <$> sp)
    "DAY" false None None None None true.

Definition market_buy : OrderRequest := order aapl "BUY" 1 "MKT" None None.
Definition limit_buy_99 : OrderRequest := order aapl "BUY" 1 "LMT" (Some 99%Z) None.


Definition bar (ts o h l c : Z) : Bar :=
  mkBar (float_of_Z ts) (float_of_Z o) (float_of_Z h) (float_of_Z l) (float_of_Z c)
    (Some (float_of_Z 1000)).

(** The bars of the tests of the backtest broker. *)
Definition bars : list Bar :=
  [bar 1 100 105 95 102; bar 2 102 106 101 104; bar 3 104 110 103 109].


(** A backtest broker over [bars], not yet connected. *)
Definition fresh_backtest : BacktestBroker.t :=
  BacktestBroker.new aapl bars (float_of_Z 1000) FillModel.default fzero.

Definition connected_backtest : BacktestBroker.t :=
  snd (BacktestBroker.connect (validator := spec_validator) fresh_backtest).

(** connect, place a market order, step: the order is filled on the first
    bar. *)
Definition filled_backtest : BacktestBroker.t :=
  (Session.run (validator := spec_validator)
     [Session.PlaceOrder "u1" market_buy; Session.Step] connected_backtest).1.

(** A connected simulated broker holding one (filled) order. *)
Definition sim_with_order : SimBroker.t :=
  snd (SimBroker.place_order (validator := spec_validator) "u1" market_buy
         (snd (SimBroker.connect SimBroker.new))).


(** A bar built without its [open]: [Bar(1, None, 1, 1, 1, None)]. *)
Definition bar_without_open : Validate.bar_fields :=
  Validate.mkFields (Some (float_of_Z 1)) None (Some (float_of_Z 1)) (Some (float_of_Z 1))
    (Some (float_of_Z 1)) None.

(** A text for numbers to run the model with: a number is written as the
    fraction [num/den] and read back from a fraction or an integer. *)
Fixpoint digits (acc : N) (s : string) : option N :=
  match s with
  | EmptyString => Some acc
  | String c s' =>
      match Ascii.is_nat c with
      | Some d => digits (acc * 10 + N.of_nat d)%N s'
      | None => None
      end
  end.

Definition natural_of_text (s : string) : option N :=
  match s with
  | EmptyString => None
  | _ => digits 0%N s
  end.

Definition integer_of_text (s : string) : option Z :=
  match s with
  | String "-" s' => (fun n => (- Z.of_N n)%Z) <$> natural_of_text s'
  | _ => Z.of_N <$> natural_of_text s
  end.

Fixpoint split_on (c : ascii) (s : string) : string * option string :=
  match s with
  | EmptyString => (EmptyString, None)
  | String a s' =>
      if bool_decide (a = c) then (EmptyString, Some s')
      else let (l, r) := split_on c s' in (String a l, r)
  end.

Definition fraction_of_text (s : string) : option float :=
  let (n, d) := split_on "/" s in
  match integer_of_text n, d with
  | Some z, None => Some (float_of_Z z)
  | Some z, Some ds =>
      match natural_of_text ds with
      | Some (Npos p) => Some (Q2Qc (z # p))
      | _ => None
      end
  | None, _ => None
  end.

Definition text_of_fraction (x : float) : string :=
  pretty (Qnum x) +:+ "/" +:+ pretty (Zpos (Qden x)).

Definition fraction_text : NumberText := {|
  float_of_str := fraction_of_text;
  str_of_float := text_of_fraction;
  timestamp_of_iso := fun _ => None
|}.

(** A broker that answers the successive calls of [get_historical_bars] with
    the chunks of a script, then with nothing. *)
Definition scripted : Exporter.HistoricalBars (list (list Bar)) :=
  fun _ _ _ _ _ _ script =>
    match script with
    | [] => (Ok [], [])
    | chunk :: rest => (Ok chunk, rest)
    end.

Definition export_config : Exporter.ExportConfig :=
  Exporter.mkExportConfig "1 D" "1 min" "TRADES" false fzero 10.

(** Two pages of history, the later page first, sharing the bar of time 2. *)
Definition pages : list (list Bar) :=
  [[bar 2 102 106 101 104; bar 3 104 110 103 109];
   [bar 1 100 105 95 102; bar 2 102 106 101 104]].

(** A bar stamped at one second and a half. *)
Definition half_second_bar : Bar :=
  mkBar (Q2Qc (3 # 2)) (float_of_Z 100) (float_of_Z 105) (float_of_Z 95) (float_of_Z 102) None.

(** [half_second_bar] as the loader reads it back: the timestamp is 1. *)
Definition reloaded_half_second_bar : Bar :=
  mkBar (float_of_Z 1) (float_of_Z 100) (float_of_Z 105) (float_of_Z 95) (float_of_Z 102) None.

(** The order of the chat test: buy one share of [symbol] at the market. *)
Definition order_json (symbol : string) : json :=
  JObj [("instrument", JObj [("kind", JStr "STK"); ("symbol", JStr symbol);
                             ("exchange", JStr "SMART"); ("currency", JStr "USD")]);
        ("side", JStr "BUY"); ("qty", JInt 1); ("type", JStr "MKT"); ("tif", JStr "DAY")].

Definition place_order_args (symbol : string) : Json.dict := [("order", order_json symbol)].

(** The request [order_json symbol] parses to. *)
Definition parsed_order (symbol : string) : OrderRequest :=
  mkOrderRequest (mkInstrument "STK" symbol (Some "SMART") (Some "USD") None)
    "BUY" (float_of_Z 1) "MKT" None None "DAY" false None None None None true.

(** A reply of the model, and a JSON runtime that knows this one document. *)
Definition quoted (s : string) : string := String "034" s +:+ String "034" "".

Definition reply_document : string :=
  "{" +:+ quoted "assistant_message" +:+ ": " +:+ quoted "ok" +:+ ", "
  +:+ quoted "tool_calls" +:+ ": [{" +:+ quoted "id" +:+ ": 7, "
  +:+ quoted "name" +:+ ": " +:+ quoted " get_positions " +:+ ", "
  +:+ quoted "args" +:+ ": 3}, {" +:+ quoted "args" +:+ ": {}}]}".


Definition reply_json : json :=
  JObj [("assistant_message", JStr "ok");
        ("tool_calls",
         JArr [JObj [("id", JInt 7); ("name", JStr " get_positions "); ("args", JInt 3)];
               JObj [("args", JObj [])]])].

Definition one_document : Json.Runtime := {|
  Json.loads := fun s => if bool_decide (s = reply_document) then Ok reply_json else Raise ValueError;
  Json.repr_container := fun _ => "<container>"
|}.




End Examples.

(** ** The order books of the backtest broker *)

Module Books.

Import BacktestBroker.

(** The three maps of a broker agree: an order has a status exactly when
    its request is held, the status is filed under its own id and is one of
    the three the broker writes, and the open set holds the ids whose
    status is Submitted. *)
Record consistent (b : BacktestBroker.t) : Prop := mk_consistent {
  status_iff_order :
    ∀ oid, is_Some (_statuses b !! oid) ↔ is_Some (_orders b !! oid);
  open_has_status :
    ∀ oid, oid ∈ _open b → is_Some (_statuses b !! oid);
  status_value :
    ∀ oid st, _statuses b !! oid = Some st →
      order_id st = oid
      ∧ status st ∈ ["Submitted"; "Filled"; "Cancelled"]
      ∧ (oid ∈ _open b ↔ status st = "Submitted")
}.

(** The status [_fill_open_orders] writes for a filled order. *)
Definition filled_status (b : BacktestBroker.t) (oid : string) (req : OrderRequest)
    (price : float) : OrderStatus :=
  mkOrderStatus oid "Filled" (Some (quantity req)) (Some fzero)
    (Some (FillModel.apply_slippage (fill_model b) price (side req))).

End Books.

(** ** Sessions on the simulated broker *)

Module SimSession.

Import SimBroker.

(** [set_positions] and [set_account_values] of [SimBroker]. *)
Definition set_positions (positions : list Position) (self : SimBroker.t)
    : result unit * SimBroker.t :=
  (Ok tt,
   SimBroker.mk (connected self) (orders self) (market_data self) (historical_bars self)
     (account self) positions (_account_values self) (_statuses self)).

Definition set_account_values (values : gmap string float) (self : SimBroker.t)
    : result unit * SimBroker.t :=
  (Ok tt,
   SimBroker.mk (connected self) (orders self) (market_data self) (historical_bars self)
     (account self) (_positions self) values (_statuses self)).

(** The methods of [SimBroker], with their arguments. *)
Inductive call : Type :=
  | Connect
  | Disconnect
  | SetMarketData (inst : InstrumentSpec) (b a l c v ts : option float) (now : float)
  | SetHistoricalBars (inst : InstrumentSpec) (bars : list Bar)
  | SetPositions (positions : list Position)
  | SetAccountValues (values : gmap string float)
  | GetMarketDataSnapshot (inst : InstrumentSpec)
  | GetPositions
  | GetAccountSnapshot (now : float)
  | PlaceOrder (uuid : string) (req : OrderRequest)
  | ModifyOrder (oid : string) (req : OrderRequest)
  | CancelOrder (oid : string)
  | GetOrderStatus (oid : string)
  | ListOpenOrderStatuses
  | InjectOrderStatus (st : OrderStatus)
  | PlaceBracketOrder (uuid1 uuid2 uuid3 : string) (req : BracketOrderRequest)
  | GetHistoricalBars (inst : InstrumentSpec) (end_datetime : option string)
      (duration bar_size what_to_show : string) (use_rth : bool).

(** What a call raised, if it did, and the broker it left. *)
Definition outcome {A} (r : result A * SimBroker.t) : option exn * SimBroker.t :=
  (match fst r with Ok _ => None | Raise e => Some e end, snd r).

Section WithValidator.
Context {validator : Validator}.

Definition exec (c : call) (self : SimBroker.t) : option exn * SimBroker.t :=
  match c with
  | Connect => outcome (connect self)
  | Disconnect => outcome (disconnect self)
  | SetMarketData inst b a l c v ts now => outcome (set_market_data inst b a l c v ts now self)
  | SetHistoricalBars inst bars => outcome (set_historical_bars inst bars self)
  | SetPositions positions => outcome (set_positions positions self)
  | SetAccountValues values => outcome (set_account_values values self)
  | GetMarketDataSnapshot inst => outcome (get_market_data_snapshot inst self)
  | GetPositions => outcome (get_positions self)
  | GetAccountSnapshot now => outcome (get_account_snapshot now self)
  | PlaceOrder uuid req => outcome (place_order uuid req self)
  | ModifyOrder oid req => outcome (modify_order oid req self)
  | CancelOrder oid => outcome (cancel_order oid self)
  | GetOrderStatus oid => outcome (get_order_status oid self)
  | ListOpenOrderStatuses => outcome (list_open_order_statuses self)
  | InjectOrderStatus st => outcome (_inject_order_status st self)
  | PlaceBracketOrder u1 u2 u3 req => outcome (place_bracket_order u1 u2 u3 req self)
  | GetHistoricalBars inst e d bs w u => outcome (get_historical_bars inst e d bs w u self)
  end.

(** The broker after a sequence of calls, whatever they returned. *)
Definition run (cs : list call) (self : SimBroker.t) : SimBroker.t :=
  foldl (fun b c => snd (exec c b)) self cs.

End WithValidator.

End SimSession.

(** ** Floats with their special values *)

(** The brokers and the exporter above compute with finite floats.  The
    checks of [validate_order_request] are comparisons with zero, and a NaN
    fails every comparison: the function is embedded again here on floats as
    Python has them, a finite value, an infinity or NaN. *)
Module PyFloat.

Inductive t : Type :=
  | Finite (x : float)
  | PosInf
  | NegInf
  | NaN.

Global Instance eq_dec : EqDecision t.
Proof. solve_decision. Defined.

(** [a <= b]: false when either side is NaN. *)
Definition le (a b : t) : bool :=
  match a, b with
  | NaN, _ | _, NaN => false
  | NegInf, _ => true
  | _, PosInf => true
  | Finite x, Finite y => fle x y
  | _, _ => false
  end.

Definition zero : t := Finite fzero.

(** [a > 0] on the values: a positive finite value, or plus infinity. *)
Definition positive (a : t) : Prop :=
  a = PosInf ∨ ∃ x, a = Finite x ∧ (0 < x)%Qc.

End PyFloat.

(** ** trading_algo/broker/base.py, on floats with their special values *)

Module FloatOrders.

Record OrderRequest : Type := mkOrderRequest {
  instrument : InstrumentSpec;
  side : string;
  quantity : PyFloat.t;
  order_type : string;
  limit_price : option PyFloat.t;
  stop_price : option PyFloat.t;
  tif : string;
  outside_rth : bool;
  good_till_date : option string;
  account : option string;
  order_ref : option string;
  oca_group : option string;
  transmit : bool
}.

(** The record [OrderRequest.normalized] builds once the instrument has been
    validated. *)
Definition normalized_with (inst : InstrumentSpec) (self : OrderRequest) : OrderRequest :=
  {| instrument := inst;
     side := Py.upper (Py.strip (side self));
     quantity := quantity self;
     order_type := Py.upper (Py.strip (order_type self));
     limit_price := limit_price self;
     stop_price := stop_price self;
     tif := Py.upper (Py.strip (tif self));
     outside_rth := outside_rth self;
     good_till_date := Py.strip_or_none (good_till_date self);
     account := Py.strip_or_none (account self);
     order_ref := Py.strip_or_none (order_ref self);
     oca_group := Py.strip_or_none (oca_group self);
     transmit := transmit self |}.

Section WithValidator.
Context {validator : Validator}.

(** [OrderRequest.normalized] *)
Definition normalized (self : OrderRequest) : result OrderRequest :=
  inst ← validate_instrument (instrument self);
  mret (normalized_with inst self).

(** [price is None or price <= 0] *)
Definition missing_or_nonpositive (p : option PyFloat.t) : bool :=
  match p with
  | None => true
  | Some x => PyFloat.le x PyFloat.zero
  end.

Definition validate_order_request (req : OrderRequest) : result OrderRequest :=
  req ← normalized req;
  _ ← raise_if (negb (bool_decide (side req ∈ ["BUY"; "SELL"]))) ValueError;
  _ ← raise_if (PyFloat.le (quantity req) PyFloat.zero) ValueError;
  _ ← raise_if (negb (bool_decide (order_type req ∈ ["MKT"; "LMT"]))
                && negb (bool_decide (order_type req ∈ ["STP"; "STPLMT"]))) ValueError;
  _ ← (if bool_decide (order_type req = "LMT") then
         match limit_price req with
         | None => Raise ValueError
         | Some lp => raise_if (PyFloat.le lp PyFloat.zero) ValueError
         end
       else Ok tt);
  _ ← (if bool_decide (order_type req = "STP") then
         raise_if (missing_or_nonpositive (stop_price req)) ValueError
       else Ok tt);
  _ ← (if bool_decide (order_type req = "STPLMT") then
         _ ← raise_if (missing_or_nonpositive (stop_price req)) ValueError;
         raise_if (missing_or_nonpositive (limit_price req)) ValueError
       else Ok tt);
  _ ← raise_if (negb (Py.truthy (tif req))) ValueError;
  _ ← raise_if (bool_decide (tif req = "GTD") && negb (Py.truthy_opt (good_till_date req))) ValueError;
  mret req.

End WithValidator.

(** A request whose numbers are finite, as the brokers hold it. *)
Definition of_finite (req : Base.OrderRequest) : OrderRequest :=
  {| instrument := Base.instrument req;
     side := Base.side req;
     quantity := PyFloat.Finite (Base.quantity req);
     order_type := Base.order_type req;
     limit_price := PyFloat.Finite <$> Base.limit_price req;
     stop_price := PyFloat.Finite <$> Base.stop_price req;
     tif := Base.tif req;
     outside_rth := Base.outside_rth req;
     good_till_date := Base.good_till_date req;
     account := Base.account req;
     order_ref := Base.order_ref req;
     oca_group := Base.oca_group req;
     transmit := Base.transmit req |}.

(** The conditions the specification lists for an accepted request, read on
    the normalized request [r], a required price being positive. *)
Definition positive_price (p : option PyFloat.t) : Prop :=
  ∃ x, p = Some x ∧ PyFloat.positive x.






(** The checks after normalization, as one boolean. *)
Definition passes_checks (r : OrderRequest) : bool :=
  bool_decide (side r ∈ ["BUY"; "SELL"])
  && negb (PyFloat.le (quantity r) PyFloat.zero)
  && (bool_decide (order_type r ∈ ["MKT"; "LMT"]) || bool_decide (order_type r ∈ ["STP"; "STPLMT"]))
  && (if bool_decide (order_type r = "LMT") then negb (missing_or_nonpositive (limit_price r)) else true)
  && (if bool_decide (order_type r = "STP") then negb (missing_or_nonpositive (stop_price r)) else true)
  && (if bool_decide (order_type r = "STPLMT")
      then negb (missing_or_nonpositive (stop_price r)) && negb (missing_or_nonpositive (limit_price r))
      else true)
  && Py.truthy (tif r)
  && negb (bool_decide (tif r = "GTD") && negb (Py.truthy_opt (good_till_date r))).

End FloatOrders.

(** * Properties *)

(** ** Order validation *)

Section OrderValidation.
Context {validator : Validator}.

Lemma raise_if_ok (c : bool) (e : exn) : raise_if c e = Ok tt ↔ c = false.
Proof. destruct c; simpl; split; congruence. Qed.

Lemma fle_zero_false (x : float) : fle x fzero = false ↔ (0 < x)%Qc.
Proof.
  unfold fle, fzero. rewrite bool_decide_eq_false.
  split; [apply Qcnot_le_lt | apply Qclt_not_le].
Qed.

Lemma missing_or_nonpositive_false (p : option float) :
  missing_or_nonpositive p = false ↔ Spec.positive_price p.
Proof.
  unfold Spec.positive_price. destruct p as [x|]; simpl.
  - rewrite fle_zero_false. split; [eauto | intros (y & [= ->] & ?); done].
  - split; [done | intros (y & ? & _); done].
Qed.

Lemma truthy_iff (s : string) : Py.truthy s = true ↔ s ≠ "".
Proof. destruct s; simpl; split; congruence. Qed.

Lemma truthy_opt_iff (d : option string) :
  Py.truthy_opt d = true ↔ ∃ s, d = Some s ∧ s ≠ "".
Proof.
  destruct d as [s|]; simpl.
  - rewrite truthy_iff. split; [eauto | intros (? & [= ->] & ?); done].
  - split; [done | intros (? & ? & _); done].
Qed.

Lemma validate_order_request_unfold (req : OrderRequest) :
  validate_order_request req =
  match validate_instrument (instrument req) with
  | Raise e => Raise e
  | Ok inst =>
      if Spec.passes_checks (normalized_with inst req)
      then Ok (normalized_with inst req) else Raise InvalidInput
  end.
Proof.
  unfold validate_order_request, normalized, Spec.passes_checks.
  destruct (validate_instrument (instrument req)) as [inst|e]; [|done].
  cbn -[normalized_with]. generalize (normalized_with inst req). intros r.
  destruct (bool_decide (side r ∈ ["BUY"; "SELL"])); simpl; [|done].
  destruct (fle (quantity r) fzero); simpl; [done|].
  destruct (limit_price r) as [lp|]; simpl; [destruct (fle lp fzero)|];
    (destruct (stop_price r) as [sp|]; simpl; [destruct (fle sp fzero)|]);
    destruct (bool_decide (order_type r ∈ ["MKT"; "LMT"])),
             (bool_decide (order_type r ∈ ["STP"; "STPLMT"])); simpl; try done;
    destruct (bool_decide (order_type r = "LMT")); simpl; try done;
    destruct (bool_decide (order_type r = "STP")); simpl; try done;
    destruct (bool_decide (order_type r = "STPLMT")); simpl; try done;
    destruct (Py.truthy (tif r)); simpl; try done;
    destruct (bool_decide (tif r = "GTD")); simpl; try done;
    destruct (Py.truthy_opt (good_till_date r)); simpl; done.
Qed.

Lemma guarded_check (P : Prop) `{!Decision P} (b : bool) (Q : Prop) :
  (b = true ↔ Q) → (if bool_decide P then b else true) = true ↔ (P → Q).
Proof. intros Hb. case_bool_decide; [rewrite Hb|]; tauto. Qed.

Lemma passes_checks_iff (r : OrderRequest) :
  Spec.passes_checks r = true ↔ Spec.order_conditions r.
Proof.
  unfold Spec.passes_checks, Spec.order_conditions.
  rewrite !andb_true_iff, orb_true_iff, !bool_decide_eq_true.
  rewrite !elem_of_cons, !elem_of_nil.
  rewrite (guarded_check _ _ (Spec.positive_price (limit_price r))),
          (guarded_check _ _ (Spec.positive_price (stop_price r))),
          (guarded_check _ _ (Spec.positive_price (stop_price r)
                               ∧ Spec.positive_price (limit_price r))).
  - rewrite !negb_true_iff, fle_zero_false, andb_false_iff, negb_false_iff.
    rewrite truthy_iff, truthy_opt_iff, bool_decide_eq_false.
    split.
    + intros (((((((Hs & Hq) & Ht) & Hl) & Hp) & Hsl) & Htif) & Hg).
      split_and!; [tauto | done | tauto | done | done | done | done |].
      intros Hgtd. destruct Hg as [Hg|Hg]; [done|exact Hg].
    + intros (Hs & Hq & Ht & Hl & Hp & Hsl & Htif & Hg).
      split_and!; [tauto | done | tauto | done | done | done | done |].
      destruct (decide (tif r = "GTD")); [right; auto | left; done].
  - rewrite andb_true_iff, !negb_true_iff, !missing_or_nonpositive_false. done.
  - rewrite negb_true_iff. apply missing_or_nonpositive_false.
  - rewrite negb_true_iff. apply missing_or_nonpositive_false.
Qed.

End OrderValidation.

(** ** Order validation on floats with their special values *)

Section FloatOrderValidation.
Context {validator : Validator}.



Lemma float_validate_order_request_unfold (req : FloatOrders.OrderRequest) :
  FloatOrders.validate_order_request req =
  match validate_instrument (FloatOrders.instrument req) with
  | Raise e => Raise e
  | Ok inst =>
      if FloatOrders.passes_checks (FloatOrders.normalized_with inst req)
      then Ok (FloatOrders.normalized_with inst req) else Raise InvalidInput
  end.
Proof.
  unfold FloatOrders.validate_order_request, FloatOrders.normalized,
    FloatOrders.passes_checks.
  destruct (validate_instrument (FloatOrders.instrument req)) as [inst|e]; [|done].
  cbn -[FloatOrders.normalized_with].
  generalize (FloatOrders.normalized_with inst req). intros r.
  destruct (bool_decide (FloatOrders.side r ∈ ["BUY"; "SELL"])); simpl; [|done].
  destruct (PyFloat.le (FloatOrders.quantity r) PyFloat.zero); simpl; [done|].
  destruct (FloatOrders.limit_price r) as [lp|]; simpl;
    [destruct (PyFloat.le lp PyFloat.zero)|];
    (destruct (FloatOrders.stop_price r) as [sp|]; simpl;
     [destruct (PyFloat.le sp PyFloat.zero)|]);
    destruct (bool_decide (FloatOrders.order_type r ∈ ["MKT"; "LMT"])),
             (bool_decide (FloatOrders.order_type r ∈ ["STP"; "STPLMT"])); simpl; try done;
    destruct (bool_decide (FloatOrders.order_type r = "LMT")); simpl; try done;
    destruct (bool_decide (FloatOrders.order_type r = "STP")); simpl; try done;
    destruct (bool_decide (FloatOrders.order_type r = "STPLMT")); simpl; try done;
    destruct (Py.truthy (FloatOrders.tif r)); simpl; try done;
    destruct (bool_decide (FloatOrders.tif r = "GTD")); simpl; try done;
    destruct (Py.truthy_opt (FloatOrders.good_till_date r)); simpl; done.
Qed.


(** On requests whose numbers are finite this embedding is the one the
    brokers use. *)
Lemma float_validate_of_finite (req : Base.OrderRequest) :
  FloatOrders.validate_order_request (FloatOrders.of_finite req)
  = match Base.validate_order_request req with
    | Ok r => Ok (FloatOrders.of_finite r)
    | Raise e => Raise e
    end.
Proof.
  rewrite float_validate_order_request_unfold, validate_order_request_unfold.
  change (FloatOrders.instrument (FloatOrders.of_finite req)) with (Base.instrument req).
  destruct (validate_instrument (Base.instrument req)) as [inst|e]; [|done].
  change (FloatOrders.normalized_with inst (FloatOrders.of_finite req))
    with (FloatOrders.of_finite (Base.normalized_with inst req)).
  generalize (Base.normalized_with inst req). intros r.
  assert (FloatOrders.passes_checks (FloatOrders.of_finite r) = Spec.passes_checks r) as ->.
  { unfold FloatOrders.passes_checks, Spec.passes_checks, FloatOrders.of_finite. simpl.
    by destruct (Base.limit_price r), (Base.stop_price r). }
  by destruct (Spec.passes_checks r).
Qed.



End FloatOrderValidation.



(** ** The fill rule of the backtest *)

(** Evaluation of the string tests of the code on literal strings. *)
Ltac decide_literals :=
  repeat first [ rewrite bool_decide_eq_true_2 by done
               | rewrite bool_decide_eq_false_2 by done ].
Ltac py_eval := cbn; decide_literals; cbn.

Lemma fle_true (a b : float) : fle a b = true ↔ (a ≤ b)%Qc.
Proof. unfold fle. apply bool_decide_eq_true. Qed.

Lemma fle_false (a b : float) : fle a b = false ↔ ¬ (a ≤ b)%Qc.
Proof. unfold fle. apply bool_decide_eq_false. Qed.

(** Case analysis on every comparison of the goal. *)
Ltac split_fle :=
  repeat match goal with
         | |- context [fle ?a ?b] =>
             let H := fresh "Hle" in
             destruct (fle a b) eqn:H; [apply fle_true in H | apply fle_false in H]; cbn
         end.

Section FillRule.
Context {validator : Validator}.

Lemma validated_conditions (req0 req : OrderRequest) :
  validate_order_request req0 = Ok req → Spec.order_conditions req.
Proof.
  rewrite validate_order_request_unfold.
  destruct (validate_instrument (instrument req0)) as [inst|e]; [|done].
  destruct (Spec.passes_checks (normalized_with inst req0)) eqn:Hc; [|done].
  intros [= <-]. by apply passes_checks_iff.
Qed.

Lemma try_fill_other_type (req : OrderRequest) (bar : Bar) :
  order_type req ∉ ["MKT"; "LMT"; "STP"; "STPLMT"] →
  BacktestBroker._try_fill req bar = Ok None.
Proof.
  rewrite !not_elem_of_cons. intros (? & ? & ? & ? & _).
  unfold BacktestBroker._try_fill.
  by rewrite !bool_decide_eq_false_2.
Qed.

(** C2.  For an order that passed [validate_order_request] (as every order
    held by a backtest broker has, see [session_orders_validated]) and any
    bar, [_try_fill] returns without
    raising, and it returns the price [p] exactly when the fill rule of the
    specification gives [p]: MKT at the bar's open; BUY LMT at the limit iff
    low <= limit, SELL LMT iff high >= limit; BUY STP at the stop iff
    high >= stop, SELL STP iff low <= stop; STPLMT at the limit iff the stop
    triggers and the limit condition holds on the same bar.  An order of any
    other type, validated or not, never fills. *)
Theorem try_fill_rule (req0 req : OrderRequest) (bar : Bar) :
  validate_order_request req0 = Ok req →
  (∃ o, BacktestBroker._try_fill req bar = Ok o)
  ∧ (∀ p, BacktestBroker._try_fill req bar = Ok (Some p) ↔ Spec.fills_at req bar p)
  ∧ (∀ other : OrderRequest,
       order_type other ∉ ["MKT"; "LMT"; "STP"; "STPLMT"] →
       BacktestBroker._try_fill other bar = Ok None).
Proof.
  intros Hv. apply validated_conditions in Hv.
  destruct Hv as (Hside & _ & Htype & Hl & Hs & Hsl & _).
  split_and!; [| |intros; by apply try_fill_other_type].
  - unfold BacktestBroker._try_fill.
    destruct Htype as [Ht|[Ht|[Ht|Ht]]]; rewrite Ht; py_eval.
    + eauto.
    + destruct (Hl Ht) as (lp & -> & _). cbn.
      repeat (case_match; eauto).
    + destruct (Hs Ht) as (sp & -> & _). cbn.
      repeat (case_match; eauto).
    + destruct (Hsl Ht) as ((sp & -> & _) & (lp & -> & _)). cbn.
      repeat (case_match; eauto).
  - intros p. unfold BacktestBroker._try_fill, Spec.fills_at, fge.
    destruct Htype as [Ht|[Ht|[Ht|Ht]]]; rewrite Ht; py_eval.
    + naive_solver.
    + destruct (Hl Ht) as (lp & Hlp & _). rewrite Hlp.
      destruct Hside as [Hsd|Hsd]; rewrite Hsd; py_eval; split_fle; naive_solver.
    + destruct (Hs Ht) as (sp & Hsp & _). rewrite Hsp.
      destruct Hside as [Hsd|Hsd]; rewrite Hsd; py_eval; split_fle; naive_solver.
    + destruct (Hsl Ht) as ((sp & Hsp & _) & (lp & Hlp & _)). rewrite Hsp, Hlp.
      destruct Hside as [Hsd|Hsd]; rewrite Hsd; py_eval; split_fle; naive_solver.
Qed.

End FillRule.

Lemma try_fill_rule_witness :
  ∃ req, validate_order_request (validator := spec_validator) Examples.limit_buy_99 = Ok req
         ∧ BacktestBroker._try_fill req (Examples.bar 1 100 105 95 102)
           = Ok (Some (float_of_Z 99)).
Proof.
  eexists. split; [vm_compute; reflexivity|].
  refine (proj2 (proj1 (proj2 (try_fill_rule (validator := spec_validator)
            Examples.limit_buy_99 _ _ _)) _) _); [vm_compute; reflexivity|].
  right. left. split_and!; [reflexivity | reflexivity |].
  left. split; [reflexivity | compute_done].
Defined.

(** ** The backtest broker: history and the cursor *)

Section BacktestCursor.
Context {validator : Validator}.

Import BacktestBroker.

Lemma fill_order_frame (bar : Bar) (oid : string) (b : BacktestBroker.t) :
  Session.same_run b (snd (fill_order bar oid b)) ∧ _i (snd (fill_order bar oid b)) = _i b
  ∧ connected (snd (fill_order bar oid b)) = connected b.
Proof.
  unfold fill_order, Session.same_run.
  destruct (_orders b !! oid) as [req|]; [|done].
  destruct (_try_fill req bar) as [[p|]|e]; done.
Qed.

Lemma fill_orders_frame (bar : Bar) (oids : list string) (b : BacktestBroker.t) :
  Session.same_run b (snd (fill_orders bar oids b)) ∧ _i (snd (fill_orders bar oids b)) = _i b
  ∧ connected (snd (fill_orders bar oids b)) = connected b.
Proof.
  revert b. induction oids as [|oid oids IH]; intros b; [done|]. simpl.
  destruct (fill_order_frame bar oid b) as ((Hi & Hb) & Hc & Hn).
  destruct (fill_order bar oid b) as [[[]|e] b1]; simpl in *.
  - destruct (IH b1) as ((Hi' & Hb') & Hc' & Hn'). unfold Session.same_run. split_and!; congruence.
  - done.
Qed.

Lemma step_frame (b : BacktestBroker.t) :
  Session.same_run b (snd (step b))
  ∧ _i (snd (step b))
    = (if is_ok (fst (step b)) && bool_decide (_i b < length (bars b)) then S (_i b) else _i b).
Proof.
  unfold step. destruct (connected b); simpl; [|done].
  case_bool_decide as Hend; simpl.
  { rewrite bool_decide_eq_false_2 by lia. done. }
  destruct (bars b !! _i b) as [bar|] eqn:Hbar; simpl; [|done].
  unfold _fill_open_orders.
  destruct (fill_orders_frame bar (elements (_open b)) b) as (Hs & Hc & _).
  destruct (fill_orders bar (elements (_open b)) b) as [[[]|e] b1]; simpl in *; [|done].
  rewrite bool_decide_eq_true_2 by lia. rewrite Hc. done.
Qed.

Lemma place_order_frame (uuid : string) (req : OrderRequest) (b : BacktestBroker.t) :
  Session.same_run b (snd (place_order uuid req b)) ∧ _i (snd (place_order uuid req b)) = _i b.
Proof.
  unfold place_order. destruct (connected b); simpl; [|done].
  destruct (validate_order_request req) as [r|e]; [|done].
  destruct (validate_instrument (Base.instrument r)) as [inst|e]; [|done].
  case_bool_decide; done.
Qed.

Lemma after_frame (c : Session.call) (b : BacktestBroker.t) :
  Session.same_run b (Session.after c b)
  ∧ _i (Session.after c b) = (if Session.advances c b then S (_i b) else _i b).
Proof.
  destruct c as [uuid req|oid req|oid|u1 u2 u3 req| |]; simpl.
  - apply place_order_frame.
  - unfold modify_order. destruct (connected b); simpl; [|done].
    destruct (_orders b !! oid); [|done].
    destruct (validate_order_request req) as [r|e]; [|done].
    case_bool_decide; simpl; match goal with |- context [?m !! oid] => destruct (m !! oid) end; done.
  - unfold cancel_order. destruct (connected b); simpl; [|done].
    destruct (_orders b !! oid); done.
  - unfold place_bracket_order.
    pose proof (place_order_frame u1 (bracket_entry req) b) as ((Hi1 & Hb1) & Hc1).
    destruct (place_order u1 (bracket_entry req) b) as [[r1|e] b1]; simpl in *; [|done].
    pose proof (place_order_frame u2 (bracket_take_profit req) b1) as ((Hi2 & Hb2) & Hc2).
    destruct (place_order u2 (bracket_take_profit req) b1) as [[r2|e] b2]; simpl in *;
      [|unfold Session.same_run; split_and!; congruence].
    pose proof (place_order_frame u3 (bracket_stop_loss req) b2) as ((Hi3 & Hb3) & Hc3).
    destruct (place_order u3 (bracket_stop_loss req) b2) as [[r3|e] b3]; simpl in *;
      unfold Session.same_run; split_and!; congruence.
  - apply step_frame.
  - done.
Qed.

Lemma advances_in_range (c : Session.call) (b : BacktestBroker.t) :
  Session.advances c b = true → _i b < length (bars b).
Proof.
  destruct c; simpl; try done.
  rewrite andb_true_iff, bool_decide_eq_true. tauto.
Qed.

Lemma run_frame (cs : list Session.call) (b : BacktestBroker.t) :
  _i b ≤ length (bars b) →
  Session.same_run b (Session.run cs b).1
  ∧ _i (Session.run cs b).1 = _i b + (Session.run cs b).2
  ∧ _i (Session.run cs b).1 ≤ length (bars b).
Proof.
  revert b. induction cs as [|c cs IH]; intros b Hle; simpl.
  { unfold Session.same_run. split_and!; [done | done | lia | done]. }
  destruct (after_frame c b) as ((Hi & Hb) & Hn).
  pose proof (advances_in_range c b) as Hrange.
  assert (_i (Session.after c b) ≤ length (bars (Session.after c b))) as Hle'.
  { rewrite Hn, Hb. destruct (Session.advances c b); [specialize (Hrange eq_refl)|]; lia. }
  destruct (IH _ Hle') as ((Hi' & Hb') & Hn' & Hle'').
  destruct (Session.run cs (Session.after c b)) as [b' n]. simpl in *.
  unfold Session.same_run. split_and!; [congruence | congruence | | congruence].
  rewrite Hn', Hn. destruct (Session.advances c b); lia.
Qed.

Lemma fill_orders_keeps_orders (bar : Bar) (oids : list string) (b : BacktestBroker.t) :
  _orders (snd (fill_orders bar oids b)) = _orders b.
Proof.
  revert b. induction oids as [|oid oids IH]; intros b; [done|]. simpl.
  assert (_orders (snd (fill_order bar oid b)) = _orders b) as Hone.
  { unfold fill_order. destruct (_orders b !! oid) as [req|]; [|done].
    by destruct (_try_fill req bar) as [[p|]|e]. }
  destruct (fill_order bar oid b) as [[[]|e] b1]; simpl in *; [|done].
  by rewrite IH.
Qed.

Lemma place_order_validated (uuid : string) (req : OrderRequest) (b : BacktestBroker.t) :
  Session.orders_validated b → Session.orders_validated (snd (place_order uuid req b)).
Proof.
  intros Hb. unfold place_order. destruct (connected b); simpl; [|done].
  destruct (validate_order_request req) as [r|e] eqn:Hr; [|done].
  destruct (validate_instrument (Base.instrument r)) as [inst|e]; [|done].
  case_bool_decide; simpl; [|done].
  intros oid req'. simpl. rewrite lookup_insert. case_decide.
  - intros [= <-]. eauto.
  - apply Hb.
Qed.

(** The orders a session leaves in the broker are validated requests: the
    fill rule applies to every order [step] evaluates. *)
Lemma session_orders_validated (cs : list Session.call) (b : BacktestBroker.t) :
  Session.orders_validated b → Session.orders_validated (Session.run cs b).1.
Proof.
  revert b. induction cs as [|c cs IH]; intros b Hb; [done|]. simpl.
  assert (Session.orders_validated (Session.after c b)) as Hafter.
  { destruct c as [uuid req|oid req|oid|u1 u2 u3 req| |]; simpl.
    - by apply place_order_validated.
    - unfold modify_order. destruct (connected b); simpl; [|done].
      destruct (_orders b !! oid); [|done].
      destruct (validate_order_request req) as [r|e] eqn:Hr; [|done].
      assert (Session.orders_validated (set_orders (<[oid:=r]> (_orders b)) b)) as Hset.
      { intros oid' req'. simpl. rewrite lookup_insert. case_decide; [|apply Hb].
        intros [= <-]. eauto. }
      case_bool_decide; simpl;
        match goal with |- context [?m !! oid] => destruct (m !! oid) end; done.
    - unfold cancel_order. destruct (connected b); simpl; [|done].
      destruct (_orders b !! oid); done.
    - unfold place_bracket_order.
      pose proof (place_order_validated u1 (bracket_entry req) b Hb) as H1.
      destruct (place_order u1 (bracket_entry req) b) as [[r1|e] b1]; simpl in *; [|done].
      pose proof (place_order_validated u2 (bracket_take_profit req) b1 H1) as H2.
      destruct (place_order u2 (bracket_take_profit req) b1) as [[r2|e] b2]; simpl in *; [|done].
      pose proof (place_order_validated u3 (bracket_stop_loss req) b2 H2) as H3.
      by destruct (place_order u3 (bracket_stop_loss req) b2) as [[r3|e] b3].
    - unfold step. destruct (connected b); simpl; [|done].
      case_bool_decide; simpl; [done|].
      destruct (bars b !! _i b) as [bar|]; [|done].
      unfold _fill_open_orders.
      pose proof (fill_orders_keeps_orders bar (elements (_open b)) b) as Hkeep.
      destruct (fill_orders bar (elements (_open b)) b) as [[[]|e] b1]; simpl in *;
        intros oid req; simpl; rewrite Hkeep; apply Hb.
    - done. }
  specialize (IH _ Hafter).
  by destruct (Session.run cs (Session.after c b)) as [b' n].
Qed.

(** C10.  Take a broker on which [connect()] succeeded and any sequence of
    order calls, steps and a disconnect after it, [n] of which moved the
    cursor.  Then [n] is at most the number of bars, and for the broker's own
    instrument [get_historical_bars] returns exactly the first [n] bars of
    the configured series: [n] bars, bar [j] of the answer being bar [j] of
    the series, and nothing at or beyond the cursor. *)
Theorem get_historical_bars_is_prefix (b0 b1 : BacktestBroker.t) (cs : list Session.call)
    (inst : InstrumentSpec) (end_datetime : option string)
    (duration bar_size what_to_show : string) (use_rth : bool) :
  connect b0 = (Ok tt, b1) →
  validate_instrument inst = Ok (instrument b1) →
  let b := (Session.run cs b1).1 in
  let n := (Session.run cs b1).2 in
  n ≤ length (bars b0)
  ∧ get_historical_bars inst end_datetime duration bar_size what_to_show use_rth b
    = (Ok (take n (bars b0)), b)
  ∧ length (take n (bars b0)) = n
  ∧ (∀ j, j < n → take n (bars b0) !! j = bars b0 !! j)
  ∧ (∀ j, n ≤ j → take n (bars b0) !! j = None).
Proof.
  intros Hconnect Hinst b n.
  assert (_i b1 = 0 ∧ bars b1 = bars b0) as [Hi0 Hbars0].
  { unfold connect in Hconnect. simpl in Hconnect.
    destruct (validate_instrument (instrument b0)); [|done].
    injection Hconnect as <-. done. }
  destruct (run_frame cs b1) as ((Hi & Hb) & Hn & Hle); [lia|].
  fold b in Hi, Hb, Hn, Hle. fold n in Hn.
  rewrite Hi0 in Hn. simpl in Hn. rewrite Hbars0 in Hb, Hle.
  assert (n ≤ length (bars b0)) as Hlen by lia.
  split_and!.
  - done.
  - unfold get_historical_bars. rewrite Hinst.
    rewrite bool_decide_eq_true_2 by done. simpl. by rewrite Hb, Hn.
  - rewrite length_take. lia.
  - intros j Hj. by apply lookup_take_lt.
  - intros j Hj. apply lookup_ge_None. rewrite length_take. lia.
Qed.

End BacktestCursor.

Lemma get_historical_bars_is_prefix_witness :
  (BacktestBroker.get_historical_bars (validator := spec_validator) Examples.aapl
     None "1 D" "5 mins" "TRADES" false
     (Session.run (validator := spec_validator)
        [Session.PlaceOrder "u1" Examples.market_buy; Session.Step; Session.Step]
        Examples.connected_backtest).1).1
  = Ok (take 2 Examples.bars).
Proof.
  destruct (get_historical_bars_is_prefix (validator := spec_validator)
              Examples.fresh_backtest Examples.connected_backtest
              [Session.PlaceOrder "u1" Examples.market_buy; Session.Step; Session.Step]
              Examples.aapl None "1 D" "5 mins" "TRADES" false) as (_ & H & _);
    [reflexivity | reflexivity |].
  rewrite H. reflexivity.
Defined.

(** ** Operations on a broker that is not connected *)

Section NotConnected.
Context {validator : Validator}.

(** Every operation of the simulated broker other than connect/disconnect
    raises NotConnected on a broker that is not connected, and leaves it as it
    was. *)
Lemma sim_not_connected (b : SimBroker.t) :
  SimBroker.connected b = false →
  (∀ uuid req, SimBroker.place_order uuid req b = (Raise NotConnected, b))
  ∧ (∀ oid req, SimBroker.modify_order oid req b = (Raise NotConnected, b))
  ∧ (∀ oid, SimBroker.cancel_order oid b = (Raise NotConnected, b))
  ∧ (∀ oid, SimBroker.get_order_status oid b = (Raise NotConnected, b))
  ∧ SimBroker.list_open_order_statuses b = (Raise NotConnected, b)
  ∧ (∀ u1 u2 u3 req, SimBroker.place_bracket_order u1 u2 u3 req b = (Raise NotConnected, b))
  ∧ (∀ inst, SimBroker.get_market_data_snapshot inst b = (Raise NotConnected, b))
  ∧ SimBroker.get_positions b = (Raise NotConnected, b)
  ∧ (∀ now, SimBroker.get_account_snapshot now b = (Raise NotConnected, b))
  ∧ (∀ inst e d s w r, SimBroker.get_historical_bars inst e d s w r b = (Raise NotConnected, b)).
Proof.
  intros Hc.
  unfold SimBroker.place_order, SimBroker.modify_order, SimBroker.cancel_order,
    SimBroker.get_order_status, SimBroker.list_open_order_statuses,
    SimBroker.place_bracket_order, SimBroker.get_market_data_snapshot,
    SimBroker.get_positions, SimBroker.get_account_snapshot, SimBroker.get_historical_bars.
  rewrite Hc. simpl. split_and!; done.
Qed.

(** So does every operation of the backtesting broker except
    [get_historical_bars]. *)
Lemma backtest_not_connected (b : BacktestBroker.t) :
  BacktestBroker.connected b = false →
  (∀ uuid req, BacktestBroker.place_order uuid req b = (Raise NotConnected, b))
  ∧ (∀ oid req, BacktestBroker.modify_order oid req b = (Raise NotConnected, b))
  ∧ (∀ oid, BacktestBroker.cancel_order oid b = (Raise NotConnected, b))
  ∧ (∀ oid, BacktestBroker.get_order_status oid b = (Raise NotConnected, b))
  ∧ BacktestBroker.list_open_order_statuses b = (Raise NotConnected, b)
  ∧ (∀ u1 u2 u3 req, BacktestBroker.place_bracket_order u1 u2 u3 req b = (Raise NotConnected, b))
  ∧ (∀ inst, BacktestBroker.get_market_data_snapshot inst b = (Raise NotConnected, b))
  ∧ BacktestBroker.get_positions b = (Raise NotConnected, b)
  ∧ BacktestBroker.get_account_snapshot b = (Raise NotConnected, b)
  ∧ BacktestBroker.step b = (Raise NotConnected, b).
Proof.
  intros Hc.
  unfold BacktestBroker.place_bracket_order, BacktestBroker.place_order,
    BacktestBroker.modify_order, BacktestBroker.cancel_order,
    BacktestBroker.get_order_status, BacktestBroker.list_open_order_statuses,
    BacktestBroker.get_market_data_snapshot, BacktestBroker.get_positions,
    BacktestBroker.get_account_snapshot, BacktestBroker.step.
  rewrite Hc. simpl. split_and!; done.
Qed.

(** [get_historical_bars] of the backtesting broker does not look at the
    connection: on any broker, connected or not, it answers a request for the
    broker's instrument with the bars before the cursor. *)
Lemma backtest_history_any_connection (b : BacktestBroker.t) (inst : InstrumentSpec)
    (e : option string) (d s w : string) (r : bool) :
  validate_instrument inst = Ok (BacktestBroker.instrument b) →
  BacktestBroker.get_historical_bars inst e d s w r b
  = (Ok (take (BacktestBroker._i b) (BacktestBroker.bars b)), b).
Proof.
  intros Hv. unfold BacktestBroker.get_historical_bars. rewrite Hv.
  by rewrite bool_decide_eq_true_2.
Qed.

End NotConnected.

(** C1, on the code.  A backtesting broker that was connected, stepped once
    and disconnected is not connected, and [get_historical_bars] on it does
    not raise NotConnected: it returns the first bar. *)
Theorem backtest_history_served_after_disconnect :
  let b := (Session.run (validator := spec_validator)
              [Session.Step; Session.Disconnect] Examples.connected_backtest).1 in
  BacktestBroker.connected b = false
  ∧ BacktestBroker.get_historical_bars (validator := spec_validator) Examples.aapl
      None "1 D" "5 mins" "TRADES" false b
    = (Ok (take 1 Examples.bars), b).
Proof. split; reflexivity. Qed.

(** ** Cancelling and modifying terminal orders *)

Section TerminalOrders.
Context {validator : Validator}.

(** The simulated broker leaves an order that is Filled or Cancelled as it
    is when asked to cancel it. *)
Lemma sim_cancel_terminal (b : SimBroker.t) (oid : string) (st : OrderStatus) :
  SimBroker.connected b = true →
  SimBroker._statuses b !! oid = Some st →
  is_terminal (status st) = true →
  SimBroker.cancel_order oid b = (Ok tt, b).
Proof.
  intros Hc Hst Ht. unfold SimBroker.cancel_order. by rewrite Hc, Hst, Ht.
Qed.

(** The backtesting broker marks any known order Cancelled, whatever its
    status was, and keeps its fill fields. *)
Lemma backtest_cancel_any_status (b : BacktestBroker.t) (oid : string) (st : OrderStatus) :
  BacktestBroker.connected b = true →
  is_Some (BacktestBroker._orders b !! oid) →
  BacktestBroker._statuses b !! oid = Some st →
  ∃ b', BacktestBroker.cancel_order oid b = (Ok tt, b')
        ∧ BacktestBroker._statuses b' !! oid
          = Some (mkOrderStatus oid "Cancelled" (filled st) (remaining st) (avg_fill_price st)).
Proof.
  intros Hc [req Hreq] Hst. unfold BacktestBroker.cancel_order.
  rewrite Hc, Hreq. simpl. rewrite Hst. eexists. split; [done|].
  simpl. apply lookup_insert_eq.
Qed.

(** C6, as the code has it.  On a connected simulated broker [modify_order]
    raises NotFound for an unknown order id and changes nothing; for a known
    id it validates the new request, raising and changing nothing when the
    request is invalid, and otherwise appends the validated request to the
    order list in every case: when the current status is Filled or Cancelled
    the status map is unchanged and that status is returned, else the entry
    becomes Submitted, with its fill fields kept, and Submitted is returned. *)
Theorem sim_modify_order (b : SimBroker.t) (oid : string) (new_req : OrderRequest) :
  SimBroker.connected b = true →
  (SimBroker._statuses b !! oid = None →
   SimBroker.modify_order oid new_req b = (Raise NotFound, b))
  ∧ (∀ cur, SimBroker._statuses b !! oid = Some cur →
       match validate_order_request new_req with
       | Raise e => SimBroker.modify_order oid new_req b = (Raise e, b)
       | Ok req =>
           let appended := SimBroker.set_orders (SimBroker.orders b ++ [req]) b in
           if is_terminal (status cur)
           then SimBroker.modify_order oid new_req b
                = (Ok (mkOrderResult oid (status cur)), appended)
                ∧ SimBroker._statuses appended = SimBroker._statuses b
           else SimBroker.modify_order oid new_req b
                = (Ok (mkOrderResult oid "Submitted"),
                   SimBroker.set_statuses
                     (<[oid := mkOrderStatus oid "Submitted" (filled cur) (remaining cur)
                                 (avg_fill_price cur)]> (SimBroker._statuses b)) appended)
       end).
Proof.
  intros Hc. unfold SimBroker.modify_order. rewrite Hc. simpl. split.
  - by intros ->.
  - intros cur ->. destruct (validate_order_request new_req) as [req|e]; [|done].
    simpl. destruct (is_terminal (status cur)); done.
Qed.

End TerminalOrders.

Lemma sim_modify_order_witness :
  SimBroker.orders
    (snd (SimBroker.modify_order (validator := spec_validator) "sim-u1"
            Examples.limit_buy_99 Examples.sim_with_order))
  = SimBroker.orders Examples.sim_with_order
    ++ [normalized_with Examples.aapl_normalized Examples.limit_buy_99].
Proof.
  destruct (sim_modify_order (validator := spec_validator) Examples.sim_with_order
              "sim-u1" Examples.limit_buy_99 eq_refl) as [_ H].
  specialize (H _ eq_refl). cbv beta iota zeta in H.
  change (validate_order_request Examples.limit_buy_99)
    with (Ok (normalized_with Examples.aapl_normalized Examples.limit_buy_99)) in H.
  change (is_terminal (status _)) with true in H.
  cbv beta iota zeta in H. destruct H as [H _]. rewrite H. reflexivity.
Defined.

(** The claim as stated fails: modifying a Filled order returns Filled and
    leaves the status map alone, yet the new request is appended to the order
    list. *)
Lemma sim_modify_terminal_appends :
  let b := Examples.sim_with_order in
  let out := SimBroker.modify_order (validator := spec_validator) "sim-u1"
               Examples.limit_buy_99 b in
  status <$> SimBroker._statuses b !! "sim-u1" = Some "Filled"
  ∧ out.1 = Ok (mkOrderResult "sim-u1" "Filled")
  ∧ SimBroker._statuses out.2 = SimBroker._statuses b
  ∧ length (SimBroker.orders b) = 1
  ∧ length (SimBroker.orders out.2) = 2
  ∧ SimBroker.orders out.2 ≠ SimBroker.orders b.
Proof.
  split_and!; try reflexivity.
  intros H. apply (f_equal length) in H. vm_compute in H. discriminate H.
Qed.

(** C5, on the code.  In the backtesting broker an order that [step] has
    Filled is turned into Cancelled by [cancel_order]: the call returns
    normally and the status changes from Filled to Cancelled, the fill fields
    being kept. *)
Theorem backtest_cancel_overwrites_filled :
  let b := Examples.filled_backtest in
  let out := BacktestBroker.cancel_order "bt-u1" b in
  status <$> BacktestBroker._statuses b !! "bt-u1" = Some "Filled"
  ∧ out.1 = Ok tt
  ∧ BacktestBroker._statuses out.2 !! "bt-u1"
    = Some (mkOrderStatus "bt-u1" "Cancelled" (Some (float_of_Z 1)) (Some fzero)
              (Some (float_of_Z 100))).
Proof. split_and!; vm_compute; reflexivity. Qed.

(** ** The allow-list of the tool dispatcher *)

Section AllowList.
Context {validator : Validator} {numbers : NumberText} {json_runtime : Json.Runtime}.

Lemma member_ci_upper_set (x : string) (names : gset string) :
  Py.upper x ∈ Tools.upper_set names ↔ Spec.member_ci x names.
Proof.
  unfold Tools.upper_set, Spec.member_ci. rewrite elem_of_map. naive_solver.
Qed.

Lemma enforce_allowlist_ok (inst : InstrumentSpec) (kinds symbols : gset string) :
  Spec.allowed inst kinds symbols → Tools._enforce_allowlist inst kinds symbols = Ok tt.
Proof.
  intros [Hk Hs]. unfold Tools._enforce_allowlist.
  rewrite bool_decide_eq_true_2 by (by apply member_ci_upper_set). simpl.
  case_bool_decide as He; simpl; [done|].
  rewrite bool_decide_eq_true_2; [done|]. apply member_ci_upper_set. auto.
Qed.

Lemma enforce_allowlist_rejects (inst : InstrumentSpec) (kinds symbols : gset string) :
  ¬ Spec.allowed inst kinds symbols →
  Tools._enforce_allowlist inst kinds symbols = Raise ToolError.
Proof.
  intros Hn. unfold Tools._enforce_allowlist.
  case_bool_decide as Hk; simpl; [|done].
  case_bool_decide as He; simpl.
  - exfalso. apply Hn. split; [by apply member_ci_upper_set | done].
  - case_bool_decide as Hs; simpl; [|done].
    exfalso. apply Hn. split; [by apply member_ci_upper_set|].
    intros _. by apply member_ci_upper_set.
Qed.

Lemma dispatch_place_order {W : Type} {services : Tools.Services W}
    (name : string) (args : Json.dict) (kinds symbols : gset string) (w : W) :
  Py.strip name = "place_order" →
  Tools.dispatch_tool name args kinds symbols w =
  match Tools._parse_order_request (Json.get_value "order" args) with
  | Raise e => (Raise e, w)
  | Ok req =>
      match Tools._enforce_allowlist (instrument req) kinds symbols with
      | Raise e => (Raise e, w)
      | Ok _ =>
          match Tools.oms_submit req w with
          | (Raise e, w) => (Raise e, w)
          | (Ok res, w) => (Ok (Tools.order_value (res_order_id res) (res_status res)), w)
          end
      end
  end.
Proof.
  intros Hname. unfold Tools.dispatch_tool. rewrite Hname.
  by decide_literals.
Qed.

(** C3, as the code has it.  Take a tool call whose name, stripped, is
    [place_order].  The order is parsed before the allow-list is consulted.
    When the parser raises, the call raises the parser's exception (a
    ToolError for an order or an instrument that is not an object or has no
    symbol, the TypeError or ValueError of [float] on a quantity or a price,
    the exception of [validate_instrument]) whatever the allow-list says
    of the instrument; the state of the broker and of the order manager is
    as it was and no request reaches [submit].  When the order parses to the
    request [req]: if the instrument of [req] is not allowed (its kind is
    not, case-insensitively, in [allowed_kinds], or [allowed_symbols] is not
    empty and does not, case-insensitively, contain its symbol),
    [dispatch_tool] raises ToolError, leaves the state as it was, and no
    request reaches [submit]; if the kind is allowed and [allowed_symbols]
    is empty, the instrument is allowed whatever its symbol; if the
    instrument is allowed, the call is the one call [oms.submit(req)]: its
    outcome and its state are those of that call, and exactly the request
    [req] reaches [submit], once. *)
Theorem place_order_allowlist (name : string) (args : Json.dict)
    (allowed_kinds allowed_symbols : gset string) :
  Py.strip name = "place_order" →
  (∀ e, Tools._parse_order_request (Json.get_value "order" args) = Raise e →
     (∀ (W : Type) (services : Tools.Services W) (w : W),
        Tools.dispatch_tool name args allowed_kinds allowed_symbols w = (Raise e, w))
     ∧ (Tools.dispatch_tool (services := Tools.recording_services)
          name args allowed_kinds allowed_symbols []).2 = [])
  ∧ (∀ req, Tools._parse_order_request (Json.get_value "order" args) = Ok req →
     (¬ Spec.allowed (instrument req) allowed_kinds allowed_symbols →
        (∀ (W : Type) (services : Tools.Services W) (w : W),
           Tools.dispatch_tool name args allowed_kinds allowed_symbols w
           = (Raise ToolError, w))
        ∧ (Tools.dispatch_tool (services := Tools.recording_services)
             name args allowed_kinds allowed_symbols []).2 = [])
     ∧ (Spec.member_ci (kind (instrument req)) allowed_kinds → allowed_symbols = ∅ →
        Spec.allowed (instrument req) allowed_kinds allowed_symbols)
     ∧ (Spec.allowed (instrument req) allowed_kinds allowed_symbols →
        (∀ (W : Type) (services : Tools.Services W) (w : W),
           Tools.dispatch_tool name args allowed_kinds allowed_symbols w
           = match Tools.oms_submit req w with
             | (Raise e, w') => (Raise e, w')
             | (Ok res, w') =>
                 (Ok (Tools.order_value (res_order_id res) (res_status res)), w')
             end)
        ∧ (Tools.dispatch_tool (services := Tools.recording_services)
             name args allowed_kinds allowed_symbols []).2 = [req])).
Proof.
  intros Hname. split.
  - intros e Hparse.
    assert (∀ (W : Type) (services : Tools.Services W) (w : W),
              Tools.dispatch_tool name args allowed_kinds allowed_symbols w
              = (Raise e, w)) as Hd.
    { intros W services w. by rewrite dispatch_place_order, Hparse. }
    split; [exact Hd|]. by rewrite Hd.
  - intros req Hparse. split_and!.
    + intros Hn.
      assert (∀ (W : Type) (services : Tools.Services W) (w : W),
                Tools.dispatch_tool name args allowed_kinds allowed_symbols w
                = (Raise ToolError, w)) as Hd.
      { intros W services w. rewrite dispatch_place_order, Hparse by done.
        by rewrite enforce_allowlist_rejects. }
      split; [exact Hd|]. by rewrite Hd.
    + intros Hk ->. split; [done|]. by intros [].
    + intros Ha.
      assert (∀ (W : Type) (services : Tools.Services W) (w : W),
                Tools.dispatch_tool name args allowed_kinds allowed_symbols w
                = match Tools.oms_submit req w with
                  | (Raise e, w') => (Raise e, w')
                  | (Ok res, w') =>
                      (Ok (Tools.order_value (res_order_id res) (res_status res)), w')
                  end) as Hd.
      { intros W services w. rewrite dispatch_place_order, Hparse by done.
        by rewrite enforce_allowlist_ok. }
      split; [exact Hd|]. by rewrite Hd.
Qed.

End AllowList.

Lemma member_ci_literal (x y : string) (names : gset string) :
  y ∈ names → Py.upper y = Py.upper x → Spec.member_ci x names.
Proof. intros. by exists y. Qed.

Lemma place_order_allowlist_witness :
  (Tools.dispatch_tool (validator := spec_validator) (numbers := Examples.fraction_text)
     (json_runtime := Examples.one_document) (services := Tools.recording_services)
     " place_order " (Examples.place_order_args "TSLA") {["STK"]} {["aapl"]} []
   = (Raise ToolError, []))
  ∧ (Tools.dispatch_tool (validator := spec_validator) (numbers := Examples.fraction_text)
       (json_runtime := Examples.one_document) (services := Tools.recording_services)
       " place_order " (Examples.place_order_args "AAPL") {["STK"]} {["aapl"]} []).2
    = [Examples.parsed_order "AAPL"].
Proof.
  split.
  - refine (proj1 (proj1 (proj2 (place_order_allowlist (validator := spec_validator)
              (numbers := Examples.fraction_text) (json_runtime := Examples.one_document)
              " place_order " (Examples.place_order_args "TSLA")
              {["STK"]} {["aapl"]} _) (Examples.parsed_order "TSLA") _) _) _ _ _);
      [reflexivity | reflexivity |].
    intros [_ Hs]. destruct Hs as (y & Hy & Hup); [set_solver|].
    apply elem_of_singleton in Hy. subst y. vm_compute in Hup. discriminate Hup.
  - refine (proj2 (proj2 (proj2 (proj2 (place_order_allowlist (validator := spec_validator)
              (numbers := Examples.fraction_text) (json_runtime := Examples.one_document)
              " place_order " (Examples.place_order_args "AAPL")
              {["STK"]} {["aapl"]} _) (Examples.parsed_order "AAPL") _)) _));
      [reflexivity | reflexivity |].
    split; [|intros _]; eapply member_ci_literal;
      [apply elem_of_singleton; reflexivity | reflexivity
      |apply elem_of_singleton; reflexivity | reflexivity].
Defined.

(** The claim as stated fails: the call below asks for TSLA while only AAPL
    is allowed, and it does not fail with a ToolError.  Its quantity is
    null, [float(None)] raises TypeError while the order is parsed, and the
    allow-list is never consulted.  No request reaches [submit]. *)
Lemma place_order_disallowed_raises_type_error :
  ¬ Spec.member_ci "TSLA" {["AAPL"]}
  ∧ Tools.dispatch_tool (validator := spec_validator) (numbers := Examples.fraction_text)
      (json_runtime := Examples.one_document) (services := Tools.recording_services)
      "place_order"
      [("order", JObj [("instrument", JObj [("kind", JStr "STK"); ("symbol", JStr "TSLA")]);
                       ("side", JStr "BUY"); ("qty", JNull); ("type", JStr "MKT")])]
      {["STK"]} {["AAPL"]} []
    = (Raise TypeError, []).
Proof.
  split.
  - intros (y & Hy & Hup). apply elem_of_singleton in Hy. subst y.
    vm_compute in Hup. discriminate Hup.
  - vm_compute. reflexivity.
Qed.

(** ** The reply parser of the chat protocol *)

Section Splitlines.

Import ChatProtocol.

Lemma string_app_cons (c : ascii) (s t : string) : String c s +:+ t = String c (s +:+ t).
Proof. reflexivity. Qed.


Lemma string_app_nil_r (s : string) : s +:+ EmptyString = s.
Proof. induction s as [|c s IH]; [done|]. by rewrite string_app_cons, IH. Qed.
















End Splitlines.

Section ReplyParser.
Context {numbers : NumberText} {json_runtime : Json.Runtime}.

Import ChatProtocol.











End ReplyParser.



(** ** Validation of bars *)

Section ValidateBars.

Import Validate.

Lemma validate_bars_empty : validate_bars [] = Ok [mkIssue error no_bars].
Proof. reflexivity. Qed.

(** The only exception the first loop can raise is a [TypeError]. *)
Lemma check_bars_raises (bars : list bar_fields) (i : nat) (last_ts : option float)
    (issues : list ValidationIssue) (e : exn) :
  check_bars i bars last_ts issues = Raise e → e = TypeError.
Proof.
  revert i last_ts issues. induction bars as [|b bars IH]; intros i last_ts issues; simpl; [done|].
  destruct (f_timestamp b) as [ts|]; [|apply IH].
  unfold compare_with, chained_le, compare_with.
  destruct (f_low b), (f_high b), (f_open b), (f_close b); simpl;
    try (intros [= <-]; done);
    repeat (match goal with |- context [fle ?a ?b] => destruct (fle a b) end; simpl);
    try (intros [= <-]; done); apply IH.
Qed.

(** On bars built with all their fields the validation returns its list of
    issues. *)
Lemma check_bars_typed (bars : list Bar) (i : nat) (last_ts : option float)
    (issues : list ValidationIssue) :
  ∃ issues', check_bars i (of_bar <$> bars) last_ts issues = Ok issues'.
Proof.
  revert i last_ts issues. induction bars as [|b bars IH]; intros i last_ts issues; simpl.
  { by exists issues. }
  unfold chained_le. simpl.
  repeat match goal with
         | |- context [(if ?c then Ok _ else Ok _) ≫= _] => destruct c; simpl
         end; apply IH.
Qed.

Lemma validate_bars_typed (bars : list Bar) :
  ∃ issues, validate_bars (of_bar <$> bars) = Ok issues.
Proof.
  destruct bars as [|b bars]; [by eexists|].
  unfold validate_bars.
  change (of_bar <$> b :: bars) with (of_bar b :: (of_bar <$> bars)).
  cbv iota beta.
  change (of_bar b :: (of_bar <$> bars)) with (of_bar <$> b :: bars).
  destruct (check_bars_typed (b :: bars) 0 None []) as (issues & ->).
  by eexists.
Qed.

(** A bar that has its timestamp and lacks a price makes the first loop
    raise [TypeError], wherever the bar is in the list: no list of issues is
    returned. *)
Lemma check_bars_lacking_price (bars : list bar_fields) (b : bar_fields) (i : nat)
    (last_ts : option float) (issues : list ValidationIssue) :
  b ∈ bars → Spec.lacks_a_price b →
  check_bars i bars last_ts issues = Raise TypeError.
Proof.
  intros Hin Hb. revert i last_ts issues.
  induction bars as [|b' bars IH]; intros i last_ts issues; [by apply elem_of_nil in Hin|].
  apply elem_of_cons in Hin as [<-|Hin].
  - destruct Hb as [[ts Hts] Hmiss]. simpl. rewrite Hts.
    unfold compare_with, chained_le, compare_with.
    destruct (f_low b) as [lo|], (f_high b) as [hi|]; simpl; try done.
    destruct (f_open b) as [op|]; simpl; [|done].
    destruct (f_close b) as [cl|]; simpl; [naive_solver|].
    by destruct (fle lo op); simpl; [destruct (fle op hi)|].
  - specialize (IH Hin).
    destruct (check_bars i (b' :: bars) last_ts issues) as [ok|e] eqn:Hres.
    + exfalso. simpl in Hres. destruct (f_timestamp b') as [ts|].
      * unfold compare_with, chained_le, compare_with in Hres.
        destruct (f_low b'), (f_high b'), (f_open b'), (f_close b'); simpl in Hres;
          try done;
          repeat (match type of Hres with context [fle ?a ?b] => destruct (fle a b) end;
                  simpl in Hres);
          try done; by rewrite IH in Hres.
      * by rewrite IH in Hres.
    + by apply check_bars_raises in Hres as ->.
Qed.

Lemma validate_bars_lacking_price (bars : list bar_fields) (b : bar_fields) :
  b ∈ bars → Spec.lacks_a_price b → validate_bars bars = Raise TypeError.
Proof.
  intros Hin Hb. destruct bars as [|b' bars]; [by apply elem_of_nil in Hin|].
  unfold validate_bars. by rewrite (check_bars_lacking_price _ b).
Qed.

(** What the validation reports on a single bar built with all its fields:
    a non-positive price and [low > high] as errors, an open or a close
    outside the range as warnings. *)
Lemma validate_bars_single (b : Bar) :
  validate_bars [of_bar b]
  = Ok (price_issues 0 (of_bar b)
        ++ (if fgt (low b) (high b) then [mkIssue error (low_above_high 0)] else [])
        ++ (if Spec.within b (open b) then [] else [mkIssue warn (open_outside 0)])
        ++ (if Spec.within b (close b) then [] else [mkIssue warn (close_outside 0)])).
Proof.
  unfold validate_bars, Spec.within. simpl. unfold chained_le, compare_with. simpl.
  destruct (fgt (low b) (high b)), (fle (low b) (open b)), (fle (open b) (high b)),
    (fle (low b) (close b)), (fle (close b) (high b)); simpl;
    rewrite bool_decide_eq_false_2 by set_solver; simpl;
    by rewrite <- ?app_assoc, ?app_nil_r.
Qed.

(** A timestamp below the one before it is an error at its index, a repeated
    timestamp a warning at the index of the repetition. *)
Lemma validate_bars_order_and_duplicates :
  validate_bars (of_bar <$> [Examples.bar 2 1 1 1 1; Examples.bar 1 1 1 1 1;
                            Examples.bar 2 1 1 1 1])
  = Ok [mkIssue error (timestamps_not_sorted 1); mkIssue warn (duplicate_timestamp 2)].
Proof. vm_compute. reflexivity. Qed.

End ValidateBars.

(** C9, on the code.  For a bar whose [open] is missing, [validate_bars]
    appends the issue for the missing field and then compares the prices of
    the bar: the comparison with [None] raises [TypeError], and no list of
    issues is returned. *)
Theorem validate_bars_raises_on_missing_price :
  Validate.price_issues 0 Examples.bar_without_open
  = [Validate.mkIssue Validate.error (Validate.missing 0 "open")]
  ∧ Validate.validate_bars [Examples.bar_without_open] = Raise TypeError.
Proof. split; reflexivity. Qed.

(** ** Export of historical bars and its reload *)

Section Sorting.

Import Data.

Lemma insert_by_timestamp_perm (b : Bar) (l : list Bar) :
  insert_by_timestamp b l ≡ₚ b :: l.
Proof.
  induction l as [|y l IH]; simpl; [done|].
  destruct (fle _ _); [done|]. by rewrite IH, Permutation_swap.
Qed.

Lemma sort_by_timestamp_perm (l : list Bar) : sort_by_timestamp l ≡ₚ l.
Proof.
  induction l as [|b l IH]; simpl; [done|].
  by rewrite insert_by_timestamp_perm, IH.
Qed.

Lemma not_later_total (a b : Bar) : ¬ Spec.not_later a b → Spec.not_later b a.
Proof. unfold Spec.not_later. intros H. apply Qclt_le_weak. by apply Qcnot_le_lt. Qed.

Lemma insert_by_timestamp_sorted (b : Bar) (l : list Bar) :
  StronglySorted Spec.not_later l → StronglySorted Spec.not_later (insert_by_timestamp b l).
Proof.
  induction 1 as [|y l Hl IH Hy]; simpl; [by repeat constructor|].
  destruct (fle _ _) eqn:Hle.
  - apply fle_true in Hle. constructor; [by constructor|].
    constructor; [done|]. eapply Forall_impl; [exact Hy|].
    intros z Hz. unfold Spec.not_later in *. by etrans.
  - apply fle_false in Hle. apply not_later_total in Hle.
    constructor; [done|].
    rewrite insert_by_timestamp_perm. by constructor.
Qed.

Lemma sort_by_timestamp_sorted (l : list Bar) :
  StronglySorted Spec.not_later (sort_by_timestamp l).
Proof.
  induction l as [|b l IH]; simpl; [constructor|]. by apply insert_by_timestamp_sorted.
Qed.

(** A stable sort leaves a sorted list as it is. *)
Lemma sort_by_timestamp_id (l : list Bar) :
  StronglySorted Spec.not_later l → sort_by_timestamp l = l.
Proof.
  induction 1 as [|b l Hl IH Hb]; simpl; [done|]. rewrite IH.
  destruct Hb as [|y l' Hy _]; simpl; [done|].
  by rewrite (proj2 (fle_true _ _) Hy).
Qed.

(** Sorted by time and without a repeated timestamp is strictly ascending. *)
Lemma strictly_ascending (l : list Bar) :
  StronglySorted Spec.not_later l → NoDup (timestamp_epoch_s <$> l) →
  StronglySorted Spec.earlier l.
Proof.
  induction 1 as [|b l Hl IH Hb]; intros Hnd; [constructor|].
  rewrite fmap_cons in Hnd. apply NoDup_cons in Hnd as [Hnotin Hnd].
  constructor; [by apply IH|].
  apply Forall_forall. intros y Hy.
  pose proof (proj1 (Forall_forall _ _) Hb y Hy) as Hle.
  unfold Spec.earlier, Spec.not_later in *.
  apply Qcle_lt_or_eq in Hle as [Hlt|Heq]; [done|].
  exfalso. apply Hnotin. rewrite Heq. by apply list_elem_of_fmap_2.
Qed.

Lemma earlier_not_later (l : list Bar) :
  StronglySorted Spec.earlier l → StronglySorted Spec.not_later l.
Proof.
  induction 1 as [|b l Hl IH Hb]; constructor; [done|].
  eapply Forall_impl; [exact Hb|]. intros y. apply Qclt_le_weak.
Qed.

End Sorting.

Section ExportRoundTrip.
Context {validator : Validator} {numbers : NumberText}.
Context {B : Type} {history : Exporter.HistoricalBars B}.

Import Data Exporter.

(** The merge keeps the bars it has and adds bars of the chunk only. *)
Lemma merge_chunk_elem (existing : gset float) (all_bars chunk : list Bar) (b : Bar) :
  b ∈ merge_chunk existing all_bars chunk → b ∈ all_bars ∨ b ∈ chunk.
Proof.
  revert existing all_bars. induction chunk as [|c chunk IH]; intros existing all_bars; simpl.
  { auto. }
  case_bool_decide.
  - intros H1. apply IH in H1 as [H1|H1]; [by left|right; by constructor].
  - intros H1. apply IH in H1 as [H1|H1]; [|right; by constructor].
    apply elem_of_app in H1 as [H1|H1]; [by left|].
    apply list_elem_of_singleton in H1 as ->. right. by constructor.
Qed.

(** The merge adds no timestamp twice. *)
Lemma merge_chunk_nodup (existing : gset float) (all_bars chunk : list Bar) :
  (∀ t, t ∈ existing ↔ t ∈ timestamp_epoch_s <$> all_bars) →
  NoDup (timestamp_epoch_s <$> all_bars) →
  NoDup (timestamp_epoch_s <$> merge_chunk existing all_bars chunk).
Proof.
  revert existing all_bars. induction chunk as [|c chunk IH]; intros existing all_bars Hex Hnd;
    simpl; [done|].
  case_bool_decide as Hin; [by apply IH|].
  apply IH.
  - intros t. rewrite elem_of_union, elem_of_singleton, fmap_app, elem_of_app, Hex.
    simpl. rewrite list_elem_of_singleton. tauto.
  - rewrite fmap_app. apply NoDup_app. split_and!; [done| |by apply NoDup_singleton].
    intros t Ht ->%list_elem_of_singleton. apply Hin. by apply Hex.
Qed.

Lemma timestamps_elem (bars : list Bar) (t : float) :
  t ∈ timestamps bars ↔ t ∈ timestamp_epoch_s <$> bars.
Proof. unfold timestamps. apply elem_of_list_to_set. Qed.

Lemma fetch_all_nodup (calls : nat) (cfg : ExportConfig) (inst : InstrumentSpec)
    (end_dt : option string) (all_bars : list Bar) (broker broker' : B) (bars : list Bar) :
  NoDup (timestamp_epoch_s <$> all_bars) →
  fetch_all calls cfg inst end_dt all_bars broker = (Ok bars, broker') →
  NoDup (timestamp_epoch_s <$> bars).
Proof.
  revert end_dt all_bars broker.
  induction calls as [|calls IH]; intros end_dt all_bars broker Hnd; simpl.
  { by intros [= <- _]. }
  destruct (get_historical_bars _ _ _ _ _ _ _) as [[chunk|e] broker1]; [|done].
  destruct chunk as [|c chunk]; [by intros [= <- _]|].
  destruct (sort_by_timestamp _) as [|b0 rest] eqn:Hsort; [done|].
  destruct (flt (pacing_sleep_seconds cfg) fzero); [done|].
  apply IH. rewrite <- Hsort, sort_by_timestamp_perm.
  apply merge_chunk_nodup; [apply timestamps_elem|done].
Qed.

Lemma exported_row_cells (c1 c2 c3 c4 c5 c6 : string) :
  let row := Csv.dict_of_row fieldnames [c1; c2; c3; c4; c5; c6] in
  row !! "timestamp" = Some (Some c1) ∧ row !! "open" = Some (Some c2)
  ∧ row !! "high" = Some (Some c3) ∧ row !! "low" = Some (Some c4)
  ∧ row !! "close" = Some (Some c5) ∧ row !! "volume" = Some (Some c6).
Proof. vm_compute. by split_and!. Qed.

(** A row the exporter writes is read back as the bar it was written from. *)
Lemma bar_of_exported_row (b : Bar) :
  Spec.whole_seconds b → Spec.text_faithful b →
  bar_of_row (Csv.dict_of_row fieldnames (row_of_bar b)) = Ok b.
Proof.
  intros Hts ([Hne Hint] & Ho & Hh & Hl & Hc & Hv).
  unfold row_of_bar, bar_of_row, str_cell, float_cell, volume_cell, _parse_timestamp.
  destruct (exported_row_cells
              (pretty (int_of_float (timestamp_epoch_s b)))
              (str_of_float (open b)) (str_of_float (high b)) (str_of_float (low b))
              (str_of_float (close b))
              (match volume b with None => EmptyString | Some v => str_of_float v end))
    as (-> & -> & -> & -> & -> & ->).
  simpl. rewrite (proj2 (truthy_iff _) Hne). simpl. rewrite Hint. simpl.
  rewrite Ho, Hh, Hl, Hc. simpl. rewrite Hts.
  destruct b as [ts o h l c [v|]]; simpl in *.
  - destruct (Hv v eq_refl) as [Hback Hres].
    case_bool_decide; [done|]. by rewrite Hback.
  - done.
Qed.

Lemma read_exported_rows (bars : list Bar) :
  Forall Spec.whole_seconds bars → Forall Spec.text_faithful bars →
  read_rows fieldnames (row_of_bar <$> bars) = Ok bars.
Proof.
  induction bars as [|b bars IH]; intros Hts Htext; [done|].
  apply Forall_cons in Hts as [Hb Hts]. apply Forall_cons in Htext as [Hb' Htext].
  rewrite fmap_cons.
  change (read_rows fieldnames (row_of_bar b :: (row_of_bar <$> bars)))
    with (bar_of_row (Csv.dict_of_row fieldnames (row_of_bar b)) ≫= λ b0,
          read_rows fieldnames (row_of_bar <$> bars) ≫= λ bs, mret (b0 :: bs)).
  by rewrite bar_of_exported_row, IH.
Qed.

Lemma first_at_its_time_nil (b : Bar) : ¬ Spec.first_at_its_time [] b.
Proof. intros (l1 & l2 & Hl & _). by destruct l1. Qed.

Lemma first_at_its_time_elem (l : list Bar) (b : Bar) :
  Spec.first_at_its_time l b → b ∈ l.
Proof. intros (l1 & l2 & -> & _). apply elem_of_app. right. left. Qed.

(** What a bar appended to the list changes. *)
Lemma first_at_its_time_snoc (l : list Bar) (c b : Bar) :
  Spec.first_at_its_time (l ++ [c]) b
  ↔ Spec.first_at_its_time l b
    ∨ (b = c ∧ timestamp_epoch_s c ∉ timestamp_epoch_s <$> l).
Proof.
  split.
  - intros (l1 & l2 & Hl & Hfirst).
    destruct l2 as [|x l2 _] using rev_ind.
    + apply app_inj_tail in Hl as [-> ->]. by right.
    + rewrite app_comm_cons, app_assoc in Hl. apply app_inj_tail in Hl as [-> ->].
      left. by exists l1, l2.
  - intros [(l1 & l2 & -> & Hfirst)|[-> Hfirst]].
    + exists l1, (l2 ++ [c]). by rewrite <- app_assoc.
    + by exists l, [].
Qed.

(** Every timestamp of a list has its first bar. *)
Lemma first_at_its_time_exists (l : list Bar) (t : float) :
  t ∈ timestamp_epoch_s <$> l →
  ∃ b, Spec.first_at_its_time l b ∧ timestamp_epoch_s b = t.
Proof.
  induction l as [|x l IH]; intros Ht; [by apply elem_of_nil in Ht|].
  destruct (decide (timestamp_epoch_s x = t)) as [Hx|Hx].
  - exists x. split; [|done]. exists [], l. split; [done|]. apply not_elem_of_nil.
  - rewrite fmap_cons in Ht. apply elem_of_cons in Ht as [Ht|Ht]; [done|].
    destruct (IH Ht) as (b & (l1 & l2 & -> & Hfirst) & Hb).
    exists b. split; [|done]. exists (x :: l1), l2. split; [done|].
    rewrite fmap_cons. apply not_elem_of_cons. split; [congruence|done].
Qed.

(** The bars kept of a list carry the timestamps of the list. *)
Lemma kept_timestamps (all_bars seen : list Bar) :
  (∀ b, b ∈ all_bars ↔ Spec.first_at_its_time seen b) →
  ∀ t, t ∈ timestamp_epoch_s <$> all_bars ↔ t ∈ timestamp_epoch_s <$> seen.
Proof.
  intros Hkept t. split.
  - intros (b & -> & Hb)%list_elem_of_fmap. apply list_elem_of_fmap_2.
    by apply first_at_its_time_elem, Hkept.
  - intros (b & Hb & <-)%first_at_its_time_exists. apply list_elem_of_fmap_2.
    by apply Hkept.
Qed.

(** The merge keeps, of the bars seen and the chunk, the first of each
    timestamp. *)
Lemma merge_chunk_first (existing : gset float) (all_bars chunk seen : list Bar) :
  (∀ t, t ∈ existing ↔ t ∈ timestamp_epoch_s <$> seen) →
  (∀ b, b ∈ all_bars ↔ Spec.first_at_its_time seen b) →
  ∀ b, b ∈ merge_chunk existing all_bars chunk ↔ Spec.first_at_its_time (seen ++ chunk) b.
Proof.
  revert existing all_bars seen.
  induction chunk as [|c chunk IH]; intros existing all_bars seen Hex Hkept b; simpl.
  { by rewrite app_nil_r. }
  rewrite (cons_middle c seen chunk), app_assoc.
  case_bool_decide as Hin.
  - apply IH.
    + intros t. rewrite fmap_app, elem_of_app, <- Hex. simpl.
      rewrite list_elem_of_singleton. split; [auto|]. intros [?| ->]; done.
    + intros b'. rewrite first_at_its_time_snoc, Hkept. split; [auto|].
      intros [?|[_ Hnew]]; [done|]. exfalso. apply Hnew. by apply Hex.
  - apply IH.
    + intros t. rewrite elem_of_union, elem_of_singleton, fmap_app, elem_of_app, Hex.
      simpl. rewrite list_elem_of_singleton. tauto.
    + intros b'. rewrite first_at_its_time_snoc, elem_of_app, list_elem_of_singleton, Hkept.
      split; [intros [?| ->]; [by left|right; split; [done|by rewrite <- Hex]]|].
      intros [?|[-> _]]; auto.
Qed.

(** The loop returns the first bar of each timestamp among the bars it
    has seen and the pages it fetches. *)
Lemma fetch_all_first (calls : nat) (cfg : ExportConfig) (inst : InstrumentSpec)
    (end_dt : option string) (all_bars seen : list Bar) (broker broker' : B)
    (bars : list Bar) :
  (∀ b, b ∈ all_bars ↔ Spec.first_at_its_time seen b) →
  fetch_all calls cfg inst end_dt all_bars broker = (Ok bars, broker') →
  ∀ b, b ∈ bars
       ↔ Spec.first_at_its_time
           (seen ++ concat (pages_fetched calls cfg inst end_dt all_bars broker)) b.
Proof.
  revert end_dt all_bars seen broker.
  induction calls as [|calls IH]; intros end_dt all_bars seen broker Hkept; simpl.
  { intros [= <- _] b. by rewrite app_nil_r. }
  destruct (get_historical_bars _ _ _ _ _ _ _) as [[chunk|e] broker1]; [|done].
  destruct chunk as [|c chunk]; [intros [= <- _] b; by rewrite app_nil_r|].
  destruct (sort_by_timestamp _) as [|b0 rest] eqn:Hsort; [done|].
  destruct (flt (pacing_sleep_seconds cfg) fzero); [done|].
  intros Hfetch b.
  assert (∀ b', b' ∈ b0 :: rest ↔ Spec.first_at_its_time (seen ++ c :: chunk) b') as Hkept'.
  { intros b'. rewrite <- Hsort, sort_by_timestamp_perm.
    apply merge_chunk_first; [|done].
    intros t. rewrite timestamps_elem. by apply kept_timestamps. }
  rewrite (IH _ _ _ _ Hkept' Hfetch).
  by rewrite concat_cons, app_assoc.
Qed.

(** C7, as the code has it.  When the exporter returns, the file it wrote
    has the header line [timestamp,open,high,low,close,volume] and one row per
    returned bar; the returned bars are the accumulated bars: of the bars of
    the pages the broker handed out, in call order, the first one of each
    timestamp, and no other bar; they are strictly ascending in time, so
    sorted and without a repeated timestamp; a row starts with the timestamp
    cut to an integer and ends with the empty string when the bar has no
    volume.  Reloading the file gives back the same bars when every
    timestamp is a whole number of seconds (and the interpreter reads back
    the numbers it wrote). *)
Theorem export_then_load (broker broker' : B) (inst : InstrumentSpec) (cfg : ExportConfig)
    (end_datetime : option string) (bars : list Bar) (file : Csv.file) :
  export_historical_bars broker inst cfg end_datetime = (Ok (bars, file), broker') →
  file = fieldnames :: (row_of_bar <$> bars)
  ∧ Csv.line fieldnames = "timestamp,open,high,low,close,volume"
  ∧ (∃ inst0, validate_instrument inst = Ok inst0
       ∧ ∀ b, b ∈ bars
              ↔ Spec.first_at_its_time
                  (concat (pages_fetched (Z.to_nat (max_calls cfg)) cfg inst0
                             end_datetime [] broker)) b)
  ∧ StronglySorted Spec.earlier bars
  ∧ (∀ b, b ∈ bars →
       row_of_bar b !! 0 = Some (pretty (int_of_float (timestamp_epoch_s b)))
       ∧ (volume b = None → row_of_bar b !! 5 = Some EmptyString))
  ∧ (Forall Spec.whole_seconds bars → Forall Spec.text_faithful bars →
     ∀ inst' inst'', validate_instrument inst' = Ok inst'' →
       load_bars_csv file inst' = Ok (mkBarSeries inst'' bars)).
Proof.
  unfold export_historical_bars.
  destruct (validate_instrument inst) as [inst0|e]; [|done].
  destruct (fetch_all _ _ _ _ _ _) as [[all_bars|e] broker1] eqn:Hfetch; [|done].
  intros [= <- <- _].
  assert (StronglySorted Spec.earlier (sort_by_timestamp all_bars)) as Hsorted.
  { apply strictly_ascending; [apply sort_by_timestamp_sorted|].
    rewrite sort_by_timestamp_perm.
    eapply fetch_all_nodup; [|exact Hfetch]. constructor. }
  split_and!.
  - done.
  - reflexivity.
  - exists inst0. split; [done|]. intros b. rewrite sort_by_timestamp_perm.
    rewrite (fetch_all_first _ _ _ _ _ [] _ _ _ (λ b', conj (λ H, False_ind _ (not_elem_of_nil _ H)) (λ H, False_ind _ (first_at_its_time_nil _ H))) Hfetch).
    done.
  - done.
  - intros b _. split; [done|]. intros Hv. unfold row_of_bar. by rewrite Hv.
  - intros Hts Htext inst' inst'' Hinst.
    unfold load_bars_csv, csv_of_bars. rewrite Hinst. simpl.
    rewrite read_exported_rows by done. simpl.
    by rewrite sort_by_timestamp_id by (by apply earlier_not_later).
Qed.

End ExportRoundTrip.


(** Discharge of the conditions of the reload on a list of literal bars. *)
Ltac literal_text_faithful :=
  unfold Spec.text_faithful, Spec.integer_reads_back, Spec.reads_back;
  split_and!;
  first [ vm_compute; reflexivity
        | vm_compute; discriminate
        | intros ? [= <-]; split;
          [ vm_compute; reflexivity
          | rewrite !elem_of_cons, elem_of_nil;
            intros [H|[H|[H|[]]]]; vm_compute in H; discriminate H ]
        | intros ? [=] ].

Ltac for_each_literal tac :=
  repeat (apply Forall_cons; split; [tac|]); by apply Forall_nil.

Lemma export_then_load_witness :
  (Exporter.export_historical_bars (validator := spec_validator)
     (numbers := Examples.fraction_text) (history := Examples.scripted)
     Examples.pages Examples.aapl Examples.export_config None).1
  = Ok (Examples.bars, Exporter.csv_of_bars (numbers := Examples.fraction_text) Examples.bars)
  ∧ Exporter.pages_fetched (history := Examples.scripted) 10 Examples.export_config
      Examples.aapl_normalized None [] Examples.pages
    = Examples.pages
  ∧ (∀ b, b ∈ Examples.bars ↔ Spec.first_at_its_time (concat Examples.pages) b)
  ∧ Data.load_bars_csv (validator := spec_validator) (numbers := Examples.fraction_text)
      (Exporter.csv_of_bars (numbers := Examples.fraction_text) Examples.bars) Examples.aapl
    = Ok (Data.mkBarSeries Examples.aapl_normalized Examples.bars).
Proof.
  assert (Exporter.export_historical_bars (validator := spec_validator)
            (numbers := Examples.fraction_text) (history := Examples.scripted)
            Examples.pages Examples.aapl Examples.export_config None
          = (Ok (Examples.bars,
                 Exporter.csv_of_bars (numbers := Examples.fraction_text) Examples.bars), []))
    as Hexport by (vm_compute; reflexivity).
  assert (Exporter.pages_fetched (history := Examples.scripted) 10 Examples.export_config
            Examples.aapl_normalized None [] Examples.pages
          = Examples.pages) as Hpages by (vm_compute; reflexivity).
  destruct (export_then_load _ _ _ _ _ _ _ Hexport)
    as (_ & _ & (inst0 & Hinst & Hfirst) & _ & _ & Hload).
  split_and!.
  - by rewrite Hexport.
  - exact Hpages.
  - assert (inst0 = Examples.aapl_normalized) as ->
      by (vm_compute in Hinst; by injection Hinst as <-).
    change (Z.to_nat (Exporter.max_calls Examples.export_config)) with 10 in Hfirst.
    rewrite Hpages in Hfirst. exact Hfirst.
  - apply Hload; [| |reflexivity].
    + for_each_literal ltac:(vm_compute; reflexivity).
    + for_each_literal literal_text_faithful.
Defined.

(** The claim as stated fails: a bar stamped at 1.5 s is written with the
    timestamp 1, and the reloaded series differs from the exported one. *)
Lemma export_truncates_timestamp :
  (Exporter.export_historical_bars (validator := spec_validator)
     (numbers := Examples.fraction_text) (history := Examples.scripted)
     [[Examples.half_second_bar]] Examples.aapl Examples.export_config None).1
  = Ok ([Examples.half_second_bar],
        Exporter.csv_of_bars (numbers := Examples.fraction_text) [Examples.half_second_bar])
  ∧ Data.load_bars_csv (validator := spec_validator) (numbers := Examples.fraction_text)
      (Exporter.csv_of_bars (numbers := Examples.fraction_text) [Examples.half_second_bar])
      Examples.aapl
    = Ok (Data.mkBarSeries Examples.aapl_normalized [Examples.reloaded_half_second_bar])
  ∧ [Examples.reloaded_half_second_bar] ≠ [Examples.half_second_bar].
Proof.
  split_and!; [vm_compute; reflexivity | vm_compute; reflexivity |].
  intros H. injection H as H. vm_compute in H. discriminate H.
Qed.

(** ** The backtest broker: the order books over a session *)

Section BacktestBooks.
Context {validator : Validator}.

Import BacktestBroker.

Lemma try_fill_validated (req0 req : OrderRequest) (bar : Bar) :
  validate_order_request req0 = Ok req → ∃ o, _try_fill req bar = Ok o.
Proof.
  intros Hv. apply validated_conditions in Hv.
  destruct Hv as (_ & _ & Htype & Hl & Hs & Hsl & _).
  unfold _try_fill.
  destruct Htype as [Ht|[Ht|[Ht|Ht]]]; rewrite Ht; py_eval.
  - eauto.
  - destruct (Hl Ht) as (lp & -> & _). cbn. repeat (case_match; eauto).
  - destruct (Hs Ht) as (sp & -> & _). cbn. repeat (case_match; eauto).
  - destruct (Hsl Ht) as ((sp & -> & _) & (lp & -> & _)). cbn.
    repeat (case_match; eauto).
Qed.

(** What one round of the fill loop does to the books. *)
Lemma fill_order_books (bar : Bar) (oid : string) (b : BacktestBroker.t) :
  match _orders b !! oid with
  | None => fill_order bar oid b = (Raise KeyError, b)
  | Some req =>
      match _try_fill req bar with
      | Raise e => fill_order bar oid b = (Raise e, b)
      | Ok None => fill_order bar oid b = (Ok tt, b)
      | Ok (Some p) =>
          ∃ b', fill_order bar oid b = (Ok tt, b')
                ∧ _orders b' = _orders b ∧ fill_model b' = fill_model b
                ∧ _open b' = _open b ∖ {[oid]}
                ∧ _statuses b' = <[oid := Books.filled_status b oid req p]> (_statuses b)
      end
  end.
Proof.
  unfold fill_order. destruct (_orders b !! oid) as [req|]; [|done].
  destruct (_try_fill req bar) as [[p|]|e]; [|done|done].
  eexists. split; [reflexivity|]. done.
Qed.

Lemma fill_orders_books (bar : Bar) (oids : list string) (b : BacktestBroker.t) :
  NoDup oids →
  (∀ oid, oid ∈ oids → ∃ req o, _orders b !! oid = Some req ∧ _try_fill req bar = Ok o) →
  ∃ b', fill_orders bar oids b = (Ok tt, b')
        ∧ _orders b' = _orders b ∧ fill_model b' = fill_model b
        ∧ (∀ oid, oid ∉ oids →
             _statuses b' !! oid = _statuses b !! oid ∧ (oid ∈ _open b' ↔ oid ∈ _open b))
        ∧ (∀ oid req, oid ∈ oids → _orders b !! oid = Some req →
             match _try_fill req bar with
             | Ok (Some p) =>
                 _statuses b' !! oid = Some (Books.filled_status b oid req p) ∧ oid ∉ _open b'
             | _ => _statuses b' !! oid = _statuses b !! oid ∧ (oid ∈ _open b' ↔ oid ∈ _open b)
             end).
Proof.
  revert b. induction oids as [|oid oids IH]; intros b Hnd Hall.
  { exists b. do 4 (split; [done|]). intros oid req Hin. by apply elem_of_nil in Hin. }
  apply NoDup_cons in Hnd as [Hfresh Hnd].
  destruct (Hall oid) as (req & o & Hreq & Ho); [left|].
  pose proof (fill_order_books bar oid b) as Hone. rewrite Hreq, Ho in Hone.
  assert (∃ b1, fill_order bar oid b = (Ok tt, b1)
                ∧ _orders b1 = _orders b ∧ fill_model b1 = fill_model b
                ∧ (∀ oid', oid' ≠ oid →
                     _statuses b1 !! oid' = _statuses b !! oid'
                     ∧ (oid' ∈ _open b1 ↔ oid' ∈ _open b))
                ∧ match o with
                  | Some p => _statuses b1 !! oid = Some (Books.filled_status b oid req p)
                              ∧ oid ∉ _open b1
                  | None => _statuses b1 !! oid = _statuses b !! oid
                            ∧ (oid ∈ _open b1 ↔ oid ∈ _open b)
                  end) as (b1 & Hb1 & Ho1 & Hf1 & Hother & Hself).
  { destruct o as [p|].
    - destruct Hone as (b1 & Hb1 & Ho1 & Hf1 & Hopen & Hst). exists b1.
      do 3 (split; [done|]). split.
      + intros oid' Hne. rewrite Hst, Hopen, lookup_insert_ne by done. set_solver.
      + rewrite Hst, Hopen, lookup_insert_eq. set_solver.
    - exists b. by do 4 (split; [done|]). }
  destruct (IH b1 Hnd) as (b' & Hb' & Ho' & Hf' & Hout & Hin).
  { intros oid' Hin. rewrite Ho1. apply Hall. by right. }
  exists b'. split; [|split; [|split; [|split]]].
  - simpl. by rewrite Hb1.
  - congruence.
  - congruence.
  - intros oid' Hnot. apply not_elem_of_cons in Hnot as [Hne Hnot].
    destruct (Hout oid' Hnot) as [-> ->]. by apply Hother.
  - intros oid' req' Hmem Hreq'. apply elem_of_cons in Hmem as [->|Hmem].
    + assert (req' = req) as -> by congruence. rewrite Ho.
      destruct (Hout oid Hfresh) as [Hsame Hopen'].
      destruct o as [p|]; rewrite Hsame; [by rewrite Hopen'|].
      split; [tauto|]. rewrite Hopen'. tauto.
    + assert (oid' ≠ oid) as Hne by (intros ->; done).
      specialize (Hin oid' req' Hmem). rewrite Ho1 in Hin. specialize (Hin Hreq').
      destruct (Hother oid' Hne) as [Hsame Hopen'].
      unfold Books.filled_status in *. rewrite Hf1 in Hin.
      destruct (_try_fill req' bar) as [[p|]|e]; rewrite <- ?Hsame, <- ?Hopen'; done.
Qed.

Lemma fill_order_consistent (bar : Bar) (oid : string) (b : BacktestBroker.t) :
  Books.consistent b → Books.consistent (snd (fill_order bar oid b)).
Proof.
  intros [Hso Hop Hsv].
  pose proof (fill_order_books bar oid b) as Hone.
  destruct (_orders b !! oid) as [req|] eqn:Hreq; [|by rewrite Hone].
  destruct (_try_fill req bar) as [[p|]|e]; [|by rewrite Hone..].
  destruct Hone as (b' & -> & Ho & _ & Hopen & Hst). simpl.
  split.
  - intros oid'. rewrite Hst, Ho, lookup_insert. case_decide as Heq; [|apply Hso].
    subst oid'. rewrite Hreq. split; eauto.
  - intros oid'. rewrite Hst, Hopen, lookup_insert. case_decide; [eauto|].
    intros Hin. apply Hop. set_solver.
  - intros oid' st. rewrite Hst, Hopen, lookup_insert. case_decide as Heq.
    + subst oid'. intros [= <-]. simpl. split_and!; [done|set_solver|].
      split; [set_solver|done].
    + intros Hst'. destruct (Hsv _ _ Hst') as (? & ? & ?). split_and!; [done..|].
      set_solver.
Qed.

Lemma fill_orders_consistent (bar : Bar) (oids : list string) (b : BacktestBroker.t) :
  Books.consistent b → Books.consistent (snd (fill_orders bar oids b)).
Proof.
  revert b. induction oids as [|oid oids IH]; intros b Hb; [done|]. simpl.
  pose proof (fill_order_consistent bar oid b Hb) as Hone.
  destruct (fill_order bar oid b) as [[[]|e] b1]; simpl in *; [|done].
  by apply IH.
Qed.

Lemma place_order_consistent (uuid : string) (req : OrderRequest) (b : BacktestBroker.t) :
  Books.consistent b → Books.consistent (snd (place_order uuid req b)).
Proof.
  intros [Hso Hop Hsv]. unfold place_order. destruct (connected b); simpl; [|done].
  destruct (validate_order_request req) as [r|e]; [|done].
  destruct (validate_instrument (Base.instrument r)) as [inst|e]; [|done].
  case_bool_decide; simpl; [|done].
  split; simpl.
  - intros oid. rewrite !lookup_insert. case_decide; [split; eauto|apply Hso].
  - intros oid. rewrite lookup_insert. case_decide; [eauto|].
    intros Hin. apply Hop. set_solver.
  - intros oid st. rewrite lookup_insert. case_decide as Heq.
    + subst oid. intros [= <-]. simpl. split_and!; [done|set_solver|]. split; [done|set_solver].
    + intros Hst. destruct (Hsv _ _ Hst) as (? & ? & ?). split_and!; [done..|]. set_solver.
Qed.

Lemma after_consistent (c : Session.call) (b : BacktestBroker.t) :
  Books.consistent b → Books.consistent (Session.after c b).
Proof.
  intros Hb. destruct c as [uuid req|oid req|oid|u1 u2 u3 req| |]; simpl.
  - by apply place_order_consistent.
  - destruct Hb as [Hso Hop Hsv].
    unfold modify_order. destruct (connected b); simpl; [|done].
    destruct (_orders b !! oid) as [old|] eqn:Hold; [|done].
    destruct (validate_order_request req) as [r|e]; [|done]. simpl.
    assert (Books.consistent
              (if bool_decide (oid ∈ _open b)
               then set_statuses
                      (<[oid := mkOrderStatus oid "Submitted" (Some fzero)
                                  (Some (quantity r)) None]> (_statuses b))
                      (set_orders (<[oid := r]> (_orders b)) b)
               else set_orders (<[oid := r]> (_orders b)) b)) as Hnew.
    { case_bool_decide as Hopen; split; simpl.
      - intros oid'. rewrite !lookup_insert. case_decide; [split; eauto|apply Hso].
      - intros oid'. rewrite lookup_insert. case_decide; [eauto|]. apply Hop.
      - intros oid' st. rewrite lookup_insert. case_decide as Heq.
        + subst oid'. intros [= <-]. simpl. split_and!; [done|set_solver|]. done.
        + apply Hsv.
      - intros oid'. rewrite lookup_insert. case_decide as Heq; [|apply Hso].
        subst oid'. rewrite Hso, Hold. split; eauto.
      - apply Hop.
      - apply Hsv. }
    match goal with |- context [?m !! oid] => destruct (m !! oid) end; done.
  - destruct Hb as [Hso Hop Hsv].
    unfold cancel_order. destruct (connected b); simpl; [|done].
    destruct (_orders b !! oid) as [old|] eqn:Hold; [|done]. simpl.
    split; simpl.
    + intros oid'. rewrite lookup_insert. case_decide as Heq; [|apply Hso].
      subst oid'. rewrite Hold. split; eauto.
    + intros oid'. rewrite lookup_insert. case_decide; [eauto|].
      intros Hin. apply Hop. set_solver.
    + intros oid' st. rewrite lookup_insert. case_decide as Heq.
      * subst oid'. intros [= <-]. simpl. split_and!; [done|set_solver|].
        split; [set_solver|done].
      * intros Hst. destruct (Hsv _ _ Hst) as (? & ? & ?). split_and!; [done..|]. set_solver.
  - unfold place_bracket_order.
    pose proof (place_order_consistent u1 (bracket_entry req) b Hb) as H1.
    destruct (place_order u1 (bracket_entry req) b) as [[r1|e] b1]; simpl in *; [|done].
    pose proof (place_order_consistent u2 (bracket_take_profit req) b1 H1) as H2.
    destruct (place_order u2 (bracket_take_profit req) b1) as [[r2|e] b2]; simpl in *; [|done].
    pose proof (place_order_consistent u3 (bracket_stop_loss req) b2 H2) as H3.
    by destruct (place_order u3 (bracket_stop_loss req) b2) as [[r3|e] b3].
  - unfold step. destruct (connected b); simpl; [|done].
    case_bool_decide; simpl; [done|].
    destruct (bars b !! _i b) as [bar|]; [|done].
    unfold _fill_open_orders.
    pose proof (fill_orders_consistent bar (elements (_open b)) b Hb) as Hfill.
    destruct (fill_orders bar (elements (_open b)) b) as [[[]|e] b1]; simpl in *; [|done].
    by destruct Hfill.
  - by destruct Hb.
Qed.

Lemma run_consistent (cs : list Session.call) (b : BacktestBroker.t) :
  Books.consistent b → Books.consistent (Session.run cs b).1.
Proof.
  revert b. induction cs as [|c cs IH]; intros b Hb; [done|]. simpl.
  specialize (IH _ (after_consistent c b Hb)).
  by destruct (Session.run cs (Session.after c b)) as [b' n].
Qed.

Lemma connect_new_consistent (inst : InstrumentSpec) (bs : list Bar) (cash : float)
    (fm : FillModel.t) (spr : float) :
  Books.consistent (snd (connect (new inst bs cash fm spr)))
  ∧ Session.orders_validated (snd (connect (new inst bs cash fm spr))).
Proof.
  unfold connect. simpl. destruct (validate_instrument inst); simpl.
  all: split; [split; simpl|intros oid req; simpl; by rewrite lookup_empty].
  all: try (intros oid; rewrite !lookup_empty; split; intros [? [=]]).
  all: try (intros oid Hin; set_solver).
  all: intros oid st; by rewrite lookup_empty.
Qed.

(** X1.  Start from a new backtest broker, call [connect()] and then any
    sequence of order calls, steps and disconnects.  Whatever the calls
    returned or raised, the books agree: an id has a status exactly when
    the broker holds its request; the status is filed under its own id and
    is Submitted, Filled or Cancelled; and the open set holds exactly the
    ids whose status is Submitted. *)
Theorem backtest_order_lifecycle (inst : InstrumentSpec) (bs : list Bar) (cash : float)
    (fm : FillModel.t) (spr : float) (cs : list Session.call) :
  let b := (Session.run cs (snd (connect (new inst bs cash fm spr)))).1 in
  (∀ oid, is_Some (_statuses b !! oid) ↔ is_Some (_orders b !! oid))
  ∧ (∀ oid, oid ∈ _open b → is_Some (_statuses b !! oid))
  ∧ (∀ oid st, _statuses b !! oid = Some st →
       order_id st = oid
       ∧ status st ∈ ["Submitted"; "Filled"; "Cancelled"]
       ∧ (oid ∈ _open b ↔ status st = "Submitted")).
Proof.
  intros b.
  destruct (run_consistent cs _ (proj1 (connect_new_consistent inst bs cash fm spr)))
    as [H1 H2 H3].
  done.
Qed.

(** X2.  On a broker reached from a new one by [connect()] and any session,
    that is connected and has a bar under its cursor, [step()] does not
    raise: it returns whether bars remain and moves the cursor by one.  It
    keeps every request, leaves the status of every order that was not open
    as it was, fills exactly the open orders to which [_try_fill] gives a
    price on that bar (status Filled at the price after slippage, no longer
    open), and leaves the other open orders open and unchanged. *)
Theorem backtest_step_fills_open_orders (inst : InstrumentSpec) (bs : list Bar)
    (cash : float) (fm : FillModel.t) (spr : float) (cs : list Session.call) (bar : Bar) :
  let b := (Session.run cs (snd (connect (new inst bs cash fm spr)))).1 in
  connected b = true →
  bs !! _i b = Some bar →
  ∃ b', step b = (Ok (bool_decide (S (_i b) < length bs)), b')
        ∧ _i b' = S (_i b)
        ∧ _orders b' = _orders b
        ∧ (∀ oid, oid ∉ _open b →
             _statuses b' !! oid = _statuses b !! oid ∧ oid ∉ _open b')
        ∧ (∀ oid req, oid ∈ _open b → _orders b !! oid = Some req →
             (∀ p, _try_fill req bar = Ok (Some p) →
                   _statuses b' !! oid = Some (Books.filled_status b oid req p)
                   ∧ oid ∉ _open b')
             ∧ (_try_fill req bar = Ok None →
                   _statuses b' !! oid = _statuses b !! oid ∧ oid ∈ _open b')).
Proof.
  intros b Hconn Hbar.
  destruct (connect_new_consistent inst bs cash fm spr) as [Hc0 Hv0].
  pose proof (run_consistent cs _ Hc0) as Hc. fold b in Hc.
  pose proof (session_orders_validated cs _ Hv0) as Hv. fold b in Hv.
  assert (bars b = bs) as Hbars.
  { destruct (run_frame cs (snd (connect (new inst bs cash fm spr)))) as ((_ & Hb) & _).
    - unfold connect. simpl. destruct (validate_instrument inst); simpl; lia.
    - fold b in Hb. rewrite Hb. unfold connect. simpl.
      by destruct (validate_instrument inst). }
  pose proof (lookup_lt_Some _ _ _ Hbar) as Hlt.
  destruct Hc as [Hso Hop Hsv].
  destruct (fill_orders_books bar (elements (_open b)) b) as (b' & Hfill & Ho & Hf & Hout & Hin).
  { apply NoDup_elements. }
  { intros oid Hmem. apply elem_of_elements in Hmem.
    apply Hop, Hso in Hmem as [req Hreq].
    destruct (Hv _ _ Hreq) as [req0 Hreq0].
    destruct (try_fill_validated req0 req bar Hreq0) as [o Ho]. eauto. }
  pose proof (fill_orders_frame bar (elements (_open b)) b) as (_ & Hi & _).
  rewrite Hfill in Hi. simpl in Hi.
  exists (set_i (S (_i b')) b').
  split; [|split; [|split; [|split]]].
  - unfold step. rewrite Hconn, Hbars. simpl.
    rewrite bool_decide_eq_false_2 by lia. rewrite Hbar.
    unfold _fill_open_orders. rewrite Hfill. simpl.
    assert (bars b' = bs) as ->.
    { pose proof (fill_orders_frame bar (elements (_open b)) b) as ((_ & Hb') & _).
      rewrite Hfill in Hb'. simpl in Hb'. congruence. }
    by rewrite Hi.
  - simpl. by rewrite Hi.
  - done.
  - intros oid Hnot. simpl.
    destruct (Hout oid) as [Hst Hopen]; [by rewrite elem_of_elements|].
    split; [done|]. by rewrite Hopen.
  - intros oid req Hmem Hreq. simpl.
    specialize (Hin oid req). rewrite elem_of_elements in Hin.
    specialize (Hin Hmem Hreq).
    split.
    + intros p Hp. by rewrite Hp in Hin.
    + intros Hnone. rewrite Hnone in Hin. destruct Hin as [Hst Hopen]. by rewrite Hopen.
Qed.

End BacktestBooks.

Lemma backtest_step_fills_open_orders_witness :
  ∃ b', BacktestBroker.step
          (Session.run (validator := spec_validator)
             [Session.PlaceOrder "u1" Examples.market_buy] Examples.connected_backtest).1
        = (Ok true, b')
        ∧ BacktestBroker._statuses b' !! "bt-u1"
          = Some (mkOrderStatus "bt-u1" "Filled" (Some (float_of_Z 1)) (Some fzero)
                    (Some (float_of_Z 100))).
Proof.
  destruct (backtest_step_fills_open_orders (validator := spec_validator)
              Examples.aapl Examples.bars (float_of_Z 1000) FillModel.default fzero
              [Session.PlaceOrder "u1" Examples.market_buy] (Examples.bar 1 100 105 95 102))
    as (b' & Hstep & _ & _ & _ & Hfill); [reflexivity | reflexivity |].
  exists b'. split; [exact Hstep|].
  destruct (Hfill "bt-u1"
              (mkOrderRequest Examples.aapl_normalized "BUY" (float_of_Z 1) "MKT" None None
                 "DAY" false None None None None true)) as [Hprice _].
  - vm_compute. reflexivity.
  - vm_compute. reflexivity.
  - destruct (Hprice (float_of_Z 100)) as [Hst _]; [reflexivity|].
    rewrite Hst. vm_compute. reflexivity.
Defined.

(** ** The backtest broker: cash and position *)

Section BacktestPosition.
Context {validator : Validator}.

Import BacktestBroker.

Lemma fabs_pos (x : float) : fgt (fabs x) fzero = true → x ≠ fzero.
Proof.
  intros H ->. vm_compute in H. discriminate H.
Qed.

Lemma apply_fill_flat (side : string) (qty price commission : float) (b : BacktestBroker.t) :
  (_qty b = fzero ↔ _avg_cost b = None) →
  let b' := _apply_fill side qty price commission b in
  _qty b' = fzero ↔ _avg_cost b' = None.
Proof.
  intros Hflat. unfold _apply_fill.
  destruct (bool_decide (Py.upper side = "BUY")); simpl.
  all: destruct (feq (_qty b) fzero) eqn:Hq;
    [unfold feq; case_bool_decide as Hn; simpl; [by split|]; split; [done|intros [=]]|].
  all: apply bool_decide_eq_false in Hq.
  all: assert (_avg_cost b ≠ None) as Havg by (intros H; by apply Hflat in H).
  all: destruct (_ || _) eqn:Hdir;
    [|unfold feq; case_bool_decide as Hn; [by split|]; by split].
  all: match goal with |- ?n = fzero ↔ _ => assert (n ≠ fzero) as Hne end.
  1,3: unfold fgt, flt in Hdir;
    apply orb_true_iff in Hdir as [Hdir|Hdir]; apply andb_true_iff in Hdir as [H1 H2];
    apply bool_decide_eq_true in H1, H2;
    [ apply not_eq_sym, Qclt_not_eq; apply Qcplus_pos_nonneg; [done|by apply Qclt_le_weak]
    | apply Qclt_not_eq; apply Qcplus_neg_nonpos; [done|by apply Qclt_le_weak] ].
  all: match goal with
       | |- context [fgt (fabs ?x) fzero] => destruct (fgt (fabs x) fzero)
       end; [split; [done|intros [=]]|]; by split.
Qed.

Lemma fill_order_position (P : BacktestBroker.t → Prop) (bar : Bar) (oid : string)
    (b : BacktestBroker.t) :
  (∀ side qty price commission b0, P b0 → P (_apply_fill side qty price commission b0)) →
  (∀ b0 v, P b0 → P (set_open v b0)) →
  (∀ b0 v, P b0 → P (set_statuses v b0)) →
  P b → P (snd (fill_order bar oid b)).
Proof.
  intros Hfill Hopen Hst Hb. unfold fill_order.
  destruct (_orders b !! oid) as [req|]; [|done].
  destruct (_try_fill req bar) as [[p|]|e]; [|done..]. simpl.
  apply Hst. apply (Hopen _ _). by apply Hfill.
Qed.

(** A property of the cash and the position that every fill keeps holds
    after every call of a session. *)
Lemma after_position (P : float → float → option float → Prop) (c : Session.call)
    (b : BacktestBroker.t) :
  (∀ side qty price commission b0,
     P (_cash b0) (_qty b0) (_avg_cost b0) →
     let b1 := _apply_fill side qty price commission b0 in
     P (_cash b1) (_qty b1) (_avg_cost b1)) →
  P (_cash b) (_qty b) (_avg_cost b) →
  let b' := Session.after c b in P (_cash b') (_qty b') (_avg_cost b').
Proof.
  intros Hfill Hb.
  assert (∀ uuid req b0, P (_cash b0) (_qty b0) (_avg_cost b0) →
            let b1 := snd (place_order uuid req b0) in
            P (_cash b1) (_qty b1) (_avg_cost b1)) as Hplace.
  { intros uuid req b0 H0. unfold place_order. destruct (connected b0); simpl; [|done].
    destruct (validate_order_request req) as [r|e]; [|done].
    destruct (validate_instrument (Base.instrument r)) as [inst|e]; [|done].
    case_bool_decide; done. }
  destruct c as [uuid req|oid req|oid|u1 u2 u3 req| |]; simpl.
  - by apply Hplace.
  - unfold modify_order. destruct (connected b); simpl; [|done].
    destruct (_orders b !! oid); [|done].
    destruct (validate_order_request req) as [r|e]; [|done].
    case_bool_decide; simpl; match goal with |- context [?m !! oid] => destruct (m !! oid) end; done.
  - unfold cancel_order. destruct (connected b); simpl; [|done].
    destruct (_orders b !! oid); done.
  - unfold place_bracket_order.
    pose proof (Hplace u1 (bracket_entry req) b Hb) as H1.
    destruct (place_order u1 (bracket_entry req) b) as [[r1|e] b1]; simpl in *; [|done].
    pose proof (Hplace u2 (bracket_take_profit req) b1 H1) as H2.
    destruct (place_order u2 (bracket_take_profit req) b1) as [[r2|e] b2]; simpl in *; [|done].
    pose proof (Hplace u3 (bracket_stop_loss req) b2 H2) as H3.
    by destruct (place_order u3 (bracket_stop_loss req) b2) as [[r3|e] b3].
  - unfold step. destruct (connected b); simpl; [|done].
    case_bool_decide; simpl; [done|].
    destruct (bars b !! _i b) as [bar|]; [|done].
    unfold _fill_open_orders.
    assert (∀ oids b0, P (_cash b0) (_qty b0) (_avg_cost b0) →
              let b1 := snd (fill_orders bar oids b0) in
              P (_cash b1) (_qty b1) (_avg_cost b1)) as Hall.
    { induction oids as [|oid oids IH]; intros b0 H0; [done|]. simpl.
      pose proof (fill_order_position (λ x, P (_cash x) (_qty x) (_avg_cost x)) bar oid b0
                    Hfill (λ _ _ H, H) (λ _ _ H, H) H0) as Hone.
      destruct (fill_order bar oid b0) as [[[]|e] b1]; simpl in *; [|done].
      by apply IH. }
    specialize (Hall (elements (_open b)) b Hb).
    by destruct (fill_orders bar (elements (_open b)) b) as [[[]|e] b1].
  - done.
Qed.

Lemma run_position (P : float → float → option float → Prop) (cs : list Session.call)
    (b : BacktestBroker.t) :
  (∀ side qty price commission b0,
     P (_cash b0) (_qty b0) (_avg_cost b0) →
     let b1 := _apply_fill side qty price commission b0 in
     P (_cash b1) (_qty b1) (_avg_cost b1)) →
  P (_cash b) (_qty b) (_avg_cost b) →
  let b' := (Session.run cs b).1 in P (_cash b') (_qty b') (_avg_cost b').
Proof.
  intros Hfill. revert b. induction cs as [|c cs IH]; intros b Hb; [done|]. simpl.
  specialize (IH _ (after_position P c b Hfill Hb)).
  by destruct (Session.run cs (Session.after c b)) as [b' n].
Qed.

(** X3.  After [connect()] on a new backtest broker and any session, the
    position is flat exactly when it has no average cost: the quantity is
    zero if and only if [_avg_cost] is [None]. *)
Theorem backtest_flat_iff_no_avg_cost (inst : InstrumentSpec) (bs : list Bar) (cash : float)
    (fm : FillModel.t) (spr : float) (cs : list Session.call) :
  let b := (Session.run cs (snd (connect (new inst bs cash fm spr)))).1 in
  _qty b = fzero ↔ _avg_cost b = None.
Proof.
  apply (run_position (λ _ qty avg, qty = fzero ↔ avg = None)).
  - intros side qty price commission b0. apply apply_fill_flat.
  - unfold connect. simpl. by destruct (validate_instrument inst).
Qed.

End BacktestPosition.

(** ** The backtest broker: brackets, modified orders and the current bar *)

Section BacktestEdges.
Context {validator : Validator}.

Import BacktestBroker.

Lemma place_order_accepted (uuid : string) (req : OrderRequest) (res : OrderResult)
    (b b1 : BacktestBroker.t) :
  place_order uuid req b = (Ok res, b1) →
  ∃ r, validate_order_request req = Ok r
       ∧ connected b = true
       ∧ res = mkOrderResult ("bt-" +:+ uuid) "Submitted"
       ∧ b1 = set_statuses
                (<["bt-" +:+ uuid := mkOrderStatus ("bt-" +:+ uuid) "Submitted" (Some fzero)
                                       (Some (quantity r)) None]> (_statuses b))
                (set_open ({["bt-" +:+ uuid]} ∪ _open b)
                   (set_orders (<["bt-" +:+ uuid := r]> (_orders b)) b)).
Proof.
  unfold place_order. destruct (connected b); simpl; [|done].
  destruct (validate_order_request req) as [r|e]; [|done].
  destruct (validate_instrument (Base.instrument r)) as [inst|e]; [|done].
  case_bool_decide; simpl; [|done].
  intros [= <- <-]. by exists r.
Qed.

(** X6.  [place_bracket_order] places its three orders one after the other
    and does not undo the first when a later one is refused: if the entry
    order is accepted and the take-profit price is not positive, the call
    raises [ValueError] and leaves the entry order in the broker, open and
    Submitted. *)
Theorem backtest_bracket_keeps_entry (u1 u2 u3 : string) (req : BracketOrderRequest)
    (res : OrderResult) (b b1 : BacktestBroker.t) :
  place_order u1 (bracket_entry req) b = (Ok res, b1) →
  (take_profit_limit_price req ≤ 0)%Qc →
  place_bracket_order u1 u2 u3 req b = (Raise ValueError, b1)
  ∧ "bt-" +:+ u1 ∈ _open b1
  ∧ is_Some (_orders b1 !! ("bt-" +:+ u1))
  ∧ _statuses b1 !! ("bt-" +:+ u1)
    = Some (mkOrderStatus ("bt-" +:+ u1) "Submitted" (Some fzero) (Some (br_quantity req)) None).
Proof.
  intros Hentry Hprice.
  destruct (place_order_accepted _ _ _ _ _ Hentry) as (r & Hr & Hconn & -> & Hb1).
  rewrite validate_order_request_unfold in Hr. simpl in Hr.
  destruct (validate_instrument (br_instrument req)) as [inst|e] eqn:Hinst; [|done].
  destruct (Spec.passes_checks _); [|done]. injection Hr as <-.
  assert (place_order u2 (bracket_take_profit req) b1 = (Raise ValueError, b1)) as Hleg.
  { unfold place_order. rewrite Hb1. simpl. rewrite Hconn. simpl.
    rewrite validate_order_request_unfold. simpl. rewrite Hinst.
    unfold Spec.passes_checks.
    assert ((if bool_decide (order_type (normalized_with inst (bracket_take_profit req)) = "LMT")
             then negb (missing_or_nonpositive
                          (limit_price (normalized_with inst (bracket_take_profit req))))
             else true) = false) as ->; [|by rewrite andb_false_r].
    simpl. py_eval. unfold fle. by rewrite bool_decide_eq_true_2. }
  split_and!.
  - unfold place_bracket_order. by rewrite Hentry, Hleg.
  - rewrite Hb1. simpl. set_solver.
  - rewrite Hb1. simpl. rewrite lookup_insert_eq. eauto.
  - rewrite Hb1. simpl. by rewrite lookup_insert_eq.
Qed.

(** X7.  On a connected broker reached by a session, [modify_order] of an
    order that is no longer open (Filled or Cancelled) with a request that
    validates does not raise: it answers with the order's status as it
    stands, replaces the stored request, and changes nothing else. *)
Theorem backtest_modify_closed_order (inst : InstrumentSpec) (bs : list Bar) (cash : float)
    (fm : FillModel.t) (spr : float) (cs : list Session.call)
    (oid : string) (st : OrderStatus) (new_req r : OrderRequest) :
  let b := (Session.run cs (snd (connect (new inst bs cash fm spr)))).1 in
  connected b = true →
  _statuses b !! oid = Some st →
  status st ≠ "Submitted" →
  validate_order_request new_req = Ok r →
  modify_order oid new_req b
  = (Ok (mkOrderResult oid (status st)), set_orders (<[oid := r]> (_orders b)) b).
Proof.
  intros b Hconn Hst Hclosed Hr.
  destruct (run_consistent cs _ (proj1 (connect_new_consistent inst bs cash fm spr)))
    as [Hso Hop Hsv]. fold b in Hso, Hop, Hsv.
  destruct (proj1 (Hso oid)) as [old Hold]; [eauto|].
  destruct (Hsv _ _ Hst) as (_ & _ & Hopen).
  unfold modify_order. rewrite Hconn, Hold, Hr. simpl.
  rewrite bool_decide_eq_false_2 by tauto. simpl. by rewrite Hst.
Qed.

(** X8.  After [connect()] on a new broker and a session in which [n] calls
    moved the cursor, [current_bar] is bar [n - 1] of the series, bar 0
    before the first step; it raises [IndexError] exactly when the series
    is empty. *)
Theorem backtest_current_bar (inst : InstrumentSpec) (bs : list Bar) (cash : float)
    (fm : FillModel.t) (spr : float) (cs : list Session.call) :
  let b := (Session.run cs (snd (connect (new inst bs cash fm spr)))).1 in
  let n := (Session.run cs (snd (connect (new inst bs cash fm spr)))).2 in
  current_bar b = match bs !! (n - 1) with Some bar => Ok bar | None => Raise IndexError end
  ∧ (bs !! (n - 1) = None ↔ bs = []).
Proof.
  intros b n.
  assert (_i (snd (connect (new inst bs cash fm spr))) = 0
          ∧ bars (snd (connect (new inst bs cash fm spr))) = bs) as [Hi0 Hbars0].
  { unfold connect. simpl. by destruct (validate_instrument inst). }
  destruct (run_frame cs (snd (connect (new inst bs cash fm spr)))) as ((_ & Hb) & Hn & Hle);
    [lia|].
  fold b in Hb, Hn, Hle. fold n in Hn. rewrite Hi0 in Hn. rewrite Hbars0 in Hb, Hle.
  simpl in Hn. split.
  - unfold current_bar. rewrite Hb, Hn.
    case_bool_decide as Hz; [by rewrite Hz|].
    by replace (Nat.min (n - 1) (length bs - 1)) with (n - 1) by lia.
  - rewrite lookup_ge_None. split.
    + intros Hge. destruct bs; [done|]. simpl in *. lia.
    + intros ->. simpl. lia.
Qed.

End BacktestEdges.

Lemma backtest_bracket_keeps_entry_witness :
  (BacktestBroker.place_bracket_order (validator := spec_validator) "u1" "u2" "u3"
     (mkBracketOrderRequest Examples.aapl "BUY" (float_of_Z 1) (float_of_Z 99) fzero
        (float_of_Z 90) "DAY") Examples.connected_backtest).1
  = Raise ValueError
  ∧ "bt-u1" ∈ BacktestBroker._open
      (BacktestBroker.place_bracket_order (validator := spec_validator) "u1" "u2" "u3"
         (mkBracketOrderRequest Examples.aapl "BUY" (float_of_Z 1) (float_of_Z 99) fzero
            (float_of_Z 90) "DAY") Examples.connected_backtest).2.
Proof.
  destruct (backtest_bracket_keeps_entry (validator := spec_validator) "u1" "u2" "u3"
              (mkBracketOrderRequest Examples.aapl "BUY" (float_of_Z 1) (float_of_Z 99) fzero
                 (float_of_Z 90) "DAY")
              (mkOrderResult "bt-u1" "Submitted") Examples.connected_backtest
              (BacktestBroker.place_order (validator := spec_validator) "u1"
                 (BacktestBroker.bracket_entry
                    (mkBracketOrderRequest Examples.aapl "BUY" (float_of_Z 1) (float_of_Z 99)
                       fzero (float_of_Z 90) "DAY")) Examples.connected_backtest).2)
    as (Hraise & Hopen & _); [vm_compute; reflexivity | by vm_compute |].
  rewrite Hraise. split; [reflexivity | exact Hopen].
Defined.

Lemma backtest_modify_closed_order_witness :
  (BacktestBroker.modify_order (validator := spec_validator) "bt-u1" Examples.limit_buy_99
     Examples.filled_backtest).1
  = Ok (mkOrderResult "bt-u1" "Filled").
Proof.
  unfold Examples.filled_backtest, Examples.connected_backtest, Examples.fresh_backtest.
  rewrite (backtest_modify_closed_order (validator := spec_validator)
             Examples.aapl Examples.bars (float_of_Z 1000) FillModel.default fzero
             [Session.PlaceOrder "u1" Examples.market_buy; Session.Step] "bt-u1"
             (mkOrderStatus "bt-u1" "Filled" (Some (float_of_Z 1)) (Some fzero)
                (Some (float_of_Z 100)))
             Examples.limit_buy_99
             (mkOrderRequest Examples.aapl_normalized "BUY" (float_of_Z 1) "LMT"
                (Some (float_of_Z 99)) None "DAY" false None None None None true)).
  - reflexivity.
  - reflexivity.
  - vm_compute. reflexivity.
  - discriminate.
  - vm_compute. reflexivity.
Defined.

(** ** The simulated broker over a session *)

Section SimSessions.
Context {validator : Validator}.

Import SimBroker.

Lemma sim_exec_cases (c : SimSession.call) (b : SimBroker.t) :
  let b' := snd (SimSession.exec c b) in
  (fst (SimSession.exec c b) ≠ None → b' = b)
  ∧ orders b `prefix_of` orders b'
  ∧ (∀ oid, is_Some (_statuses b !! oid) → is_Some (_statuses b' !! oid)).
Proof.
  assert (∀ (oid k : string) (v : OrderStatus) (m : gmap string OrderStatus),
            is_Some (m !! oid) → is_Some (<[k := v]> m !! oid))
    as Hkeep.
  { intros oid k v m Hm. rewrite lookup_insert. by case_decide. }
  destruct c; simpl; unfold SimSession.outcome.
  - by split_and!.
  - by split_and!.
  - unfold set_market_data. destruct (validate_instrument inst); simpl; by split_and!.
  - unfold set_historical_bars. destruct (validate_instrument inst); simpl; by split_and!.
  - by split_and!.
  - by split_and!.
  - unfold get_market_data_snapshot. destruct (connected b); simpl; [|by split_and!].
    destruct (validate_instrument inst) as [i|]; simpl; [|by split_and!].
    destruct (market_data b !! i); simpl; by split_and!.
  - unfold get_positions. destruct (connected b); simpl; by split_and!.
  - unfold get_account_snapshot. destruct (connected b); simpl; by split_and!.
  - unfold place_order. destruct (connected b); simpl; [|by split_and!].
    destruct (validate_order_request req) as [r|]; simpl; [|by split_and!].
    split_and!; [done| by apply prefix_app_r | intros oid; apply Hkeep].
  - unfold modify_order. destruct (connected b); simpl; [|by split_and!].
    destruct (_statuses b !! oid) as [cur|] eqn:Hcur; simpl; [|by split_and!].
    destruct (validate_order_request req) as [r|]; simpl; [|by split_and!].
    rewrite ?Hcur. destruct (is_terminal (status cur)); simpl.
    + split_and!; [done| by apply prefix_app_r | done].
    + split_and!; [done| by apply prefix_app_r | intros oid'; apply Hkeep].
  - unfold cancel_order. destruct (connected b); simpl; [|by split_and!].
    destruct (_statuses b !! oid) as [cur|] eqn:Hcur; simpl; [|by split_and!].
    destruct (is_terminal (status cur)); simpl; [by split_and!|].
    split_and!; [done | done | intros oid'; apply Hkeep].
  - unfold get_order_status. destruct (connected b); simpl; [|by split_and!].
    destruct (_statuses b !! oid); simpl; by split_and!.
  - unfold list_open_order_statuses. destruct (connected b); simpl; by split_and!.
  - split_and!; [done | done | intros oid'; apply Hkeep].
  - unfold place_bracket_order. destruct (connected b); simpl; [|by split_and!].
    split_and!; [done | done |]. intros oid' H. by do 3 apply Hkeep.
  - unfold get_historical_bars. destruct (connected b); simpl; [|by split_and!].
    destruct (validate_instrument inst); simpl; by split_and!.
Qed.

(** X9.  A call on the simulated broker that raises leaves the broker as it
    was, for every method of the broker and every argument. *)
Theorem sim_failed_call_changes_nothing (c : SimSession.call) (b : SimBroker.t) (e : exn) :
  fst (SimSession.exec c b) = Some e → snd (SimSession.exec c b) = b.
Proof.
  intros He. apply (sim_exec_cases c b). by rewrite He.
Qed.

(** X10.  Over any sequence of calls on the simulated broker, nothing is
    forgotten: the list of requests only grows at its end, and an order id
    that has a status keeps having one. *)
Theorem sim_books_only_grow (cs : list SimSession.call) (b : SimBroker.t) :
  orders b `prefix_of` orders (SimSession.run cs b)
  ∧ (∀ oid, is_Some (_statuses b !! oid) → is_Some (_statuses (SimSession.run cs b) !! oid)).
Proof.
  revert b. induction cs as [|c cs IH]; intros b; [done|].
  destruct (sim_exec_cases c b) as (_ & Hpre & Hst).
  destruct (IH (snd (SimSession.exec c b))) as [Hpre' Hst'].
  unfold SimSession.run in *. simpl. split.
  - by etrans.
  - intros oid H. by apply Hst', Hst.
Qed.

(** X11.  [cancel_order] of a known order on a connected simulated broker
    returns, leaves the order with a terminal status (a Filled or Cancelled
    order as it was, any other one Cancelled with its fill figures kept),
    and a second cancel changes nothing more. *)
Theorem sim_cancel_idempotent (oid : string) (st : OrderStatus) (b : SimBroker.t) :
  connected b = true →
  _statuses b !! oid = Some st →
  let b' := snd (cancel_order oid b) in
  cancel_order oid b = (Ok tt, b')
  ∧ _statuses b' !! oid
    = Some (if is_terminal (status st) then st
            else mkOrderStatus oid "Cancelled" (filled st) (remaining st) (avg_fill_price st))
  ∧ cancel_order oid b' = (Ok tt, b').
Proof.
  intros Hconn Hst. unfold cancel_order. rewrite Hconn, Hst. simpl.
  destruct (is_terminal (status st)) eqn:Hterm; simpl.
  - rewrite Hconn, Hst. simpl. by rewrite Hterm.
  - rewrite Hconn, lookup_insert_eq. simpl. done.
Qed.

(** X12.  Market data and history of the simulated broker are keyed by the
    validated instrument: after [set_market_data] (or
    [set_historical_bars]) for an instrument, a query on the connected
    broker for any instrument that validates to the same one returns what
    was stored, and a query for any other instrument is answered as
    before. *)
Theorem sim_stored_data_round_trip (inst inst' i i' : InstrumentSpec) (bid ask l c v ts : option float)
    (now : float) (bars : list Bar) (e : option string) (d bs w : string) (u : bool)
    (b : SimBroker.t) :
  validate_instrument inst = Ok i →
  validate_instrument inst' = Ok i' →
  connected b = true →
  let b1 := snd (set_market_data inst bid ask l c v ts now b) in
  let b2 := snd (set_historical_bars inst bars b) in
  fst (get_market_data_snapshot inst' b1)
  = (if decide (i' = i) then Ok (mkSnapshot i bid ask l c v (default now ts))
     else fst (get_market_data_snapshot inst' b))
  ∧ fst (get_historical_bars inst' e d bs w u b2)
    = (if decide (i' = i) then Ok bars else fst (get_historical_bars inst' e d bs w u b)).
Proof.
  intros Hi Hi' Hconn.
  unfold set_market_data, set_historical_bars, get_market_data_snapshot, get_historical_bars.
  rewrite Hi, ?Hi'. simpl. rewrite Hconn. simpl. rewrite ?Hi'.
  rewrite !lookup_insert.
  destruct (decide (i' = i)) as [->|Hne].
  - rewrite !decide_True by done. done.
  - rewrite !decide_False by done. split; [|done].
    by destruct (market_data b !! i').
Qed.

End SimSessions.

Lemma sim_failed_call_changes_nothing_witness :
  snd (SimSession.exec (validator := spec_validator) (SimSession.CancelOrder "sim-0")
         Examples.sim_with_order)
  = Examples.sim_with_order.
Proof.
  apply (sim_failed_call_changes_nothing (validator := spec_validator)
           (SimSession.CancelOrder "sim-0") Examples.sim_with_order KeyError).
  vm_compute. reflexivity.
Defined.

Lemma sim_cancel_idempotent_witness :
  SimBroker._statuses
    (snd (SimBroker.cancel_order "sim-a"
            (snd (SimBroker.place_bracket_order "a" "b" "c"
                    (mkBracketOrderRequest Examples.aapl "BUY" (float_of_Z 1) (float_of_Z 99)
                       (float_of_Z 110) (float_of_Z 90) "DAY")
                    (snd (SimBroker.connect SimBroker.new)))))) !! "sim-a"
  = Some (mkOrderStatus "sim-a" "Cancelled" None None None).
Proof.
  destruct (sim_cancel_idempotent "sim-a" (mkOrderStatus "sim-a" "Submitted" None None None)
              (snd (SimBroker.place_bracket_order "a" "b" "c"
                      (mkBracketOrderRequest Examples.aapl "BUY" (float_of_Z 1) (float_of_Z 99)
                         (float_of_Z 110) (float_of_Z 90) "DAY")
                      (snd (SimBroker.connect SimBroker.new)))))
    as (_ & Hst & _); [reflexivity | vm_compute; reflexivity |].
  rewrite Hst. reflexivity.
Defined.

Lemma sim_stored_data_round_trip_witness :
  fst (SimBroker.get_market_data_snapshot (validator := spec_validator)
         Examples.aapl_normalized
         (snd (SimBroker.set_market_data (validator := spec_validator) Examples.aapl
                 (Some (float_of_Z 99)) (Some (float_of_Z 101)) None None None None
                 (float_of_Z 7) (snd (SimBroker.connect SimBroker.new)))))
  = Ok (mkSnapshot Examples.aapl_normalized (Some (float_of_Z 99)) (Some (float_of_Z 101))
          None None None (float_of_Z 7)).
Proof.
  destruct (sim_stored_data_round_trip (validator := spec_validator)
              Examples.aapl Examples.aapl_normalized
              Examples.aapl_normalized Examples.aapl_normalized
              (Some (float_of_Z 99)) (Some (float_of_Z 101)) None None None None
              (float_of_Z 7) [] None "1 D" "5 mins" "TRADES" false
              (snd (SimBroker.connect SimBroker.new)))
    as [Hget _]; [vm_compute; reflexivity | vm_compute; reflexivity | reflexivity |].
  rewrite Hget. reflexivity.
Defined.

(** ** Loading a series *)

Section LoadBars.
Context {validator : Validator} {numbers : NumberText}.

Import Data.

Lemma read_rows_length (names : list string) (rows : list (list string)) (bars : list Bar) :
  read_rows names rows = Ok bars →
  length bars = length (filter (λ r, r ≠ []) rows).
Proof.
  revert bars. induction rows as [|cells rows IH]; intros bars.
  { by intros [= <-]. }
  destruct cells as [|c cells].
  { rewrite filter_cons_False by (by intros ?). apply IH. }
  rewrite filter_cons_True by done. cbn [read_rows].
  destruct (bar_of_row _) as [b|e]; [|done].
  destruct (read_rows names rows) as [bs|e]; [|done].
  intros [= <-]. cbn [length]. f_equal. by apply IH.
Qed.

(** What a returned series is made of: the header names the required
    columns, the instrument is the validated one, and the bars are those of
    the data rows, one per non-empty row, ordered by the stable sort. *)
Lemma load_bars_csv_returns (content : Csv.file) (inst : InstrumentSpec) (series : BarSeries) :
  load_bars_csv content inst = Ok series →
  ∃ (names : list string) (rows : list (list string)) (bars : list Bar),
    content = names :: rows
    ∧ Forall (λ n, n ∈ names) required
    ∧ read_rows names rows = Ok bars
    ∧ validate_instrument inst = Ok (series_instrument series)
    ∧ series_bars series ≡ₚ bars
    ∧ StronglySorted Spec.not_later (series_bars series)
    ∧ length (series_bars series) = length (filter (λ r, r ≠ []) rows).
Proof.
  unfold load_bars_csv.
  destruct (validate_instrument inst) as [i|e]; simpl; [|done].
  destruct content as [|names rows]; [done|].
  case_bool_decide as Hreq; simpl; [|done].
  destruct (read_rows names rows) as [bars|e] eqn:Hrows; simpl; [|done].
  intros [= <-]. exists names, rows, bars. simpl.
  split_and!; try done.
  - apply sort_by_timestamp_perm.
  - apply sort_by_timestamp_sorted.
  - rewrite sort_by_timestamp_perm. by apply (read_rows_length names).
Qed.

(** X15.  [load_bars_csv] refuses a file without a header line and a file
    whose header lacks one of the required columns with [ValueError], before
    reading any row. *)
Theorem load_bars_csv_bad_header (content : Csv.file) (inst i : InstrumentSpec) :
  validate_instrument inst = Ok i →
  (content = [] ∨ ∃ names rows column,
      content = names :: rows ∧ column ∈ required ∧ column ∉ names) →
  load_bars_csv content inst = Raise ValueError.
Proof.
  intros Hi Hbad. unfold load_bars_csv. rewrite Hi. simpl.
  destruct Hbad as [->|(names & rows & column & -> & Hreq & Hmiss)]; [done|].
  rewrite bool_decide_eq_false_2; [done|].
  intros Hall. apply Hmiss. by apply (proj1 (Forall_forall _ _) Hall).
Qed.

End LoadBars.

Section LoadedSeries.
Context {validator : Validator} {numbers : NumberText}.

Import Validate.

Lemma check_bars_sorted_cons (b : Bar) (bars : list Bar) (i : nat) (last_ts : option float)
    (issues : list ValidationIssue) :
  (∀ l, last_ts = Some l → (l ≤ timestamp_epoch_s b)%Qc) →
  ∃ found,
    check_bars i (of_bar <$> b :: bars) last_ts issues
    = check_bars (S i) (of_bar <$> bars) (Some (timestamp_epoch_s b)) (issues ++ found)
    ∧ ∀ j, mkIssue error (timestamps_not_sorted j) ∉ found.
Proof.
  intros Hlast. rewrite fmap_cons. simpl. unfold chained_le, compare_with. simpl.
  assert (match last_ts with
          | Some l => if flt (timestamp_epoch_s b) l
                      then issues ++ [mkIssue error (timestamps_not_sorted i)] else issues
          | None => issues
          end = issues) as ->.
  { destruct last_ts as [l|]; [|done]. unfold flt.
    rewrite bool_decide_eq_false_2; [done|]. apply Qcle_not_lt. by apply Hlast. }
  set (prices := price_issues i (of_bar b)).
  set (range := if fgt (low b) (high b) then [mkIssue error (low_above_high i)] else []).
  set (opens := if fle (low b) (open b) && fle (open b) (high b)
                then [] else [mkIssue warn (open_outside i)]).
  set (closes := if fle (low b) (close b) && fle (close b) (high b)
                 then [] else [mkIssue warn (close_outside i)]).
  exists (prices ++ range ++ opens ++ closes). split.
  - f_equal. subst prices range opens closes.
    destruct (fgt (low b) (high b)), (fle (low b) (open b)), (fle (open b) (high b)),
        (fle (low b) (close b)), (fle (close b) (high b)); simpl;
      by rewrite <- ?app_assoc, ?app_nil_r.
  - intros j. rewrite !elem_of_app. subst prices range opens closes.
    unfold price_issues, field_issues, of_bar. cbn [f_open f_high f_low f_close].
    rewrite !elem_of_app.
    repeat match goal with |- context [if ?c then _ else _] => destruct c end;
      rewrite ?elem_of_cons, ?elem_of_nil; naive_solver.
Qed.

Lemma check_bars_sorted (bars : list Bar) (i : nat) (last_ts : option float)
    (issues : list ValidationIssue) :
  StronglySorted Spec.not_later bars →
  (∀ l, last_ts = Some l → Forall (λ b, (l ≤ timestamp_epoch_s b)%Qc) bars) →
  ∃ found, check_bars i (of_bar <$> bars) last_ts issues = Ok (issues ++ found)
           ∧ ∀ j, mkIssue error (timestamps_not_sorted j) ∉ found.
Proof.
  revert i last_ts issues. induction bars as [|b bars IH]; intros i last_ts issues Hs Hlast.
  { exists []. rewrite app_nil_r. split; [done|]. intros j. apply not_elem_of_nil. }
  apply StronglySorted_inv in Hs as [Hs Hb].
  destruct (check_bars_sorted_cons b bars i last_ts issues) as (found & -> & Hfound).
  { intros l Hl. specialize (Hlast l Hl). by apply Forall_cons in Hlast as [? _]. }
  destruct (IH (S i) (Some (timestamp_epoch_s b)) (issues ++ found) Hs)
    as (more & -> & Hmore).
  { by intros l [= <-]. }
  exists (found ++ more). rewrite app_assoc. split; [done|].
  intros j. rewrite elem_of_app. naive_solver.
Qed.

Lemma check_duplicates_adds (bars : list bar_fields) (i : nat) (seen : gset (option float))
    (issues : list ValidationIssue) (x : ValidationIssue) :
  x ∈ check_duplicates i bars seen issues →
  x ∈ issues ∨ ∃ j, x = mkIssue warn (duplicate_timestamp j).
Proof.
  revert i seen issues. induction bars as [|b bars IH]; intros i seen issues; simpl; [auto|].
  intros Hx. apply IH in Hx as [Hx|Hx]; [|by right].
  case_bool_decide; [|by left].
  apply elem_of_app in Hx as [Hx|Hx]; [by left|].
  apply list_elem_of_singleton in Hx. right. eauto.
Qed.

(** X16.  The bars of a series [load_bars_csv] returned pass the order
    check of [validate_bars]: the validation returns a list of issues, and
    no issue of it reports timestamps out of order. *)
Theorem loaded_series_in_order (content : Csv.file) (inst : InstrumentSpec)
    (series : Data.BarSeries) :
  Data.load_bars_csv content inst = Ok series →
  ∃ issues, validate_bars (of_bar <$> Data.series_bars series) = Ok issues
            ∧ ∀ j, mkIssue error (timestamps_not_sorted j) ∉ issues.
Proof.
  intros Hload.
  destruct (load_bars_csv_returns _ _ _ Hload) as (names & rows & read & _ & _ & _ & _ & _ & Hsorted & _).
  destruct (Data.series_bars series) as [|b bars] eqn:Hbars.
  { eexists. split; [reflexivity|]. intros j.
    rewrite list_elem_of_singleton. discriminate. }
  unfold validate_bars.
  change (of_bar <$> b :: bars) with (of_bar b :: (of_bar <$> bars)).
  cbv iota beta.
  change (of_bar b :: (of_bar <$> bars)) with (of_bar <$> b :: bars).
  destruct (check_bars_sorted (b :: bars) 0 None [] Hsorted) as (found & Hfirst & Hfound);
    [done|].
  rewrite app_nil_l in Hfirst. rewrite Hfirst. cbn [mbind result_bind mret result_ret].
  eexists. split; [reflexivity|].
  intros j Hj. apply check_duplicates_adds in Hj as [Hj|[k Hk]]; [|discriminate Hk].
  by apply (Hfound j).
Qed.

End LoadedSeries.

Lemma load_bars_csv_bad_header_witness :
  Data.load_bars_csv (validator := spec_validator) (numbers := Examples.fraction_text)
    [["timestamp"; "open"; "high"; "low"]; ["1"; "100"; "105"; "95"]] Examples.aapl
  = Raise ValueError.
Proof.
  apply (load_bars_csv_bad_header (validator := spec_validator)
           (numbers := Examples.fraction_text) _ Examples.aapl Examples.aapl_normalized).
  - vm_compute. reflexivity.
  - right. exists ["timestamp"; "open"; "high"; "low"], [["1"; "100"; "105"; "95"]], "close".
    split_and!; [reflexivity | | ].
    + unfold Data.required. rewrite !elem_of_cons. tauto.
    + rewrite !elem_of_cons, elem_of_nil. intros [H|[H|[H|[H|[]]]]]; discriminate H.
Defined.

Lemma loaded_series_in_order_witness :
  ∃ issues,
    Validate.validate_bars
      (Validate.of_bar <$> [Examples.bar 1 100 105 95 102; Examples.bar 2 102 106 101 104])
    = Ok issues
    ∧ ∀ j, Validate.mkIssue Validate.error (Validate.timestamps_not_sorted j) ∉ issues.
Proof.
  apply (loaded_series_in_order (validator := spec_validator)
           (numbers := Examples.fraction_text)
           (Exporter.csv_of_bars (numbers := Examples.fraction_text)
              [Examples.bar 2 102 106 101 104; Examples.bar 1 100 105 95 102]) Examples.aapl
           (Data.mkBarSeries Examples.aapl_normalized
              [Examples.bar 1 100 105 95 102; Examples.bar 2 102 106 101 104])).
  vm_compute. reflexivity.
Defined.

(** ** The tool dispatcher: the other tools *)

Section Dispatcher.
Context {validator : Validator} {numbers : NumberText} {json_runtime : Json.Runtime}.
Context {W : Type} {services : Tools.Services W}.

Import Tools.

(** X18.  [get_snapshot] and [modify_order] are behind the allow-list like
    [place_order]: when the instrument of the call parses and is not
    allowed, [dispatch_tool] raises ToolError and the state of the broker
    and of the order manager is as it was: no market data is requested and
    no order is modified. *)
Theorem guarded_tools_enforce_allowlist (name : string) (args : Json.dict)
    (allowed_kinds allowed_symbols : gset string) (w : W) :
  (Py.strip name = "get_snapshot" →
   ∀ inst, _parse_instrument args = Ok inst →
           ¬ Spec.allowed inst allowed_kinds allowed_symbols →
           dispatch_tool name args allowed_kinds allowed_symbols w = (Raise ToolError, w))
  ∧ (Py.strip name = "modify_order" →
     ∀ req, _parse_order_request (Json.get_value "order" args) = Ok req →
            ¬ Spec.allowed (instrument req) allowed_kinds allowed_symbols →
            dispatch_tool name args allowed_kinds allowed_symbols w = (Raise ToolError, w)).
Proof.
  split.
  - intros Hname inst Hparse Hn. unfold dispatch_tool. rewrite Hname. decide_literals.
    by rewrite Hparse, enforce_allowlist_rejects.
  - intros Hname req Hparse Hn. unfold dispatch_tool. rewrite Hname. decide_literals.
    destruct (Py.truthy (order_id_arg args)); simpl; [|done].
    by rewrite Hparse, enforce_allowlist_rejects.
Qed.

(** X19.  The allow-list guards these three tools only: the outcome of a
    call of any other name, [cancel_order] among them, does not depend on
    the allowed kinds and symbols. *)
Theorem unguarded_tools_ignore_allowlist (name : string) (args : Json.dict)
    (kinds symbols kinds' symbols' : gset string) (w : W) :
  Py.strip name ∉ ["get_snapshot"; "place_order"; "modify_order"] →
  dispatch_tool name args kinds symbols w = dispatch_tool name args kinds' symbols' w.
Proof.
  rewrite !not_elem_of_cons. intros (H1 & H2 & H3 & _).
  unfold dispatch_tool.
  rewrite (bool_decide_eq_false_2 _ H1), (bool_decide_eq_false_2 _ H2),
    (bool_decide_eq_false_2 _ H3).
  reflexivity.
Qed.

(** X20.  The dispatcher refuses, with ToolError and without calling the
    broker or the order manager, a tool name that is none of its nine, and
    a [modify_order] or [cancel_order] whose [order_id] is missing or
    blank. *)
Theorem dispatch_refusals (name : string) (args : Json.dict)
    (kinds symbols : gset string) (w : W) :
  (Py.strip name ∉ ["get_snapshot"; "get_positions"; "get_account"; "list_open_orders";
                    "place_order"; "modify_order"; "cancel_order"; "oms_reconcile";
                    "oms_track"] →
   dispatch_tool name args kinds symbols w = (Raise ToolError, w))
  ∧ (Py.strip name ∈ ["modify_order"; "cancel_order"] →
     Py.strip (Json.str (Json.get_or "order_id" (JStr "") args)) = "" →
     dispatch_tool name args kinds symbols w = (Raise ToolError, w)).
Proof.
  split.
  - rewrite !not_elem_of_cons. intros (H1 & H2 & H3 & H4 & H5 & H6 & H7 & H8 & H9 & _).
    unfold dispatch_tool.
    by rewrite (bool_decide_eq_false_2 _ H1), (bool_decide_eq_false_2 _ H2),
      (bool_decide_eq_false_2 _ H3), (bool_decide_eq_false_2 _ H4),
      (bool_decide_eq_false_2 _ H5), (bool_decide_eq_false_2 _ H6),
      (bool_decide_eq_false_2 _ H7), (bool_decide_eq_false_2 _ H8),
      (bool_decide_eq_false_2 _ H9).
  - rewrite !elem_of_cons, elem_of_nil. intros [Hname|[Hname|[]]] Hid.
    all: unfold dispatch_tool, order_id_arg; rewrite Hname, Hid; by decide_literals.
Qed.


End Dispatcher.

Lemma guarded_tools_enforce_allowlist_witness :
  Tools.dispatch_tool (validator := spec_validator) (numbers := Examples.fraction_text)
    (json_runtime := Examples.one_document) (services := Tools.recording_services)
    " get_snapshot" [("symbol", JStr "tsla")] {["STK"]} {["AAPL"]} []
  = (Raise ToolError, []).
Proof.
  refine (proj1 (guarded_tools_enforce_allowlist (validator := spec_validator)
            (numbers := Examples.fraction_text) (json_runtime := Examples.one_document)
            (services := Tools.recording_services)
            " get_snapshot" [("symbol", JStr "tsla")] {["STK"]} {["AAPL"]} []) _
            (mkInstrument "STK" "TSLA" (Some "SMART") (Some "USD") None) _ _).
  - reflexivity.
  - vm_compute. reflexivity.
  - intros [_ Hs]. destruct Hs as (y & Hy & Hup); [set_solver|].
    apply elem_of_singleton in Hy. subst y. vm_compute in Hup. discriminate Hup.
Defined.

Lemma unguarded_tools_ignore_allowlist_witness :
  Tools.dispatch_tool (validator := spec_validator) (numbers := Examples.fraction_text)
    (json_runtime := Examples.one_document) (services := Tools.recording_services)
    "cancel_order" [("order_id", JStr "bt-u1")] ∅ ∅ []
  = Tools.dispatch_tool (validator := spec_validator) (numbers := Examples.fraction_text)
      (json_runtime := Examples.one_document) (services := Tools.recording_services)
      "cancel_order" [("order_id", JStr "bt-u1")] {["STK"]} {["AAPL"]} [].
Proof.
  apply (unguarded_tools_ignore_allowlist (validator := spec_validator)
           (numbers := Examples.fraction_text) (json_runtime := Examples.one_document)
           (services := Tools.recording_services)).
  rewrite !elem_of_cons, elem_of_nil. intros [H|[H|[H|[]]]]; discriminate H.
Defined.

Lemma dispatch_refusals_witness :
  Tools.dispatch_tool (validator := spec_validator) (numbers := Examples.fraction_text)
    (json_runtime := Examples.one_document) (services := Tools.recording_services)
    "cancel_order" [("order_id", JStr "  ")] {["STK"]} ∅ [Examples.market_buy]
  = (Raise ToolError, [Examples.market_buy]).
Proof.
  apply (proj2 (dispatch_refusals (validator := spec_validator)
                  (numbers := Examples.fraction_text) (json_runtime := Examples.one_document)
                  (services := Tools.recording_services)
                  "cancel_order" [("order_id", JStr "  ")] {["STK"]} ∅ [Examples.market_buy])).
  - rewrite !elem_of_cons. right. left. reflexivity.
  - reflexivity.
Defined.

